(** * Himawari live wallpaper: a shallow embedding of [himawari_wallpaper.py]

    The development follows the script function by function.  Python values
    are kept as the script has them: file names and URLs are byte strings,
    integers are [Z], the JSON number [cover_ratio] is an int or a binary64
    float, exceptions are values of [exn], and everything that touches the
    directory, the network, the clock or the desktop runs in a state and
    exception monad over [World]. *)

From Stdlib Require Import ZArith List String Ascii Bool Lia.
From Stdlib Require Import Permutation Sorted.
From Stdlib Require Import Floats.SpecFloat DecimalString DecimalPos.
From Stdlib Require DecimalZ.
Import ListNotations.

Set Warnings "-register-all".

Open Scope string_scope.
Open Scope list_scope.
Open Scope Z_scope.

(* ================================================================== *)
(** * Python built-ins used by the script *)
(* ================================================================== *)

Module Py.

(** Exceptions the script can meet.  [RequestException] stands for whatever
    [requests.get] or [raise_for_status] raises, [UnidentifiedImageError] for
    a body [Image.open] cannot read, [OSError] for what decoding the pixel
    data of an opened file raises (a truncated body).  [RuntimeError msg
    cause] is [raise RuntimeError(msg) from cause]. *)
Inductive exn : Type :=
| ZeroDivisionError
| ValueError
| OverflowError
| IndexError
| RequestException (detail : string)
| UnidentifiedImageError
| OSError (detail : string)
| RuntimeError (msg : string) (cause : option exn).

Inductive result (A : Type) : Type :=
| Ok (a : A)
| Raise (e : exn).
Arguments Ok {A} a.
Arguments Raise {A} e.

Definition is_ok {A} (r : result A) : bool :=
  match r with Ok _ => true | Raise _ => false end.

(** [range(n)] for an int [n]: empty when [n <= 0]. *)
Definition range (n : Z) : list Z :=
  map Z.of_nat (seq 0 (Z.to_nat n)).

(** [str(n)] for an int. *)
Definition str (n : Z) : string :=
  NilZero.string_of_int (Z.to_int n).

(** [s.split(sep)] for a one-character separator: every occurrence cuts,
    adjacent separators give empty parts, and the result is never empty. *)
Fixpoint split (sep : ascii) (s : string) : list string :=
  match s with
  | EmptyString => [EmptyString]
  | String c s' =>
      if Ascii.eqb c sep then EmptyString :: split sep s'
      else match split sep s' with
           | p :: ps => String c p :: ps
           | [] => [String c EmptyString]
           end
  end.

(** [s.replace(old, new)] for a one-character [old]. *)
Fixpoint replace (old : ascii) (new : string) (s : string) : string :=
  match s with
  | EmptyString => EmptyString
  | String c s' =>
      if Ascii.eqb c old then (new ++ replace old new s')%string
      else String c (replace old new s')
  end.

(** [s.endswith(suffix)]. *)
Definition endswith (s suffix : string) : bool :=
  let n := String.length s in
  let k := String.length suffix in
  (k <=? n)%nat && String.eqb (substring (n - k) k s) suffix.

(** [s.rfind(c)] as an option: the index of the last occurrence. *)
Fixpoint rfind (c : ascii) (s : string) : option nat :=
  match s with
  | EmptyString => None
  | String d s' =>
      match rfind c s' with
      | Some i => Some (S i)
      | None => if Ascii.eqb d c then Some O else None
      end
  end.

(** [s.startswith(p)]. *)
Definition startswith (s p : string) : bool := prefix p s.

(** [c in s] for a character [c]. *)
Fixpoint occurs (c : ascii) (s : string) : bool :=
  match s with
  | EmptyString => false
  | String d s' => Ascii.eqb d c || occurs c s'
  end.

(** [s.lower()] on a byte string: the letters A to Z are lowered, every
    other byte is kept. *)
Definition lower_char (c : ascii) : ascii :=
  let n := nat_of_ascii c in
  if (65 <=? n)%nat && (n <=? 90)%nat then ascii_of_nat (n + 32) else c.

Fixpoint lower (s : string) : string :=
  match s with
  | EmptyString => EmptyString
  | String c s' => String (lower_char c) (lower s')
  end.

(** Whether every character of [s] is a dot. *)
Fixpoint all_dots (s : string) : bool :=
  match s with
  | EmptyString => true
  | String c s' => Ascii.eqb c "." && all_dots s'
  end.

(** [os.path.splitext(p)[1]]: the extension starts at the last dot of the
    last component; without a dot there, or with nothing but dots before
    it in that component, the extension is empty. *)
Definition splitext_ext (p : string) : string :=
  let sepIndex := match rfind "/" p with Some i => Z.of_nat i | None => -1 end in
  let dotIndex := match rfind "." p with Some i => Z.of_nat i | None => -1 end in
  if sepIndex <? dotIndex then
    let filenameIndex := sepIndex + 1 in
    if all_dots (substring (Z.to_nat filenameIndex)
                           (Z.to_nat (dotIndex - filenameIndex)) p)
    then EmptyString
    else substring (Z.to_nat dotIndex) (String.length p - Z.to_nat dotIndex) p
  else EmptyString.

(** [os.path.join(a, b)]: an absolute [b] stands alone; otherwise [b]
    follows [a], after a slash unless [a] is empty or ends with one. *)
Definition join (a b : string) : string :=
  if startswith b "/" then b
  else if String.eqb a "" || endswith a "/" then (a ++ b)%string
  else (a ++ "/" ++ b)%string.

(** [PurePath.stem]: the final component without its suffix.  The suffix
    starts at the last dot, unless that dot is the first or the last
    character of the name. *)
Definition stem (name : string) : string :=
  match rfind "." name with
  | Some i =>
      if (0 <? i)%nat && (i <? String.length name - 1)%nat
      then substring 0 i name
      else name
  | None => name
  end.

(** [list.sort(key=...)] on string keys: the stable sort.  An element is
    inserted in front of the first element whose key is not smaller, so
    elements with equal keys keep the order they had in the input. *)
Fixpoint insert_by {A} (key : A -> string) (x : A) (l : list A) : list A :=
  match l with
  | [] => [x]
  | y :: l' =>
      if String.leb (key x) (key y) then x :: l
      else y :: insert_by key x l'
  end.

Definition sort_by {A} (key : A -> string) (l : list A) : list A :=
  fold_right (insert_by key) [] l.

(** A JSON number as Python's [json] module loads it. *)
Inductive number : Type :=
| PyInt (z : Z)
| PyFloat (f : spec_float).

Definition prec : Z := 53.
Definition emax : Z := 1024.

(** The conversion of an int operand to float in mixed arithmetic:
    round to nearest, ties to even; too large an int raises. *)
Definition float_of_int (z : Z) : result spec_float :=
  match binary_normalize prec emax z 0 false with
  | S754_infinity _ => Raise OverflowError
  | f => Ok f
  end.

(** [a * b]. *)
Definition mul (a b : number) : result number :=
  match a, b with
  | PyInt x, PyInt y => Ok (PyInt (x * y))
  | PyInt x, PyFloat g =>
      match float_of_int x with
      | Ok f => Ok (PyFloat (SFmul prec emax f g))
      | Raise e => Raise e
      end
  | PyFloat f, PyInt y =>
      match float_of_int y with
      | Ok g => Ok (PyFloat (SFmul prec emax f g))
      | Raise e => Raise e
      end
  | PyFloat f, PyFloat g => Ok (PyFloat (SFmul prec emax f g))
  end.

(** [int(x)]: truncation toward zero. *)
Definition int (x : number) : result Z :=
  match x with
  | PyInt z => Ok z
  | PyFloat S754_nan => Raise ValueError
  | PyFloat (S754_infinity _) => Raise OverflowError
  | PyFloat (S754_zero _) => Ok 0
  | PyFloat (S754_finite s m e) =>
      let a := if 0 <=? e then Z.shiftl (Zpos m) e else Z.shiftr (Zpos m) (- e) in
      Ok (if s then - a else a)
  end.

(** [math.floor(x)]: the greatest integer not above [x].  The script does
    not call it; the specification words the target size with it. *)
Definition floor (x : number) : result Z :=
  match x with
  | PyInt z => Ok z
  | PyFloat S754_nan => Raise ValueError
  | PyFloat (S754_infinity _) => Raise OverflowError
  | PyFloat (S754_zero _) => Ok 0
  | PyFloat (S754_finite s m e) =>
      let v := if s then Zneg m else Zpos m in
      Ok (if 0 <=? e then v * 2 ^ e else v / 2 ^ (- e))
  end.

(** [a // b] on ints. *)
Definition floordiv (a b : Z) : result Z :=
  if b =? 0 then Raise ZeroDivisionError else Ok (a / b).

(** [l[i]], with Python's negative indices. *)
Definition getitem {A} (l : list A) (i : Z) : result A :=
  let n := Z.of_nat (List.length l) in
  let j := if i <? 0 then i + n else i in
  if (0 <=? j) && (j <? n) then
    match nth_error l (Z.to_nat j) with
    | Some x => Ok x
    | None => Raise IndexError
    end
  else Raise IndexError.

(** Exceptions without effects: the monad of [result]. *)
Definition bindR {A B} (r : result A) (k : A -> result B) : result B :=
  match r with
  | Ok a => k a
  | Raise e => Raise e
  end.

Fixpoint foldR {A B} (f : B -> A -> result B) (l : list A) (b : B) : result B :=
  match l with
  | [] => Ok b
  | a :: l' => bindR (f b a) (foldR f l')
  end.

End Py.
Export Py.

Notation "'let?' x ':=' e 'in' k" := (bindR e (fun x => k))
  (at level 10, x pattern, e at level 100, k at level 200).

(* ================================================================== *)
(** * [datetime] *)
(* ================================================================== *)

Module Datetime.

(** A naive [datetime].  The date is held as its proleptic Gregorian ordinal
    (what [toordinal()] returns, 1 for 0001-01-01); year, month and day are
    read off it by [ord2ymd], as [date.fromordinal] does. *)
Record datetime : Type := mk {
  ordinal : Z;
  hour : Z;
  minute : Z;
  second : Z;
  microsecond : Z
}.

Definition MAXORDINAL : Z := 3652059.

Definition valid (t : datetime) : Prop :=
  1 <= ordinal t <= MAXORDINAL /\ 0 <= hour t < 24 /\ 0 <= minute t < 60 /\
  0 <= second t < 60 /\ 0 <= microsecond t < 1000000.

(** Microseconds since the start of ordinal day 0. *)
Definition to_micros (t : datetime) : Z :=
  (((ordinal t * 24 + hour t) * 60 + minute t) * 60 + second t) * 1000000
  + microsecond t.

(** [t - timedelta(minutes=m)]: the fields are carried over the day boundary
    and the result must stay within year 1 to year 9999. *)
Definition sub_minutes (t : datetime) (m : Z) : result datetime :=
  let secs := ordinal t * 86400 + hour t * 3600 + minute t * 60 + second t
              - m * 60 in
  let days := secs / 86400 in
  let rem := secs mod 86400 in
  if (0 <? days) && (days <=? MAXORDINAL) then
    Ok {| ordinal := days;
          hour := rem / 3600;
          minute := (rem mod 3600) / 60;
          second := rem mod 60;
          microsecond := microsecond t |}
  else Raise OverflowError.

(** [t.replace(minute=mi, second=s, microsecond=us)]: the constructor checks
    the new fields. *)
Definition replace (t : datetime) (mi s us : Z) : result datetime :=
  if (0 <=? mi) && (mi <=? 59) && (0 <=? s) && (s <=? 59)
     && (0 <=? us) && (us <=? 999999)
  then Ok {| ordinal := ordinal t; hour := hour t;
             minute := mi; second := s; microsecond := us |}
  else Raise ValueError.

Definition is_leap (year : Z) : bool :=
  (year mod 4 =? 0) && (negb (year mod 100 =? 0) || (year mod 400 =? 0)).

Definition DAYS_IN_MONTH : list Z :=
  [-1; 31; 28; 31; 30; 31; 30; 31; 31; 30; 31; 30; 31].

Definition DAYS_BEFORE_MONTH : list Z :=
  [-1; 0; 31; 59; 90; 120; 151; 181; 212; 243; 273; 304; 334].

Definition b2z (b : bool) : Z := if b then 1 else 0.

(** [_ord2ymd]: ordinal to (year, month, day), by 400-, 100-, 4- and 1-year
    cycles and a month estimate corrected once. *)
Definition ord2ymd (n : Z) : Z * Z * Z :=
  let n := n - 1 in
  let n400 := n / 146097 in
  let n := n mod 146097 in
  let year := n400 * 400 + 1 in
  let n100 := n / 36524 in
  let n := n mod 36524 in
  let n4 := n / 1461 in
  let n := n mod 1461 in
  let n1 := n / 365 in
  let n := n mod 365 in
  let year := year + n100 * 100 + n4 * 4 + n1 in
  if (n1 =? 4) || (n100 =? 4) then (year - 1, 12, 31)
  else
    let leapyear := (n1 =? 3) && (negb (n4 =? 24) || (n100 =? 3)) in
    let month := Z.shiftr (n + 50) 5 in
    let preceding :=
      nth (Z.to_nat month) DAYS_BEFORE_MONTH 0
      + b2z ((2 <? month) && leapyear) in
    if n <? preceding then
      let month := month - 1 in
      let preceding :=
        preceding
        - (nth (Z.to_nat month) DAYS_IN_MONTH 0
           + b2z ((month =? 2) && leapyear)) in
      (year, month, n - preceding + 1)
    else (year, month, n - preceding + 1).

Definition year (t : datetime) : Z := fst (fst (ord2ymd (ordinal t))).
Definition month (t : datetime) : Z := snd (fst (ord2ymd (ordinal t))).
Definition day (t : datetime) : Z := snd (ord2ymd (ordinal t)).

(** Two digits, zero padded: [%m], [%d], [%H], [%M], [%S]. *)
Definition pad2 (n : Z) : string :=
  if n <? 10 then ("0" ++ str n)%string else str n.

(** [t.strftime("%Y/%m/%d/%H%M%S")].  [%Y] is the year in decimal, four
    digits from year 1000 on. *)
Definition strftime (t : datetime) : string :=
  (str (year t) ++ "/" ++ pad2 (month t) ++ "/" ++ pad2 (day t) ++ "/"
   ++ pad2 (hour t) ++ pad2 (minute t) ++ pad2 (second t))%string.

End Datetime.
Export Datetime(datetime).

(* ================================================================== *)
(** * [PIL.Image] *)
(* ================================================================== *)

Module Image.

Definition pixel : Type := (Z * Z * Z)%type.
Definition black : pixel := (0, 0, 0).

(** An RGB raster: its size and the colour at each coordinate inside it. *)
Record image : Type := mk {
  width : Z;
  height : Z;
  getpixel : Z -> Z -> pixel
}.

Definition size (im : image) : Z * Z := (width im, height im).

Definition inside (im : image) (x y : Z) : bool :=
  (0 <=? x) && (x <? width im) && (0 <=? y) && (y <? height im).

(** [Image.new("RGB", size, color)]. *)
Definition new (size : Z * Z) (color : pixel) : result image :=
  let '(w, h) := size in
  if (w <? 0) || (h <? 0) then Raise ValueError
  else Ok {| width := w; height := h; getpixel := fun _ _ => color |}.

(** [im.paste(src, (x, y))]: [src] covers the box with upper left corner
    [(x, y)], clipped to [im]; [im] keeps its size. *)
Definition paste (im src : image) (box : Z * Z) : image :=
  let '(x, y) := box in
  {| width := width im;
     height := height im;
     getpixel := fun i j =>
       if inside im i j && inside src (i - x) (j - y)
       then getpixel src (i - x) (j - y)
       else getpixel im i j |}.

(** A resampling filter gives the colour of each pixel of the resized
    image from the source image and the requested size. *)
Definition resampling : Type := image -> Z * Z -> Z -> Z -> pixel.

(** [im.resize(size, resample)]: an unchanged size is a copy, an empty
    target is refused. *)
Definition resize (im : image) (sz : Z * Z) (resample : resampling)
  : result image :=
  let '(w, h) := sz in
  if (w =? width im) && (h =? height im) then Ok im
  else if (w <? 1) || (h <? 1) then Raise ValueError
  else Ok {| width := w; height := h; getpixel := resample im sz |}.

(** What [Image.open] returns.  Opening reads the header only: the size is
    known at once, the pixel data is decoded when the pixels are first
    needed, by [load()], and decoding can raise (a truncated or broken
    body). *)
Record image_file : Type := mk_file {
  file_width : Z;
  file_height : Z;
  decode : result (Z -> Z -> pixel)
}.

Definition file_size (f : image_file) : Z * Z := (file_width f, file_height f).

(** [f.load()]: the raster of the file. *)
Definition load (f : image_file) : result image :=
  let? data := decode f in
  Ok {| width := file_width f; height := file_height f; getpixel := data |}.

(** An image already in memory, where a file is expected: loading it gives
    it back. *)
Definition in_memory (im : image) : image_file :=
  {| file_width := width im; file_height := height im;
     decode := Ok (getpixel im) |}.

(** [im.paste(src, (x, y))] for an opened file [src]: [paste] loads the
    source before it touches [im]. *)
Definition paste_file (im : image) (src : image_file) (box : Z * Z)
  : result image :=
  let? src := load src in
  Ok (paste im src box).

End Image.
Export Image(image, pixel, image_file).

(* ================================================================== *)
(** * The world the script runs in *)
(* ================================================================== *)

(** [config.json], after the module-level normalisation of [base_url] to a
    list. *)
Record config : Type := {
  base_url : list string;
  delay_minutes : Z;
  update_interval_minutes : Z;
  nd : Z;
  tile_size : Z;
  scale_mode : string;
  cover_ratio : number;
  save_dir : string;
  pic_size : Z * Z;
  max_pic_count : Z
}.

(** What a run does to its surroundings, in the order it happens.  Paths
    are full paths; [print] is left out. *)
Inductive event : Type :=
| Unlink (path : string)
| Get (url : string)
| WriteBytes (path : string)
| Save (path : string)
| SetWallpaper (path : string).

(** [files] are the names in [SAVE_DIR], in the order a directory scan
    yields them; [clock_reads] counts the calls of [utcnow]. *)
Record World : Type := {
  files : list string;
  clock_reads : nat;
  events : list event
}.

(** State and exceptions: an exception keeps the effects made so far. *)
Definition M (A : Type) : Type := World -> result A * World.

Definition ret {A} (a : A) : M A := fun w => (Ok a, w).

Definition raise {A} (e : exn) : M A := fun w => (Raise e, w).

Definition bind {A B} (m : M A) (k : A -> M B) : M B :=
  fun w =>
    match m w with
    | (Ok a, w') => k a w'
    | (Raise e, w') => (Raise e, w')
    end.

Definition lift {A} (r : result A) : M A := fun w => (r, w).

Notation "'let*' x ':=' e 'in' k" := (bind e (fun x => k))
  (at level 10, x pattern, e at level 100, k at level 200).

(** [for x in l: f(x)], collecting the results. *)
Fixpoint forM {A B} (l : list A) (f : A -> M B) : M (list B) :=
  match l with
  | [] => ret []
  | a :: l' =>
      let* b := f a in
      let* bs := forM l' f in
      ret (b :: bs)
  end.

Fixpoint forM_ {A} (l : list A) (f : A -> M unit) : M unit :=
  match l with
  | [] => ret tt
  | a :: l' => let* _ := f a in forM_ l' f
  end.

Definition log (e : event) : M unit :=
  fun w => (Ok tt, {| files := files w;
                      clock_reads := clock_reads w;
                      events := events w ++ [e] |}).

Definition set_files (fs : list string) : M unit :=
  fun w => (Ok tt, {| files := fs;
                      clock_reads := clock_reads w;
                      events := events w |}).

Definition get_files : M (list string) := fun w => (Ok (files w), w).

Definition has_name (name : string) (fs : list string) : bool :=
  existsb (String.eqb name) fs.

(** Creating or overwriting the file [name] of the directory. *)
Definition create (name : string) : M unit :=
  let* fs := get_files in
  if has_name name fs then ret tt else set_files (fs ++ [name]).

(** Removing the file [name] of the directory. *)
Definition remove (name : string) : M unit :=
  let* fs := get_files in
  set_files (filter (fun n => negb (String.eqb n name)) fs).

(* ================================================================== *)
(** * [cli.py] *)
(* ================================================================== *)

Module Cli.

Definition nl : string := String (ascii_of_nat 10) EmptyString.
Definition dq : string := String (ascii_of_nat 34) EmptyString.

(** The lines of a text, each followed by a newline. *)
Fixpoint unlines (ls : list string) : string :=
  match ls with
  | [] => EmptyString
  | l :: ls' => (l ++ nl ++ unlines ls')%string
  end.

(** [s.lower()] on a command word: the letters A to Z are lowered, every
    other byte is kept. *)
Definition lower_char (c : ascii) : ascii :=
  let n := nat_of_ascii c in
  if (65 <=? n)%nat && (n <=? 90)%nat then ascii_of_nat (n + 32) else c.

Fixpoint lower (s : string) : string :=
  match s with
  | EmptyString => EmptyString
  | String c s' => String (lower_char c) (lower s')
  end.

(** How a function of the tool ends: by returning, by [sys.exit(code)], or
    with the [CalledProcessError] of [subprocess.run(..., check=True)]. *)
Inductive outcome : Type :=
| Done
| SystemExit (code : Z)
| CalledProcessError (returncode : Z) (cmd : list string).

(** What the tool sees and leaves: whether the virtual environment
    exists, the text of the LaunchAgent file if it exists, and the commands
    run so far, in order. *)
Record world : Type := {
  venv_exists : bool;
  plist : option string;
  runs : list (list string)
}.

Definition step : Type := world -> outcome * world.

(** [a; b]: [b] runs when [a] returns. *)
Definition andthen (a b : step) : step :=
  fun w =>
    match a w with
    | (Done, w') => b w'
    | (o, w') => (o, w')
    end.

Definition cmd_eqb (a b : list string) : bool :=
  if list_eq_dec string_dec a b then true else false.

Section Commands.

(** [Path.home()], [Path(__file__).parent], [sys.executable] and
    [getpass.getuser()]. *)
Variable home : string.
Variable here : string.
Variable sys_executable : string.
Variable username : string.

(** The exit status of each command. *)
Variable returncode : list string -> Z.

Definition AGENT_NAME : string := "com.himawari-live-wallpaper".
Definition PLIST_PATH : string :=
  (home ++ "/Library/LaunchAgents/" ++ AGENT_NAME ++ ".plist")%string.
Definition SCRIPT_PATH : string := (here ++ "/himawari_wallpaper.py")%string.
Definition VENV_PATH : string := (here ++ "/.venv")%string.
Definition VENV_PYTHON : string := (VENV_PATH ++ "/bin/python3")%string.

Definition venv_cmd : list string := [sys_executable; "-m"; "venv"; VENV_PATH].
Definition pip_upgrade_cmd : list string :=
  [VENV_PYTHON; "-m"; "pip"; "install"; "--upgrade"; "pip"].
Definition pip_requirements_cmd : list string :=
  [VENV_PYTHON; "-m"; "pip"; "install"; "-r"; (here ++ "/requirements.txt")%string].
Definition load_cmd : list string := ["launchctl"; "load"; PLIST_PATH].
Definition unload_cmd : list string := ["launchctl"; "unload"; PLIST_PATH].
Definition script_cmd : list string := [VENV_PYTHON; SCRIPT_PATH].

(** [subprocess.run(cmd, check=check)].  The one effect of a command on
    the world kept here: a [venv] command that succeeds leaves the virtual
    environment. *)
Definition subprocess_run (cmd : list string) (check : bool) : step :=
  fun w =>
    let rc := returncode cmd in
    let w' := {| venv_exists := venv_exists w
                                || (cmd_eqb cmd venv_cmd && (rc =? 0));
                 plist := plist w;
                 runs := runs w ++ [cmd] |} in
    if check && negb (rc =? 0) then (CalledProcessError rc cmd, w')
    else (Done, w').

Definition create_venv : step :=
  fun w =>
    if negb (venv_exists w) then
      andthen (subprocess_run venv_cmd true)
        (andthen (subprocess_run pip_upgrade_cmd true)
                 (subprocess_run pip_requirements_cmd true)) w
    else (Done, w).

Definition plist_content : string :=
  unlines
    [("<?xml version=" ++ dq ++ "1.0" ++ dq ++ " encoding=" ++ dq ++ "UTF-8"
      ++ dq ++ "?>")%string;
     ("<!DOCTYPE plist PUBLIC " ++ dq ++ "-//Apple//DTD PLIST 1.0//EN" ++ dq
      ++ " ")%string;
     (dq ++ "http://www.apple.com/DTDs/PropertyList-1.0.dtd" ++ dq ++ ">")%string;
     ("<plist version=" ++ dq ++ "1.0" ++ dq ++ ">")%string;
     "<dict>";
     "    <key>Label</key>";
     ("    <string>" ++ AGENT_NAME ++ "</string>")%string;
     "    <key>ProgramArguments</key>";
     "    <array>";
     ("        <string>" ++ VENV_PYTHON ++ "</string>")%string;
     "        <string>-u</string>";
     ("        <string>" ++ SCRIPT_PATH ++ "</string>")%string;
     "    </array>";
     "    <key>StartInterval</key>";
     "    <integer>600</integer>";
     "    <key>RunAtLoad</key>";
     "    <true/>";
     "    <key>StandardOutPath</key>";
     ("    <string>/Users/" ++ username ++ "/Library/Logs/" ++ AGENT_NAME
      ++ ".out</string>")%string;
     "    <key>StandardErrorPath</key>";
     ("    <string>/Users/" ++ username ++ "/Library/Logs/" ++ AGENT_NAME
      ++ ".err</string>")%string;
     "</dict>";
     "</plist>"].

(** [PLIST_PATH.write_text(text)]. *)
Definition write_plist (text : string) : step :=
  fun w => (Done, {| venv_exists := venv_exists w;
                     plist := Some text;
                     runs := runs w |}).

(** [PLIST_PATH.unlink()]. *)
Definition unlink_plist : step :=
  fun w => (Done, {| venv_exists := venv_exists w;
                     plist := None;
                     runs := runs w |}).

Definition install_agent : step :=
  andthen create_venv
    (andthen (write_plist plist_content) (subprocess_run load_cmd true)).

Definition uninstall_agent : step :=
  fun w =>
    match plist w with
    | Some _ => andthen (subprocess_run unload_cmd false) unlink_plist w
    | None => (Done, w)
    end.

Definition run_once : step := subprocess_run script_cmd true.

Definition restore_script : string :=
  (nl
   ++ unlines
        [("    tell application " ++ dq ++ "System Events" ++ dq)%string;
         "        set desktopCount to count of desktops";
         "        repeat with desktopNumber from 1 to desktopCount";
         "            tell desktop desktopNumber";
         ("                set picture to (path to pictures folder as string) & "
          ++ dq ++ "DefaultDesktop.jpg" ++ dq)%string;
         "            end tell";
         "        end repeat";
         "    end tell"]
   ++ "    ")%string.

Definition restore_wallpaper : step :=
  subprocess_run ["osascript"; "-e"; restore_script] false.

Definition exit (code : Z) : step := fun w => (SystemExit code, w).

(** [main()] on [sys.argv]. *)
Definition main (argv : list string) : step :=
  match argv with
  | _ :: arg :: _ =>
      let cmd := lower arg in
      if String.eqb cmd "install" then andthen install_agent run_once
      else if String.eqb cmd "runonce" then run_once
      else if String.eqb cmd "stop" then uninstall_agent
      else if String.eqb cmd "restore" then restore_wallpaper
      else exit 1
  | _ => exit 1
  end.

End Commands.

End Cli.

(** Sample installations of the tool. *)
Definition fresh_mac : Cli.world :=
  {| Cli.venv_exists := false; Cli.plist := None; Cli.runs := [] |}.

Definition all_succeed : list string -> Z := fun _ => 0.

(** Both [pip] commands (the ones of six words) fail. *)
Definition pip_fails : list string -> Z :=
  fun cmd => if (List.length cmd =? 6)%nat then 1 else 0.

(* ================================================================== *)
(** * [himawari_wallpaper.py] *)
(* ================================================================== *)

Section Script.

(** The configuration loaded at import time. *)
Variable cfg : config.

(** The mirrors during one run: what [requests.get(url, timeout=10)]
    followed by [raise_for_status()] gives for a URL, the body or the
    exception. *)
Variable requests_get : string -> result string.

(** [Image.open] on a file holding these bytes: the opened file, or the
    exception for a body that is not recognised as an image. *)
Variable Image_open : string -> result image_file.

(** The Lanczos filter of the imaging library. *)
Variable LANCZOS : Image.resampling.

(** The system clock: the value of the n-th call of [datetime.utcnow()]. *)
Variable utcnow : nat -> datetime.

(** The imaging library's registry of file extensions, [Image.EXTENSION]
    with every plugin loaded: whether an extension, in lower case, has a
    format to write.  [.png] always has one and is not looked up here. *)
Variable registered_extension : string -> bool.

(** The file system around [SAVE_DIR]: the name under which a file written
    at a path given with a directory part shows up in [SAVE_DIR], if it
    lies there. *)
Variable resolve : string -> option string.

Definition BASE_URL : list string := base_url cfg.
Definition DELAY_MINUTES : Z := delay_minutes cfg.
Definition UPDATE_INTERVAL_MINUTES : Z := update_interval_minutes cfg.
Definition ND : Z := nd cfg.
Definition TILE_SIZE : Z := tile_size cfg.
Definition COVER_RATIO : number := cover_ratio cfg.
Definition SAVE_DIR : string := save_dir cfg.
Definition PIC_SIZE : Z * Z := pic_size cfg.
Definition MAX_PIC : Z := max_pic_count cfg.

Definition datetime_utcnow : M datetime :=
  fun w => (Ok (utcnow (clock_reads w)),
            {| files := files w;
               clock_reads := S (clock_reads w);
               events := events w |}).

Definition get_aligned_time : M datetime :=
  let* now := datetime_utcnow in
  let* target := lift (Datetime.sub_minutes now DELAY_MINUTES) in
  let* q := lift (floordiv (Datetime.minute target) UPDATE_INTERVAL_MINUTES) in
  let minute := q * UPDATE_INTERVAL_MINUTES in
  lift (Datetime.replace target minute 0 0).

Definition convert_time (time_str : string) : string :=
  Py.replace "/" "__" time_str.

(** [Path(dir).glob("*.png")]: the names of the directory that end in
    [.png], in scan order. *)
Definition list_png (dir_path_str : string) : M (list string) :=
  let* fs := get_files in
  ret (filter (fun name => endswith name ".png") fs).

Definition get_timestamp (file_path : string) : string :=
  let name := stem file_path in
  let parts := split "_" name in
  if (3 <=? List.length parts)%nat then nth 2 parts "" else "0".

(** [img.unlink()] for the entry [img] of the directory: the path is
    [dir_path / img]. *)
Definition unlink (dir_path img : string) : M unit :=
  let* _ := remove img in
  log (Unlink (join dir_path img)).

Definition clean_old_images (dir_path : string) (max_images : Z) : M unit :=
  let* images := list_png dir_path in
  if Z.of_nat (List.length images) <=? max_images then ret tt
  else
    let images := sort_by get_timestamp images in
    forM_ (firstn (Z.to_nat (Z.of_nat (List.length images) - max_images)) images)
          (unlink dir_path).

Definition tile_url (base_url time_str : string) (col row : Z) : string :=
  (base_url ++ "/" ++ str ND ++ "d/" ++ str TILE_SIZE ++ "/" ++ time_str
   ++ "_" ++ str col ++ "_" ++ str row ++ ".png")%string.

Definition tile_name (row col : Z) : string :=
  ("tile_" ++ str row ++ "_" ++ str col ++ ".png")%string.

(** The body of the [try]: one GET, the bytes written to the tile file,
    the file opened as an image. *)
Definition download_one (url : string) (row col : Z) : M image_file :=
  let* _ := log (Get url) in
  let* content := lift (requests_get url) in
  let* _ := create (tile_name row col) in
  let* _ := log (WriteBytes (join SAVE_DIR (tile_name row col))) in
  lift (Image_open content).

(** [for base_url in BASE_URL: try ... break / except ...]: the tile of the
    first mirror that works, or [None] with the last exception caught. *)
Fixpoint try_base_urls (time_str : string) (row col : Z) (urls : list string)
    (last_exception : option exn) : M (option image_file * option exn) :=
  match urls with
  | [] => ret (None, last_exception)
  | base_url :: urls' =>
      fun w =>
        match download_one (tile_url base_url time_str col row) row col w with
        | (Ok img, w') => (Ok (Some img, last_exception), w')
        | (Raise e, w') => try_base_urls time_str row col urls' (Some e) w'
        end
  end.

Definition failed_message (col row : Z) : string :=
  ("Failed to download tile (" ++ str col ++ "," ++ str row
   ++ ") from all URLs")%string.

(** One turn of the inner [for col] loop. *)
Definition download_cell (time_str : string) (row col : Z) : M image_file :=
  let* (tile, last_exception) :=
    try_base_urls time_str row col BASE_URL None in
  match tile with
  | Some img => ret img
  | None => raise (RuntimeError (failed_message col row) last_exception)
  end.

Definition download_tiles (time_str : string) : M (list (list image_file)) :=
  forM (range ND) (fun row =>
    forM (range ND) (fun col => download_cell time_str row col)).

Definition stitch_tiles (tiles : list (list image_file)) : result image :=
  let? row0 := getitem tiles 0 in
  let? tile0 := getitem row0 0 in
  let '(tile_w, tile_h) := Image.file_size tile0 in
  let '(big_w, big_h) := (tile_w * ND, tile_h * ND) in
  let? big_img := Image.new (big_w, big_h) Image.black in
  foldR (fun big_img row =>
    foldR (fun big_img col =>
      let? tiles_row := getitem tiles row in
      let? tile := getitem tiles_row col in
      Image.paste_file big_img tile (col * tile_w, row * tile_h))
      (range ND) big_img)
    (range ND) big_img.

Definition resize_and_center (big_img : image) (screen_size : Z * Z)
    (cover_ratio : number) : result image :=
  let '(W, H) := screen_size in
  let short_edge := Z.min W H in
  let? product := Py.mul (PyInt short_edge) cover_ratio in
  let? target_size := Py.int product in
  let? bg := Image.new (W, H) (0, 0, 0) in
  let? big_resized := Image.resize big_img (target_size, target_size) LANCZOS in
  let offset_x := (W - target_size) / 2 in
  let offset_y := (H - target_size) / 2 in
  Ok (Image.paste bg big_resized (offset_x, offset_y)).

(** The f-string of [save_wallpaper]: the name of the artifact for the
    aligned time [t]. *)
Definition artifact_name (t : datetime) : string :=
  (str ND ++ "d_" ++ str TILE_SIZE ++ "_"
   ++ convert_time (Datetime.strftime t) ++ ".png")%string.

(** [img.save(path)] for an image in memory.  The format is that of the
    extension of the path, lowered; an extension without a format raises
    [ValueError] before the file is opened.  [entry] is the name the
    written file has in [SAVE_DIR], if it lies there. *)
Definition Image_save (img : image) (path : string) (entry : option string)
  : M unit :=
  let ext := lower (splitext_ext path) in
  if String.eqb ext ".png" || registered_extension ext then
    let* _ := match entry with
              | Some name => create name
              | None => ret tt
              end in
    log (Save path)
  else raise ValueError.

Definition save_wallpaper (img : image) (filename : option string) : M string :=
  let* filename :=
    match filename with
    | Some (String c f) => ret (String c f)
    | _ => let* t := get_aligned_time in ret (artifact_name t)
    end in
  let out_path := join SAVE_DIR filename in
  let entry := if occurs "/" filename then resolve out_path else Some filename in
  let* _ := Image_save img out_path entry in
  ret out_path.

Definition set_wallpaper (path : string) : M unit :=
  log (SetWallpaper path).

Definition main : M unit :=
  let* _ := clean_old_images SAVE_DIR MAX_PIC in
  let* aligned_time := get_aligned_time in
  let time_str := Datetime.strftime aligned_time in
  let* tiles := download_tiles time_str in
  let* big_img := lift (stitch_tiles tiles) in
  let screen_size := PIC_SIZE in
  let* final_img := lift (resize_and_center big_img screen_size COVER_RATIO) in
  let* out_path := save_wallpaper final_img None in
  set_wallpaper out_path.


(* ------------------------------------------------------------------ *)
(** ** Vocabulary of the statements *)
(* ------------------------------------------------------------------ *)

(** The names a directory listing offers to [list_png]. *)
Definition png_files (fs : list string) : list string :=
  filter (fun name => endswith name ".png") fs.


(** The files [clean_old_images] deletes from a directory listing. *)
Definition victims (max_images : Z) (fs : list string) : list string :=
  let images := png_files fs in
  if Z.of_nat (List.length images) <=? max_images then []
  else firstn (Z.to_nat (Z.of_nat (List.length images) - max_images))
              (sort_by get_timestamp images).


(** An instant, in microseconds since the start of ordinal day 0, that a
    [datetime] can hold: from 0001-01-01 00:00 to the end of 9999-12-31. *)
Definition representable (us : Z) : Prop :=
  86400000000 <= us < (Datetime.MAXORDINAL + 1) * 86400000000.

(** The cells [(row, col)] of an [n] by [n] grid, rows outer, columns
    inner. *)
Definition cells (n : Z) : list (Z * Z) := list_prod (range n) (range n).

(** [tiles[row][col]]. *)
Definition tile_at (tiles : list (list image_file)) (row col : Z)
  : result image_file :=
  let? tiles_row := getitem tiles row in
  getitem tiles_row col.

(** [tiles[row][col]], loaded: the raster of the tile of a cell. *)
Definition loaded_at (tiles : list (list image_file)) (row col : Z)
  : result image :=
  let? tile := tile_at tiles row col in
  Image.load tile.

(** A matrix of [n] rows of [n] tiles. *)
Definition grid (n : Z) (tiles : list (list image_file)) : Prop :=
  Z.of_nat (List.length tiles) = n /\
  Forall (fun tiles_row => Z.of_nat (List.length tiles_row) = n) tiles.

(** Every tile of the matrix has size [(w, h)]. *)
Definition uniform (w h : Z) (tiles : list (list image_file)) : Prop :=
  Forall (Forall (fun tile => Image.file_size tile = (w, h))) tiles.

(** The pixel data of every tile of the matrix decodes. *)
Definition decoded (tiles : list (list image_file)) : Prop :=
  Forall (Forall (fun tile => is_ok (Image.load tile) = true)) tiles.

(** One turn of the inner loop of [stitch_tiles]. *)
Definition paste_cell (tiles : list (list image_file)) (tile_w tile_h : Z)
    (big_img : image) (cell : Z * Z) : result image :=
  let '(row, col) := cell in
  let? tiles_row := getitem tiles row in
  let? tile := getitem tiles_row col in
  Image.paste_file big_img tile (col * tile_w, row * tile_h).

(** What one mirror gives for a URL: the opened tile, or the exception of
    the GET or of opening the image. *)
Definition attempt (url : string) : result image_file :=
  let? content := requests_get url in
  Image_open content.

(** The URLs of a cell, one per mirror, in the order of [BASE_URL]. *)
Definition cell_urls (time_str : string) (row col : Z) : list string :=
  map (fun base_url => tile_url base_url time_str col row) BASE_URL.

(** The URLs requested out of a list: up to and including the first that
    gives a tile. *)
Fixpoint tried (urls : list string) : list string :=
  match urls with
  | [] => []
  | url :: urls' => url :: if is_ok (attempt url) then [] else tried urls'
  end.

(** The tile of the first URL that gives one, or the last exception met
    (starting from [last]). *)
Fixpoint first_tile (urls : list string) (last : option exn)
  : image_file + option exn :=
  match urls with
  | [] => inr last
  | url :: urls' =>
      match attempt url with
      | Ok img => inl img
      | Raise e => first_tile urls' (Some e)
      end
  end.

(** The trace of one request for the cell [(row, col)]: the GET, and the
    write of the tile file when the GET succeeded. *)
Definition mirror_events (row col : Z) (url : string) : list event :=
  Get url ::
  match requests_get url with
  | Ok _ => [WriteBytes (join SAVE_DIR (tile_name row col))]
  | Raise _ => []
  end.

(** The world after one request for the cell. *)
Definition after_mirror (row col : Z) (w : World) (url : string) : World :=
  {| files := match requests_get url with
              | Ok _ => if has_name (tile_name row col) (files w) then files w
                        else files w ++ [tile_name row col]
              | Raise _ => files w
              end;
     clock_reads := clock_reads w;
     events := events w ++ mirror_events row col url |}.

(** The result of [download_cell], read off the mirrors. *)
Definition cell_outcome (time_str : string) (row col : Z) : result image_file :=
  match first_tile (cell_urls time_str row col) None with
  | inl img => Ok img
  | inr last_exception =>
      Raise (RuntimeError (failed_message col row) last_exception)
  end.

Definition cell_events (time_str : string) (cell : Z * Z) : list event :=
  let '(row, col) := cell in
  flat_map (mirror_events row col) (tried (cell_urls time_str row col)).

Definition after_cell (time_str : string) (w : World) (cell : Z * Z) : World :=
  let '(row, col) := cell in
  fold_left (after_mirror row col) (tried (cell_urls time_str row col)) w.

(** The URLs of the GETs of a trace, in order. *)
Definition gets (evs : list event) : list string :=
  flat_map (fun e => match e with Get url => [url] | _ => [] end) evs.

(** The last element of a list. *)
Definition last_of {A} (l : list A) : option A :=
  match rev l with
  | [] => None
  | a :: _ => Some a
  end.

(** [for x in l: f(x)] without effects: the results, or the first
    exception. *)
Fixpoint mapR {A B} (f : A -> result B) (l : list A) : result (list B) :=
  match l with
  | [] => Ok []
  | a :: l' =>
      let? b := f a in
      let? bs := mapR f l' in
      Ok (b :: bs)
  end.

(** The result of [download_tiles], read off the mirrors. *)
Definition grid_outcome (time_str : string) : result (list (list image_file)) :=
  mapR (fun row => mapR (fun col => cell_outcome time_str row col) (range ND))
       (range ND).

Definition cell_ok (time_str : string) (cell : Z * Z) : bool :=
  is_ok (cell_outcome time_str (fst cell) (snd cell)).

(** The world after the cells of a list are fetched in order, up to and
    including the first one that fails. *)
Fixpoint after_cells (time_str : string) (cs : list (Z * Z)) (w : World) : World :=
  match cs with
  | [] => w
  | c :: cs' =>
      if cell_ok time_str c then after_cells time_str cs' (after_cell time_str w c)
      else after_cell time_str w c
  end.

(** The names of the tile files. *)
Definition is_tile_name (name : string) : Prop :=
  exists row col, name = tile_name row col.

(** [x] does not sort after [y] under the key. *)
Definition key_le {A} (key : A -> string) (x y : A) : Prop :=
  String.leb (key x) (key y) = true.

(** The world after one reading of the clock. *)
Definition tick (w : World) : World :=
  {| files := files w; clock_reads := S (clock_reads w); events := events w |}.

(* ------------------------------------------------------------------ *)
(** ** Sample configuration, clock, directories and tiles *)
(* ------------------------------------------------------------------ *)

Definition dir_with_tile : World :=
  {| files := ["tile_0_0.png"; "4d_550_2024__01__01__000000.png"; "notes.txt"];
     clock_reads := 0;
     events := [] |}.

(** The directory scan yields the artifact of 2 January before the one of
    1 January; the cap is one file. *)
Definition newer_listed_first : World :=
  {| files := ["4d_550_2024__01__02__000000.png";
               "4d_550_2024__01__01__000000.png"];
     clock_reads := 0;
     events := [] |}.

(** 0.9 as [json] loads it: the binary64 number nearest to nine tenths,
    [0x1.ccccccccccccdp-1]. *)
Definition ratio_0_9 : spec_float := S754_finite false 8106479329266893 (-53).

Definition sample_cfg : config :=
  {| base_url := ["https://a.example/img/D531106";
                  "https://b.example/img/D531106"];
     delay_minutes := 30;
     update_interval_minutes := 10;
     nd := 2;
     tile_size := 550;
     scale_mode := "fit";
     cover_ratio := PyFloat ratio_0_9;
     save_dir := "/home/u/himawari";
     pic_size := (1920, 1080);
     max_pic_count := 2 |}.

(** 2024-03-01 00:07:42.123456 at every reading. *)
Definition sample_clock (n : nat) : datetime :=
  Datetime.mk 738946 0 7 42 123456.

Definition empty_dir : World :=
  {| files := []; clock_reads := 0; events := [] |}.

Definition solid (w h : Z) (color : pixel) : image :=
  Image.mk w h (fun _ _ => color).

Definition red : pixel := (255, 0, 0).
Definition green : pixel := (0, 255, 0).
Definition blue : pixel := (0, 0, 255).
Definition white : pixel := (255, 255, 255).

(** An opened tile file of one colour, whose data decodes. *)
Definition solid_file (w h : Z) (color : pixel) : image_file :=
  Image.in_memory (solid w h color).

(** An opened tile file whose body stops short: the header gives the size,
    decoding raises. *)
Definition truncated (w h : Z) : image_file :=
  Image.mk_file w h (Raise (OSError "image file is truncated")).

(** Four tiles of size 2 by 2 for the 2 by 2 grid of [sample_cfg]. *)
Definition even_tiles : list (list image_file) :=
  [[solid_file 2 2 red; solid_file 2 2 green];
   [solid_file 2 2 blue; solid_file 2 2 white]].

(** The same grid with a 1 by 1 tile at (0, 1) and a 3 by 3 tile at
    (1, 1). *)
Definition mixed_tiles : list (list image_file) :=
  [[solid_file 2 2 red; solid_file 1 1 green];
   [solid_file 2 2 blue; solid_file 3 3 white]].

(** The 2 by 2 grid with a truncated tile at (0, 1). *)
Definition cut_tiles : list (list image_file) :=
  [[solid_file 2 2 red; truncated 2 2];
   [solid_file 2 2 blue; solid_file 2 2 white]].

(** 1.5, [0x1.8p+0]. *)
Definition ratio_1_5 : spec_float := S754_finite false 6755399441055744 (-52).

(** A stand-in for the resampling filter: the nearest source pixel. *)
Definition nearest : Image.resampling :=
  fun im sz x y =>
    Image.getpixel im (x * Image.width im / fst sz) (y * Image.height im / snd sz).

(** Mirror A is down, mirror B serves every tile. *)
Definition mirror_a_down (url : string) : result string :=
  if prefix "https://a.example/" url then Raise (RequestException "timeout")
  else Ok "PNG".

(** Both mirrors lack the tile of column 1, row 0. *)
Definition tile_1_0_missing (url : string) : result string :=
  if endswith url "_1_0.png" then Raise (RequestException "404")
  else Ok "PNG".

(** Every body opens as a white 2 by 2 tile, except the empty one. *)
Definition open_white (content : string) : result image_file :=
  match content with
  | EmptyString => Raise UnidentifiedImageError
  | _ => Ok (solid_file 2 2 white)
  end.

(** The same, but the body [CUT] opens as a tile whose data is cut short. *)
Definition open_lazily (content : string) : result image_file :=
  if String.eqb content "CUT" then Ok (truncated 2 2) else open_white content.

(** Mirror A serves a truncated body for every tile, mirror B a whole
    one. *)
Definition mirror_a_cut (url : string) : result string :=
  if prefix "https://a.example/" url then Ok "CUT" else Ok "PNG".

(** No extension but [.png] has a format. *)
Definition png_only (ext : string) : bool := false.

(** No path with a directory part leads into [SAVE_DIR]. *)
Definition elsewhere (path : string) : option string := None.

(** Two old artifacts and a tile file, one more than the cap of 2. *)
Definition small_dir : World :=
  {| files := ["2d_550_2024__02__29__232000.png"; "tile_0_0.png";
               "2d_550_2024__02__29__231000.png"];
     clock_reads := 0;
     events := [] |}.

(** 0.29, the binary64 number nearest to 29 hundredths. *)
Definition ratio_0_29 : spec_float :=
  SFdiv Py.prec Py.emax (binary_normalize Py.prec Py.emax 29 0 false)
        (binary_normalize Py.prec Py.emax 100 0 false).

(** [sample_cfg] with another update interval. *)
Definition with_interval (g : Z) : config :=
  {| base_url := base_url sample_cfg;
     delay_minutes := delay_minutes sample_cfg;
     update_interval_minutes := g;
     nd := nd sample_cfg;
     tile_size := tile_size sample_cfg;
     scale_mode := scale_mode sample_cfg;
     cover_ratio := cover_ratio sample_cfg;
     save_dir := save_dir sample_cfg;
     pic_size := pic_size sample_cfg;
     max_pic_count := max_pic_count sample_cfg |}.

Definition two_hourly_cfg : config := with_interval 120.
Definition zero_interval_cfg : config := with_interval 0.

(** [sample_cfg] without any mirror. *)
Definition no_mirror_cfg : config :=
  {| base_url := [];
     delay_minutes := delay_minutes sample_cfg;
     update_interval_minutes := update_interval_minutes sample_cfg;
     nd := nd sample_cfg;
     tile_size := tile_size sample_cfg;
     scale_mode := scale_mode sample_cfg;
     cover_ratio := cover_ratio sample_cfg;
     save_dir := save_dir sample_cfg;
     pic_size := pic_size sample_cfg;
     max_pic_count := max_pic_count sample_cfg |}.

(** [sample_cfg] with a grid density of 0. *)
Definition no_grid_cfg : config :=
  {| base_url := base_url sample_cfg;
     delay_minutes := delay_minutes sample_cfg;
     update_interval_minutes := update_interval_minutes sample_cfg;
     nd := 0;
     tile_size := tile_size sample_cfg;
     scale_mode := scale_mode sample_cfg;
     cover_ratio := cover_ratio sample_cfg;
     save_dir := save_dir sample_cfg;
     pic_size := pic_size sample_cfg;
     max_pic_count := max_pic_count sample_cfg |}.

(** Every mirror answers with an empty body. *)
Definition empty_bodies (url : string) : result string := Ok "".

(** 1.0, [0x1p+0]. *)
Definition ratio_1_0 : spec_float := S754_finite false 4503599627370496 (-52).
(* ================================================================== *)
(** * Facts about the built-ins *)
(* ================================================================== *)

Section ListFacts.
Context {A : Type}.

Lemma filter_filter (f g : A -> bool) (l : list A) :
  filter f (filter g l) = filter (fun x => g x && f x) l.
Proof.
  induction l as [|a l IH]; simpl; [reflexivity|].
  destruct (g a); simpl; [destruct (f a)|]; now rewrite IH.
Qed.

Lemma filter_perm (f : A -> bool) (l l' : list A) :
  Permutation l l' -> Permutation (filter f l) (filter f l').
Proof.
  induction 1; simpl.
  - constructor.
  - destruct (f x); auto.
  - destruct (f x), (f y); auto using perm_swap.
  - eapply perm_trans; eassumption.
Qed.

End ListFacts.

Section SortFacts.
Context {A : Type} (key : A -> string).

Lemma insert_by_perm (x : A) (l : list A) :
  Permutation (insert_by key x l) (x :: l).
Proof.
  induction l as [|y l IH]; simpl; [reflexivity|].
  destruct (String.leb (key x) (key y)); [reflexivity|].
  rewrite IH. apply perm_swap.
Qed.

Lemma sort_by_perm (l : list A) : Permutation (sort_by key l) l.
Proof.
  induction l as [|x l IH]; simpl; [constructor|].
  rewrite insert_by_perm. now constructor.
Qed.

Lemma sort_by_length (l : list A) : List.length (sort_by key l) = List.length l.
Proof. apply Permutation_length, sort_by_perm. Qed.

End SortFacts.

Lemma forM__unlink (dir : string) (vs : list string) (w : World) :
  forM_ vs (unlink dir) w =
  (Ok tt, {| files := filter (fun n => negb (has_name n vs)) (files w);
             clock_reads := clock_reads w;
             events := events w ++ map (fun v => Unlink (join dir v)) vs |}).
Proof.
  revert w. induction vs as [|v vs IH]; intros [fs c ev]; simpl.
  - unfold ret. now rewrite filter_true, app_nil_r.
  - unfold bind, unlink, bind, remove, bind, get_files, set_files, log. simpl.
    rewrite IH. simpl. rewrite filter_filter, <- app_assoc. simpl.
    f_equal. f_equal. apply filter_ext. intro n.
    now rewrite negb_orb.
Qed.

Lemma clean_old_images_run (dir : string) (max_images : Z) (w : World) :
  clean_old_images dir max_images w =
  (Ok tt, {| files := filter (fun n => negb (has_name n (victims max_images (files w))))
                             (files w);
             clock_reads := clock_reads w;
             events := events w
                       ++ map (fun v => Unlink (join dir v))
                              (victims max_images (files w)) |}).
Proof.
  unfold clean_old_images, victims, png_files, list_png, bind, get_files, ret.
  rewrite sort_by_length.
  destruct (_ <=? _).
  - destruct w; simpl. now rewrite filter_true, app_nil_r.
  - apply forM__unlink.
Qed.

Lemma has_name_In (n : string) (vs : list string) :
  has_name n vs = true <-> In n vs.
Proof.
  unfold has_name. rewrite existsb_exists. split.
  - intros (x & Hx & E). apply String.eqb_eq in E. now subst.
  - intro H. exists n. split; [assumption | apply String.eqb_refl].
Qed.

Lemma filter_none {A} (f : A -> bool) (l : list A) :
  (forall x, In x l -> f x = false) -> filter f l = [].
Proof.
  induction l as [|a l IH]; simpl; intro H; [reflexivity|].
  rewrite (H a) by now left. apply IH. intros x Hx. apply H. now right.
Qed.

Lemma filter_all {A} (f : A -> bool) (l : list A) :
  (forall x, In x l -> f x = true) -> filter f l = l.
Proof.
  induction l as [|a l IH]; simpl; intro H; [reflexivity|].
  rewrite (H a) by now left. f_equal. apply IH. intros x Hx. apply H. now right.
Qed.

Lemma NoDup_app_apart {A} (l1 l2 : list A) :
  NoDup (l1 ++ l2) -> forall x, In x l2 -> ~ In x l1.
Proof.
  induction l1 as [|a l1 IH]; simpl; intros H x Hx; [tauto|].
  inversion H as [|? ? Ha Hnd]; subst. intros [->|Hin].
  - apply Ha, in_or_app. now right.
  - now apply (IH Hnd x).
Qed.

Lemma filter_not_prefix (a b : list string) :
  NoDup (a ++ b) ->
  filter (fun n => negb (has_name n a)) (a ++ b) = b.
Proof.
  intro Hnd. rewrite filter_app, filter_none, filter_all; [reflexivity| |].
  - intros x Hx. apply negb_true_iff. apply not_true_is_false.
    rewrite has_name_In. now apply (NoDup_app_apart _ _ Hnd).
  - intros x Hx. apply negb_false_iff. now apply has_name_In.
Qed.

(** Dropping the first [k] elements of a duplicate-free list, by filtering. *)
Lemma filter_not_firstn (k : nat) (l : list string) :
  NoDup l ->
  filter (fun n => negb (has_name n (firstn k l))) l = skipn k l.
Proof.
  intro Hnd. pose proof (firstn_skipn k l) as E.
  rewrite <- E in Hnd. apply filter_not_prefix in Hnd.
  now rewrite E in Hnd.
Qed.

Lemma firstn_In {A} (k : nat) (l : list A) (x : A) :
  In x (firstn k l) -> In x l.
Proof.
  intro H. rewrite <- (firstn_skipn k l). apply in_or_app. now left.
Qed.

Lemma victims_In (max_images : Z) (fs : list string) (n : string) :
  In n (victims max_images fs) -> In n (png_files fs).
Proof.
  unfold victims. destruct (_ <=? _); simpl; [intros []|].
  intro H. apply firstn_In in H.
  eapply Permutation_in; [apply sort_by_perm | exact H].
Qed.

Lemma png_files_after_prune (max_images : Z) (fs : list string) :
  NoDup fs ->
  Permutation
    (png_files (filter (fun n => negb (has_name n (victims max_images fs))) fs))
    (skipn (List.length (victims max_images fs))
           (sort_by get_timestamp (png_files fs))).
Proof.
  intro Hnd. unfold png_files at 1. rewrite filter_filter.
  assert (E : filter (fun x => negb (has_name x (victims max_images fs))
                               && endswith x ".png") fs
              = filter (fun n => negb (has_name n (victims max_images fs)))
                       (png_files fs)).
  { unfold png_files. rewrite filter_filter. apply filter_ext.
    intro n. apply andb_comm. }
  rewrite E. clear E.
  assert (Hs : NoDup (sort_by get_timestamp (png_files fs))).
  { eapply Permutation_NoDup; [symmetry; apply sort_by_perm|].
    now apply NoDup_filter. }
  etransitivity.
  { apply filter_perm. symmetry. apply (sort_by_perm get_timestamp). }
  unfold victims.
  destruct (_ <=? _).
  - simpl. now rewrite filter_true.
  - rewrite filter_not_firstn by assumption.
    rewrite length_firstn.
    destruct (Nat.min_spec (Z.to_nat (Z.of_nat (List.length (png_files fs)) - max_images))
                (List.length (sort_by get_timestamp (png_files fs))))
      as [[_ ->]|[Hle ->]]; [reflexivity|].
    rewrite skipn_all. now rewrite skipn_all2.
Qed.

Lemma length_append (s t : string) :
  String.length (s ++ t) = (String.length s + String.length t)%nat.
Proof. induction s as [|c s IH]; simpl; [reflexivity | now rewrite IH]. Qed.

Lemma append_assoc (s t u : string) : ((s ++ t) ++ u = s ++ (t ++ u))%string.
Proof. induction s as [|c s IH]; simpl; [reflexivity | now rewrite IH]. Qed.

Lemma substring_all (s : string) : substring 0 (String.length s) s = s.
Proof. induction s as [|c s IH]; simpl; [reflexivity | now rewrite IH]. Qed.

Lemma substring_append_r (s t : string) :
  substring (String.length s) (String.length t) (s ++ t) = t.
Proof. induction s as [|c s IH]; simpl; [apply substring_all | exact IH]. Qed.

Lemma endswith_app (s suffix : string) : endswith (s ++ suffix) suffix = true.
Proof.
  unfold endswith. rewrite length_append.
  replace (String.length s + String.length suffix - String.length suffix)%nat
    with (String.length s) by lia.
  rewrite substring_append_r, String.eqb_refl, andb_true_r.
  apply Nat.leb_le. lia.
Qed.

Lemma tile_name_png (row col : Z) : endswith (tile_name row col) ".png" = true.
Proof.
  unfold tile_name.
  rewrite <- !append_assoc. apply endswith_app.
Qed.

(* ------------------------------------------------------------------ *)
(** ** Retention *)
(* ------------------------------------------------------------------ *)

(** C10.  Every name ending in [.png] counts toward the cap, the tile
    files [tile_{row}_{col}.png] included: they are in the listing prune
    works on, and one that falls among the files to delete is deleted.  On
    a directory with more than [max_images] such names (the cap a count,
    the names distinct), prune leaves exactly [max_images] of them. *)
Theorem prune_counts_every_png (dir : string) (max_images : Z) (w : World) :
  NoDup (files w) ->
  0 <= max_images ->
  max_images < Z.of_nat (List.length (png_files (files w))) ->
  exists w',
    clean_old_images dir max_images w = (Ok tt, w') /\
    files w' = filter (fun n => negb (has_name n (victims max_images (files w))))
                      (files w) /\
    Z.of_nat (List.length (png_files (files w'))) = max_images /\
    forall row col,
      In (tile_name row col) (files w) ->
      In (tile_name row col) (png_files (files w)) /\
      (In (tile_name row col) (victims max_images (files w)) ->
       ~ In (tile_name row col) (files w')).
Proof.
  intros Hnd Hmax Hcount. rewrite clean_old_images_run.
  eexists. split; [reflexivity|]. simpl. split; [reflexivity|]. split.
  - rewrite (Permutation_length (png_files_after_prune max_images _ Hnd)).
    rewrite length_skipn, sort_by_length.
    unfold victims. destruct (Z.leb_spec (Z.of_nat (List.length (png_files (files w)))) max_images) as [Hle|Hgt]; [lia|].
    rewrite length_firstn, sort_by_length. lia.
  - intros row col Hin. split.
    + apply filter_In. split; [assumption | apply tile_name_png].
    + intros Hv Hin'. apply filter_In in Hin' as [_ Hneg].
      apply negb_true_iff in Hneg.
      apply has_name_In in Hv. congruence.
Qed.

(* ------------------------------------------------------------------ *)
(** ** Time alignment *)
(* ------------------------------------------------------------------ *)

Lemma sub_minutes_ok (now : datetime) (m : Z) :
  Datetime.valid now ->
  representable (Datetime.to_micros now - m * 60000000) ->
  exists target,
    Datetime.sub_minutes now m = Ok target /\
    Datetime.valid target /\
    Datetime.to_micros target = Datetime.to_micros now - m * 60000000.
Proof.
  unfold Datetime.valid, representable, Datetime.to_micros, Datetime.sub_minutes,
    Datetime.MAXORDINAL.
  destruct now as [o h mi s us]; simpl.
  intros (Ho & Hh & Hmi & Hs & Hus) Hr.
  set (secs := o * 86400 + h * 3600 + mi * 60 + s - m * 60) in *.
  assert (Hsecs : 86400 <= secs < 3652060 * 86400) by (subst secs; lia).
  assert (Hd : 1 <= secs / 86400 <= 3652059).
  { split.
    - apply Z.div_le_lower_bound; lia.
    - apply Z.lt_succ_r. apply Z.div_lt_upper_bound; lia. }
  replace (0 <? secs / 86400) with true by (symmetry; apply Z.ltb_lt; lia).
  replace (secs / 86400 <=? 3652059) with true by (symmetry; apply Z.leb_le; lia).
  simpl. eexists. split; [reflexivity|]. simpl.
  pose proof (Z.mod_pos_bound secs 86400 ltac:(lia)) as Hrem.
  pose proof (Z.div_mod secs 86400 ltac:(lia)) as Esecs.
  set (rem := secs mod 86400) in *.
  pose proof (Z.mod_pos_bound rem 3600 ltac:(lia)) as Hr1.
  pose proof (Z.div_mod rem 3600 ltac:(lia)) as Er1.
  set (r1 := rem mod 3600) in *.
  pose proof (Z.mod_pos_bound r1 60 ltac:(lia)) as Hr2.
  pose proof (Z.div_mod r1 60 ltac:(lia)) as Er2.
  assert (Er3 : rem mod 60 = r1 mod 60).
  { subst r1. clear. Z.div_mod_to_equations. lia. }
  rewrite Er3.
  assert (0 <= rem / 3600 < 24).
  { split; [apply Z.div_pos; lia | apply Z.div_lt_upper_bound; lia]. }
  assert (0 <= r1 / 60 < 60).
  { split; [apply Z.div_pos; lia | apply Z.div_lt_upper_bound; lia]. }
  repeat split; try lia.
Qed.

(** C3.  For a clock reading [now], a positive granularity [g] and a lag
    that keeps [now] minus the lag within the range of [datetime], the
    aligned time is [now] minus the lag ([target]) with its minute field
    lowered to the nearest multiple of [g] and its second and microsecond
    fields zero; the minute of the result is a multiple of [g]. *)
Theorem get_aligned_time_spec (w : World) :
  Datetime.valid (utcnow (clock_reads w)) ->
  0 < UPDATE_INTERVAL_MINUTES ->
  representable (Datetime.to_micros (utcnow (clock_reads w))
                 - DELAY_MINUTES * 60000000) ->
  exists target t w',
    Datetime.sub_minutes (utcnow (clock_reads w)) DELAY_MINUTES = Ok target /\
    Datetime.to_micros target
    = Datetime.to_micros (utcnow (clock_reads w)) - DELAY_MINUTES * 60000000 /\
    get_aligned_time w = (Ok t, w') /\
    Datetime.ordinal t = Datetime.ordinal target /\
    Datetime.hour t = Datetime.hour target /\
    Datetime.minute t
    = Datetime.minute target
      - Datetime.minute target mod UPDATE_INTERVAL_MINUTES /\
    Datetime.minute t mod UPDATE_INTERVAL_MINUTES = 0 /\
    Datetime.minute t <= Datetime.minute target
    < Datetime.minute t + UPDATE_INTERVAL_MINUTES /\
    Datetime.second t = 0 /\
    Datetime.microsecond t = 0 /\
    files w' = files w /\ events w' = events w.
Proof.
  intros Hv Hg Hr.
  destruct (sub_minutes_ok _ _ Hv Hr) as (target & Esub & Hvt & Emic).
  set (g := UPDATE_INTERVAL_MINUTES) in *.
  pose proof (Z.div_mod (Datetime.minute target) g ltac:(lia)) as Edm.
  pose proof (Z.mod_pos_bound (Datetime.minute target) g Hg) as Hm.
  destruct Hvt as (_ & _ & Hmin & _).
  assert (Hq : 0 <= Datetime.minute target / g) by (apply Z.div_pos; lia).
  assert (Hlo : 0 <= Datetime.minute target / g * g) by nia.
  exists target.
  exists {| Datetime.ordinal := Datetime.ordinal target;
            Datetime.hour := Datetime.hour target;
            Datetime.minute := Datetime.minute target / g * g;
            Datetime.second := 0;
            Datetime.microsecond := 0 |}.
  eexists. split; [exact Esub|]. split; [exact Emic|]. split.
  - unfold get_aligned_time, bind, datetime_utcnow, lift. rewrite Esub.
    unfold floordiv. fold g.
    replace (g =? 0) with false by (symmetry; apply Z.eqb_neq; lia).
    unfold Datetime.replace.
    replace (0 <=? Datetime.minute target / g * g) with true
      by (symmetry; apply Z.leb_le; lia).
    replace (Datetime.minute target / g * g <=? 59) with true
      by (symmetry; apply Z.leb_le; nia).
    simpl. reflexivity.
  - simpl. repeat split; try reflexivity; try nia.
    rewrite Z.mod_mul; lia.
Qed.

(* ------------------------------------------------------------------ *)
(** ** Stitching *)
(* ------------------------------------------------------------------ *)

Section FoldFacts.
Context {A B C : Type}.

Lemma foldR_app (f : B -> A -> result B) (l l' : list A) (b : B) :
  foldR f (l ++ l') b = bindR (foldR f l b) (foldR f l').
Proof.
  revert b. induction l as [|a l IH]; intro b; simpl; [reflexivity|].
  destruct (f b a); simpl; [apply IH | reflexivity].
Qed.

Lemma foldR_map (g : C -> A) (f : B -> A -> result B) (l : list C) (b : B) :
  foldR f (map g l) b = foldR (fun b c => f b (g c)) l b.
Proof.
  revert b. induction l as [|c l IH]; intro b; simpl; [reflexivity|].
  destruct (f b (g c)); simpl; [apply IH | reflexivity].
Qed.

End FoldFacts.

(** Two nested loops are one loop over the pairs, rows outer. *)
Lemma foldR_nested {B} (f : B -> Z * Z -> result B) (rows cols : list Z) (b : B) :
  foldR (fun b row => foldR (fun b col => f b (row, col)) cols b) rows b
  = foldR f (list_prod rows cols) b.
Proof.
  revert b. induction rows as [|r rows IH]; intro b; simpl; [reflexivity|].
  rewrite foldR_app, foldR_map.
  destruct (foldR _ cols b); simpl; [apply IH | reflexivity].
Qed.

Lemma In_range (n i : Z) : In i (range n) <-> 0 <= i < n.
Proof.
  unfold range. rewrite in_map_iff. split.
  - intros (k & <- & Hk). apply in_seq in Hk. lia.
  - intro H. exists (Z.to_nat i). split; [lia|]. apply in_seq. lia.
Qed.

Lemma In_cells (n row col : Z) :
  In (row, col) (cells n) <-> 0 <= row < n /\ 0 <= col < n.
Proof. unfold cells. now rewrite in_prod_iff, !In_range. Qed.

Lemma getitem_Ok {A} (l : list A) (i : Z) :
  0 <= i < Z.of_nat (List.length l) ->
  exists x, getitem l i = Ok x /\ nth_error l (Z.to_nat i) = Some x.
Proof.
  intro H. unfold getitem.
  replace (i <? 0) with false by (symmetry; apply Z.ltb_ge; lia).
  replace (0 <=? i) with true by (symmetry; apply Z.leb_le; lia).
  replace (i <? Z.of_nat (List.length l)) with true by (symmetry; apply Z.ltb_lt; lia).
  simpl. destruct (nth_error l (Z.to_nat i)) as [x|] eqn:E.
  - now exists x.
  - apply nth_error_None in E. lia.
Qed.

Lemma tile_at_Ok (n : Z) (tiles : list (list image_file)) (row col : Z) :
  grid n tiles -> 0 <= row < n -> 0 <= col < n ->
  exists tile, tile_at tiles row col = Ok tile.
Proof.
  intros [Hlen Hrows] Hr Hc. unfold tile_at.
  destruct (getitem_Ok tiles row ltac:(lia)) as (r & -> & Hnth). simpl.
  apply nth_error_In in Hnth.
  rewrite Forall_forall in Hrows. specialize (Hrows r Hnth).
  destruct (getitem_Ok r col ltac:(lia)) as (t & -> & _). now exists t.
Qed.

(** What holds of every tile of a matrix holds of the tile of a cell. *)
Lemma tile_at_Forall (P : image_file -> Prop) (tiles : list (list image_file))
    (row col : Z) (tile : image_file) :
  Forall (Forall P) tiles -> tile_at tiles row col = Ok tile -> P tile.
Proof.
  unfold tile_at, getitem. intros Hu.
  destruct (_ && _); [|discriminate].
  destruct (nth_error tiles _) as [r|] eqn:Er; [|discriminate]. simpl.
  destruct (_ && _); [|discriminate].
  destruct (nth_error r _) as [t|] eqn:Et; [|discriminate].
  intro E. injection E as <-.
  apply nth_error_In in Er, Et.
  rewrite Forall_forall in Hu. specialize (Hu r Er).
  rewrite Forall_forall in Hu. now apply Hu.
Qed.

Lemma tile_at_uniform (w h : Z) (tiles : list (list image_file)) (row col : Z)
    (tile : image_file) :
  uniform w h tiles -> tile_at tiles row col = Ok tile ->
  Image.file_size tile = (w, h).
Proof. intros Hu Ht. exact (tile_at_Forall _ _ _ _ _ Hu Ht). Qed.

(** Loading keeps the size the header gave. *)
Lemma load_size (tile : image_file) (im : image) :
  Image.load tile = Ok im -> Image.size im = Image.file_size tile.
Proof.
  unfold Image.load. destruct (Image.decode tile); [|discriminate].
  intro E. now injection E as <-.
Qed.

Lemma loaded_at_Ok (n : Z) (tiles : list (list image_file)) (row col : Z) :
  grid n tiles -> decoded tiles -> 0 <= row < n -> 0 <= col < n ->
  exists tile im,
    tile_at tiles row col = Ok tile /\ Image.load tile = Ok im /\
    loaded_at tiles row col = Ok im.
Proof.
  intros Hgrid Hdec Hr Hc.
  destruct (tile_at_Ok n tiles row col Hgrid Hr Hc) as (tile & Ht).
  pose proof (tile_at_Forall _ _ _ _ _ Hdec Ht) as Hl. cbv beta in Hl.
  unfold loaded_at. rewrite Ht. cbn [bindR].
  destruct (Image.load tile) as [im|] eqn:El; [|discriminate].
  exists tile, im. repeat split. exact El.
Qed.

Lemma loaded_at_uniform (w h : Z) (tiles : list (list image_file)) (row col : Z)
    (im : image) :
  uniform w h tiles -> loaded_at tiles row col = Ok im ->
  Image.size im = (w, h).
Proof.
  unfold loaded_at. intros Hu.
  destruct (tile_at tiles row col) as [tile|] eqn:Ht; [|discriminate].
  cbn [bindR]. intro El.
  rewrite (load_size _ _ El). exact (tile_at_uniform _ _ _ _ _ _ Hu Ht).
Qed.

Lemma paste_cell_loaded_at (tiles : list (list image_file)) (w h : Z)
    (big_img : image) (row col : Z) :
  paste_cell tiles w h big_img (row, col) =
  (let? tile := loaded_at tiles row col in
   Ok (Image.paste big_img tile (col * w, row * h))).
Proof.
  unfold paste_cell, loaded_at, tile_at, Image.paste_file.
  destruct (getitem tiles row) as [r|]; [|reflexivity]. cbn [bindR].
  now destruct (getitem r col).
Qed.

(** The loops of [stitch_tiles] as one pass over [cells ND]. *)
Lemma stitch_tiles_cells (tiles : list (list image_file)) :
  stitch_tiles tiles =
  (let? tile0 := tile_at tiles 0 0 in
   let? big_img :=
     Image.new (Image.file_width tile0 * ND, Image.file_height tile0 * ND)
               Image.black in
   foldR (paste_cell tiles (Image.file_width tile0) (Image.file_height tile0))
         (cells ND) big_img).
Proof.
  unfold stitch_tiles, tile_at.
  destruct (getitem tiles 0) as [row0|]; cbn [bindR]; [|reflexivity].
  destruct (getitem row0 0) as [tile0|]; cbn [bindR]; [|reflexivity].
  unfold Image.file_size. cbv iota beta.
  destruct (Image.new (Image.file_width tile0 * ND, Image.file_height tile0 * ND)
                      Image.black)
    as [big|]; cbn [bindR]; [|reflexivity].
  unfold cells.
  rewrite <- (foldR_nested
                (paste_cell tiles (Image.file_width tile0) (Image.file_height tile0))).
  reflexivity.
Qed.

(** Pasting keeps the size of the image pasted on. *)
Lemma foldR_paste_size (tiles : list (list image_file)) (w h : Z) (cs : list (Z * Z))
    (big0 big : image) :
  foldR (paste_cell tiles w h) cs big0 = Ok big ->
  Image.width big = Image.width big0 /\ Image.height big = Image.height big0.
Proof.
  revert big0. induction cs as [|[row col] cs IH]; intros big0; cbn [foldR].
  - intro E. injection E as <-. now split.
  - rewrite paste_cell_loaded_at.
    destruct (loaded_at tiles row col) as [tile|]; cbn [bindR]; [|discriminate].
    intro E. apply IH in E. simpl in E. exact E.
Qed.

(** The pass succeeds when every cell has a tile. *)
Lemma foldR_paste_Ok (tiles : list (list image_file)) (w h : Z) (cs : list (Z * Z))
    (big0 : image) :
  (forall row col, In (row, col) cs -> exists tile, loaded_at tiles row col = Ok tile) ->
  exists big, foldR (paste_cell tiles w h) cs big0 = Ok big.
Proof.
  revert big0. induction cs as [|[row col] cs IH]; intros big0 H; cbn [foldR].
  - now exists big0.
  - rewrite paste_cell_loaded_at.
    destruct (H row col (or_introl eq_refl)) as (tile & ->). cbn [bindR].
    apply IH. intros r c Hin. apply H. now right.
Qed.

(** A pixel no pasted tile covers keeps its colour. *)
Lemma foldR_paste_untouched (tiles : list (list image_file)) (w h : Z)
    (cs : list (Z * Z)) (big0 big : image) (x y : Z) :
  foldR (paste_cell tiles w h) cs big0 = Ok big ->
  (forall row col tile, In (row, col) cs -> loaded_at tiles row col = Ok tile ->
     Image.inside tile (x - col * w) (y - row * h) = false) ->
  Image.getpixel big x y = Image.getpixel big0 x y.
Proof.
  revert big0. induction cs as [|[row col] cs IH]; intros big0; cbn [foldR].
  - intros E _. now injection E as <-.
  - rewrite paste_cell_loaded_at.
    destruct (loaded_at tiles row col) as [tile|] eqn:Et; cbn [bindR]; [|discriminate].
    intros E H. rewrite (IH _ E).
    + simpl. rewrite (H row col tile (or_introl eq_refl) Et).
      now rewrite andb_false_r.
    + intros r c t Hin. apply H. now right.
Qed.

(** A pixel covered by the tile of one cell only shows that tile. *)
Lemma foldR_paste_covered (tiles : list (list image_file)) (w h : Z)
    (cs : list (Z * Z)) (big0 big : image) (x y row col : Z) (tile : image) :
  foldR (paste_cell tiles w h) cs big0 = Ok big ->
  In (row, col) cs ->
  loaded_at tiles row col = Ok tile ->
  Image.inside big0 x y = true ->
  Image.inside tile (x - col * w) (y - row * h) = true ->
  (forall r c t, In (r, c) cs -> loaded_at tiles r c = Ok t ->
     Image.inside t (x - c * w) (y - r * h) = true -> (r, c) = (row, col)) ->
  Image.getpixel big x y = Image.getpixel tile (x - col * w) (y - row * h).
Proof.
  revert big0. induction cs as [|[r c] cs IH]; intros big0; cbn [foldR]; [simpl; tauto|].
  rewrite paste_cell_loaded_at.
  destruct (loaded_at tiles r c) as [t|] eqn:Et; cbn [bindR]; [|discriminate].
  intros E Hin Htile Hin0 Hcov Honly.
  assert (dec : forall a b : Z * Z, {a = b} + {a <> b})
    by (decide equality; apply Z.eq_dec).
  destruct (in_dec dec (row, col) cs) as [Hcs|Hcs].
  - apply (IH _ E Hcs Htile).
    + exact Hin0.
    + exact Hcov.
    + intros r' c' t' Hin'. apply Honly. now right.
  - destruct Hin as [Heq|Hin]; [|contradiction].
    injection Heq as -> ->.
    rewrite (foldR_paste_untouched _ _ _ _ _ _ x y E).
    + simpl. rewrite Et in Htile. injection Htile as ->.
      now rewrite Hin0, Hcov.
    + intros r' c' t' Hin' Ht'.
      destruct (Image.inside t' _ _) eqn:Ei; [|reflexivity].
      exfalso. apply Hcs.
      rewrite <- (Honly r' c' t' (or_intror Hin') Ht' Ei). exact Hin'.
Qed.

Lemma length_range (n : Z) : List.length (range n) = Z.to_nat n.
Proof. unfold range. now rewrite length_map, length_seq. Qed.

Lemma nth_error_range (n : Z) (i : nat) :
  (i < Z.to_nat n)%nat -> nth_error (range n) i = Some (Z.of_nat i).
Proof.
  intro H. unfold range. rewrite nth_error_map.
  rewrite nth_error_seq. apply Nat.ltb_lt in H. now rewrite H.
Qed.

Lemma nth_error_list_prod {A B} (l : list A) (l' : list B) (i j : nat) (a : A) (b : B) :
  nth_error l i = Some a -> nth_error l' j = Some b ->
  nth_error (list_prod l l') (i * List.length l' + j) = Some (a, b).
Proof.
  revert i. induction l as [|x l IH]; intros [|i]; simpl; try discriminate.
  - intros E Hb. injection E as ->.
    rewrite nth_error_app1.
    + rewrite nth_error_map, Hb. reflexivity.
    + rewrite length_map. apply nth_error_Some. congruence.
  - intros Ha Hb. rewrite nth_error_app2; rewrite length_map; [|lia].
    replace (List.length l' + i * List.length l' + j - List.length l')%nat
      with (i * List.length l' + j)%nat by lia.
    now apply IH.
Qed.

(** [cells n] is the row-major enumeration: its [k]-th cell is row
    [k / n], column [k mod n]. *)
Lemma cells_row_major (n k : Z) :
  0 < n ->
  0 <= k < n * n ->
  nth_error (cells n) (Z.to_nat k) = Some (k / n, k mod n).
Proof.
  intros Hn H.
  pose proof (Z.div_mod k n ltac:(lia)) as E.
  pose proof (Z.mod_pos_bound k n Hn) as Hm.
  assert (Hq : 0 <= k / n < n).
  { split; [apply Z.div_pos; lia | apply Z.div_lt_upper_bound; nia]. }
  unfold cells.
  assert (Ek : Z.to_nat k
               = (Z.to_nat (k / n) * List.length (range n) + Z.to_nat (k mod n))%nat).
  { rewrite length_range.
    rewrite <- Z2Nat.inj_mul by lia.
    rewrite <- Z2Nat.inj_add by nia.
    f_equal. lia. }
  rewrite Ek.
  apply nth_error_list_prod.
  - rewrite nth_error_range by lia. f_equal. lia.
  - rewrite nth_error_range by lia. f_equal. lia.
Qed.

(** When every cell of the grid has a tile that decodes, the only inputs
    of [stitch_tiles] are the size of [tiles[0][0]] and the tiles
    themselves. *)
Lemma stitch_tiles_cellwise (tiles : list (list image_file)) (tile0 : image_file) :
  1 <= ND ->
  (forall row col, 0 <= row < ND -> 0 <= col < ND ->
     exists im, loaded_at tiles row col = Ok im) ->
  tile_at tiles 0 0 = Ok tile0 ->
  0 <= Image.file_width tile0 -> 0 <= Image.file_height tile0 ->
  exists blank big_img,
    Image.new (Image.file_width tile0 * ND, Image.file_height tile0 * ND)
              Image.black
    = Ok blank /\
    foldR (paste_cell tiles (Image.file_width tile0) (Image.file_height tile0))
          (cells ND) blank = Ok big_img /\
    stitch_tiles tiles = Ok big_img /\
    Image.size big_img
    = (ND * Image.file_width tile0, ND * Image.file_height tile0).
Proof.
  intros Hnd Hcells H0 Hw Hh.
  rewrite stitch_tiles_cells, H0. cbn [bindR].
  unfold Image.new.
  replace ((Image.file_width tile0 * ND <? 0) || (Image.file_height tile0 * ND <? 0))
    with false.
  2:{ symmetry. apply orb_false_iff. split; apply Z.ltb_ge; nia. }
  cbn [bindR].
  edestruct (foldR_paste_Ok tiles (Image.file_width tile0) (Image.file_height tile0)
                            (cells ND))
    as (big & Ebig).
  { intros row col Hin. apply In_cells in Hin as [Hr Hc].
    now apply Hcells. }
  eexists. exists big. split; [reflexivity|]. split; [exact Ebig|].
  split; [exact Ebig|].
  apply foldR_paste_size in Ebig as [Ew Eh]. unfold Image.size.
  rewrite Ew, Eh. simpl. f_equal; lia.
Qed.

Lemma stitch_tiles_grid (tiles : list (list image_file)) (tile0 : image_file) :
  1 <= ND ->
  grid ND tiles ->
  decoded tiles ->
  tile_at tiles 0 0 = Ok tile0 ->
  0 <= Image.file_width tile0 -> 0 <= Image.file_height tile0 ->
  exists blank big_img,
    Image.new (Image.file_width tile0 * ND, Image.file_height tile0 * ND)
              Image.black
    = Ok blank /\
    foldR (paste_cell tiles (Image.file_width tile0) (Image.file_height tile0))
          (cells ND) blank = Ok big_img /\
    stitch_tiles tiles = Ok big_img /\
    Image.size big_img
    = (ND * Image.file_width tile0, ND * Image.file_height tile0).
Proof.
  intros Hnd Hgrid Hdec. apply stitch_tiles_cellwise; [exact Hnd|].
  intros row col Hr Hc.
  destruct (loaded_at_Ok ND tiles row col Hgrid Hdec Hr Hc) as (t & im & _ & _ & E).
  now exists im.
Qed.

(** C5.  On an [ND] by [ND] matrix ([ND >= 1]) of tiles that all have size
    [(w, h)] and whose pixel data decodes, the composite has size
    [(ND * w, ND * h)] and shows, in the block at [(col * w, row * h)], the
    tile of cell [(row, col)]; the tiles are pasted one after the other over
    [cells ND], whose [k]-th cell is row [k / ND], column [k mod ND]. *)
Theorem stitch_tiles_uniform (tiles : list (list image_file)) (w h : Z) :
  1 <= ND ->
  0 <= w -> 0 <= h ->
  grid ND tiles ->
  uniform w h tiles ->
  decoded tiles ->
  exists blank big_img,
    Image.new (w * ND, h * ND) Image.black = Ok blank /\
    foldR (paste_cell tiles w h) (cells ND) blank = Ok big_img /\
    stitch_tiles tiles = Ok big_img /\
    Image.size big_img = (ND * w, ND * h) /\
    (forall row col i j,
       0 <= row < ND -> 0 <= col < ND -> 0 <= i < w -> 0 <= j < h ->
       exists tile,
         loaded_at tiles row col = Ok tile /\
         Image.getpixel big_img (col * w + i) (row * h + j)
         = Image.getpixel tile i j) /\
    (forall k, 0 <= k < ND * ND ->
       nth_error (cells ND) (Z.to_nat k) = Some (k / ND, k mod ND)).
Proof.
  intros Hnd Hw Hh Hgrid Hu Hdec.
  destruct (tile_at_Ok ND tiles 0 0 Hgrid ltac:(lia) ltac:(lia)) as (tile0 & H0).
  pose proof (tile_at_uniform _ _ _ _ _ _ Hu H0) as Hs0.
  unfold Image.file_size in Hs0. injection Hs0 as Ew0 Eh0.
  destruct (stitch_tiles_grid tiles tile0 Hnd Hgrid Hdec H0)
    as (blank & big & Eblank & Efold & Estitch & Esize); try lia.
  rewrite Ew0, Eh0 in *.
  exists blank, big. repeat split; try assumption.
  - intros row col i j Hr Hc Hi Hj.
    destruct (loaded_at_Ok ND tiles row col Hgrid Hdec Hr Hc)
      as (file & tile & _ & _ & Ht).
    exists tile. split; [exact Ht|].
    pose proof (loaded_at_uniform _ _ _ _ _ _ Hu Ht) as Hs.
    unfold Image.size in Hs. injection Hs as Ew Eh.
    unfold Image.new in Eblank.
    destruct ((w * ND <? 0) || (h * ND <? 0)); [discriminate|].
    injection Eblank as <-.
    rewrite (foldR_paste_covered _ _ _ _ _ _ (col * w + i) (row * h + j) row col tile Efold).
    + f_equal; lia.
    + apply In_cells. now split.
    + exact Ht.
    + unfold Image.inside. simpl.
      repeat (apply andb_true_iff; split);
        first [apply Z.leb_le | apply Z.ltb_lt]; nia.
    + unfold Image.inside. rewrite Ew, Eh.
      repeat (apply andb_true_iff; split);
        first [apply Z.leb_le | apply Z.ltb_lt]; lia.
    + intros r c t Hin Ht' Hins.
      pose proof (loaded_at_uniform _ _ _ _ _ _ Hu Ht') as Hs'.
      unfold Image.size in Hs'. injection Hs' as Ew' Eh'.
      unfold Image.inside in Hins. rewrite Ew', Eh' in Hins.
      apply andb_true_iff in Hins as [Hins Hy2].
      apply andb_true_iff in Hins as [Hins Hy1].
      apply andb_true_iff in Hins as [Hx1 Hx2].
      apply Z.leb_le in Hx1, Hy1. apply Z.ltb_lt in Hx2, Hy2.
      f_equal; nia.
  - intros k Hk. apply cells_row_major; [lia | exact Hk].
Qed.

(** The pass stops at the first cell whose tile is missing or does not
    decode, with the exception of that cell. *)
Lemma foldR_paste_first_raise (tiles : list (list image_file)) (w h : Z)
    (pre post : list (Z * Z)) (row col : Z) (e : exn) (big0 : image) :
  (forall r c, In (r, c) pre -> is_ok (loaded_at tiles r c) = true) ->
  loaded_at tiles row col = Raise e ->
  foldR (paste_cell tiles w h) (pre ++ (row, col) :: post) big0 = Raise e.
Proof.
  revert big0. induction pre as [|[r c] pre IH]; intros big0 Hpre He;
    cbn [app foldR]; rewrite paste_cell_loaded_at.
  - now rewrite He.
  - pose proof (Hpre r c (or_introl eq_refl)) as Hrc.
    destruct (loaded_at tiles r c) as [im|]; [|discriminate]. cbn [bindR].
    apply IH; [|exact He]. intros r' c' Hin. apply Hpre. now right.
Qed.

(** With the blank composite made, [stitch_tiles] raises what the first
    cell without a raster raises. *)
Lemma stitch_tiles_first_raise (tiles : list (list image_file))
    (tile0 : image_file) (pre post : list (Z * Z)) (row col : Z) (e : exn) :
  1 <= ND ->
  tile_at tiles 0 0 = Ok tile0 ->
  0 <= Image.file_width tile0 -> 0 <= Image.file_height tile0 ->
  cells ND = pre ++ (row, col) :: post ->
  (forall r c, In (r, c) pre -> is_ok (loaded_at tiles r c) = true) ->
  loaded_at tiles row col = Raise e ->
  stitch_tiles tiles = Raise e.
Proof.
  intros Hnd H0 Hw Hh Ecells Hpre He.
  rewrite stitch_tiles_cells, H0. cbn [bindR].
  unfold Image.new.
  replace ((Image.file_width tile0 * ND <? 0)
           || (Image.file_height tile0 * ND <? 0)) with false.
  2:{ symmetry. apply orb_false_iff. split; apply Z.ltb_ge; nia. }
  cbn [bindR]. rewrite Ecells.
  now apply foldR_paste_first_raise.
Qed.

(** C7, as the code has it.  [stitch_tiles] never compares tile sizes.  On
    any [ND] by [ND] matrix ([ND >= 1]) of tiles whose pixel data decodes,
    whatever their sizes, it returns a composite, sized [ND] times the size
    of [tiles[0][0]], made by pasting every tile at
    [(col * tile_w, row * tile_h)] with [tile_w] and [tile_h] taken from
    [tiles[0][0]]; where no tile reaches, the composite stays black.  The
    one thing that stops the pasting of a full matrix is a tile whose data
    does not decode: at the first such cell, in row-major order,
    [stitch_tiles] raises the exception of the decoder. *)
Theorem stitch_tiles_never_rejects (tiles : list (list image_file))
    (tile0 : image_file) :
  1 <= ND ->
  grid ND tiles ->
  tile_at tiles 0 0 = Ok tile0 ->
  0 <= Image.file_width tile0 -> 0 <= Image.file_height tile0 ->
  (decoded tiles ->
   exists blank big_img,
     Image.new (Image.file_width tile0 * ND, Image.file_height tile0 * ND)
               Image.black
     = Ok blank /\
     foldR (paste_cell tiles (Image.file_width tile0) (Image.file_height tile0))
           (cells ND) blank = Ok big_img /\
     stitch_tiles tiles = Ok big_img /\
     Image.size big_img
     = (ND * Image.file_width tile0, ND * Image.file_height tile0) /\
     forall x y,
       (forall row col tile,
          0 <= row < ND -> 0 <= col < ND ->
          loaded_at tiles row col = Ok tile ->
          Image.inside tile (x - col * Image.file_width tile0)
                            (y - row * Image.file_height tile0) = false) ->
       Image.getpixel big_img x y = Image.black) /\
  (forall pre row col post tile e,
     cells ND = pre ++ (row, col) :: post ->
     (forall r c, In (r, c) pre -> is_ok (loaded_at tiles r c) = true) ->
     tile_at tiles row col = Ok tile ->
     Image.load tile = Raise e ->
     stitch_tiles tiles = Raise e).
Proof.
  intros Hnd Hgrid H0 Hw Hh. split.
  - intro Hdec.
    destruct (stitch_tiles_grid tiles tile0 Hnd Hgrid Hdec H0 Hw Hh)
      as (blank & big & Eblank & Efold & Estitch & Esize).
    exists blank, big. repeat split; try assumption.
    intros x y Hfree.
    rewrite (foldR_paste_untouched _ _ _ _ _ _ x y Efold).
    + unfold Image.new in Eblank.
      destruct (_ || _); [discriminate|]. now injection Eblank as <-.
    + intros row col tile Hin. apply In_cells in Hin as [Hr Hc].
      now apply Hfree.
  - intros pre row col post tile e Ecells Hpre Ht Hl.
    apply (stitch_tiles_first_raise tiles tile0 pre post row col e);
      try assumption.
    unfold loaded_at. rewrite Ht. exact Hl.
Qed.

(* ------------------------------------------------------------------ *)
(** ** Canvas *)
(* ------------------------------------------------------------------ *)

(** Where it is at least 1, the truncation [int] is the floor. *)
Lemma int_floor (x : number) (t : Z) :
  Py.int x = Ok t -> 1 <= t -> Py.floor x = Ok t.
Proof.
  destruct x as [z|[s| | |s m e]]; simpl; try (intros; assumption).
  destruct s.
  - intros E Ht. exfalso. injection E as <-.
    destruct (0 <=? e).
    + pose proof (Z.shiftl_nonneg (Z.pos m) e). lia.
    + pose proof (Z.shiftr_nonneg (Z.pos m) (- e)). lia.
  - intros E _. injection E as <-. f_equal.
    destruct (Z.leb_spec 0 e).
    + symmetry. apply Z.shiftl_mul_pow2. assumption.
    + symmetry. apply Z.shiftr_div_pow2. lia.
Qed.

Ltac split_comparisons :=
  repeat match goal with
         | |- context [?a <=? ?b] => destruct (Z.leb_spec a b)
         | |- context [?a <? ?b] => destruct (Z.ltb_spec a b)
         | |- context [?a =? ?b] => destruct (Z.eqb_spec a b)
         end.

Lemma resize_Ok (big_img : image) (t : Z) (resample : Image.resampling) :
  1 <= t ->
  exists resized,
    Image.resize big_img (t, t) resample = Ok resized /\
    Image.size resized = (t, t).
Proof.
  intro Ht. unfold Image.resize, Image.size.
  destruct ((t =? Image.width big_img) && (t =? Image.height big_img)) eqn:E.
  - exists big_img. split; [reflexivity|].
    apply andb_true_iff in E as [E1 E2].
    apply Z.eqb_eq in E1, E2. congruence.
  - replace ((t <? 1) || (t <? 1)) with false
      by (symmetry; apply orb_false_iff; split; apply Z.ltb_ge; lia).
    eexists. split; reflexivity.
Qed.

(** What [resize_and_center] does once the target size is known. *)
Lemma resize_and_center_target (big_img : image) (W H : Z) (ratio product : number)
    (t : Z) :
  Py.mul (PyInt (Z.min W H)) ratio = Ok product ->
  Py.int product = Ok t ->
  resize_and_center big_img (W, H) ratio =
  (let? bg := Image.new (W, H) Image.black in
   let? big_resized := Image.resize big_img (t, t) LANCZOS in
   Ok (Image.paste bg big_resized ((W - t) / 2, (H - t) / 2))).
Proof.
  intros Em Ei. unfold resize_and_center. rewrite Em. cbn [bindR].
  rewrite Ei. reflexivity.
Qed.

(** C6.  With target size [t = int(min(W, H) * cover_ratio)], at least 1
    on a canvas of non-negative size: [t] is the floor of the product, the
    result is a [W] by [H] canvas, black outside the [t] by [t] square whose
    upper left corner is [((W - t) // 2, (H - t) // 2)], and showing the
    composite resized to [t] by [t] inside it.  For 1920 by 1080 and 0.9
    the product is 972.0, the target size 972 and the corner (474, 54). *)
Theorem resize_and_center_spec :
  (forall (big_img : image) (W H : Z) (ratio product : number) (t : Z),
     0 <= W -> 0 <= H ->
     Py.mul (PyInt (Z.min W H)) ratio = Ok product ->
     Py.int product = Ok t ->
     1 <= t ->
     exists big_resized canvas,
       Py.floor product = Ok t /\
       Image.resize big_img (t, t) LANCZOS = Ok big_resized /\
       Image.size big_resized = (t, t) /\
       resize_and_center big_img (W, H) ratio = Ok canvas /\
       Image.size canvas = (W, H) /\
       forall x y, 0 <= x < W -> 0 <= y < H ->
         Image.getpixel canvas x y =
         if ((W - t) / 2 <=? x) && (x <? (W - t) / 2 + t)
            && ((H - t) / 2 <=? y) && (y <? (H - t) / 2 + t)
         then Image.getpixel big_resized (x - (W - t) / 2) (y - (H - t) / 2)
         else Image.black) /\
  Py.mul (PyInt (Z.min 1920 1080)) (PyFloat ratio_0_9)
  = Ok (PyFloat (S754_finite false 8549802417586176 (-43))) /\
  Py.int (PyFloat (S754_finite false 8549802417586176 (-43))) = Ok 972 /\
  ((1920 - 972) / 2, (1080 - 972) / 2) = (474, 54).
Proof.
  split; [|repeat split].
  intros big_img W H ratio product t HW HH Em Ei Ht.
  destruct (resize_Ok big_img t LANCZOS Ht) as (resized & Er & Es).
  exists resized. eexists.
  split; [now apply int_floor|].
  split; [exact Er|]. split; [exact Es|].
  rewrite (resize_and_center_target _ _ _ _ _ _ Em Ei).
  unfold Image.new.
  replace ((W <? 0) || (H <? 0)) with false
    by (symmetry; apply orb_false_iff; split; apply Z.ltb_ge; lia).
  cbn [bindR]. rewrite Er. cbn [bindR].
  split; [reflexivity|]. split; [reflexivity|].
  intros x y Hx Hy. unfold Image.size in Es. injection Es as Ew Eh.
  unfold Image.paste, Image.inside. cbn [Image.getpixel Image.width Image.height].
  rewrite Ew, Eh.
  split_comparisons; simpl; try reflexivity; lia.
Qed.

(** C9, as the code has it.  [resize_and_center] never tests the ratio
    against an interval.  Whatever the ratio, once the product with the
    short edge truncates to a target size of at least 1 the canvas is
    produced; below 1 the resize of the imaging library refuses the empty
    target with [ValueError] (unless the composite already has that size). *)
Theorem resize_and_center_any_ratio (big_img : image) (W H : Z)
    (ratio product : number) (t : Z) :
  0 <= W -> 0 <= H ->
  Py.mul (PyInt (Z.min W H)) ratio = Ok product ->
  Py.int product = Ok t ->
  (1 <= t ->
   exists canvas,
     resize_and_center big_img (W, H) ratio = Ok canvas /\
     Image.size canvas = (W, H)) /\
  (t < 1 -> Image.size big_img <> (t, t) ->
   resize_and_center big_img (W, H) ratio = Raise ValueError).
Proof.
  intros HW HH Em Ei.
  rewrite (resize_and_center_target _ _ _ _ _ _ Em Ei).
  unfold Image.new.
  replace ((W <? 0) || (H <? 0)) with false
    by (symmetry; apply orb_false_iff; split; apply Z.ltb_ge; lia).
  cbn [bindR]. split.
  - intro Ht. destruct (resize_Ok big_img t LANCZOS Ht) as (resized & -> & _).
    cbn [bindR]. eexists. split; reflexivity.
  - intros Ht Hs. unfold Image.resize.
    destruct ((t =? Image.width big_img) && (t =? Image.height big_img)) eqn:E.
    + exfalso. apply Hs. apply andb_true_iff in E as [E1 E2].
      apply Z.eqb_eq in E1, E2. unfold Image.size. congruence.
    + replace ((t <? 1) || (t <? 1)) with true
        by (symmetry; apply orb_true_iff; left; apply Z.ltb_lt; lia).
      reflexivity.
Qed.

(* ------------------------------------------------------------------ *)
(** ** Mirrors *)
(* ------------------------------------------------------------------ *)

Lemma download_one_run (url : string) (row col : Z) (w : World) :
  download_one url row col w = (attempt url, after_mirror row col w url).
Proof.
  unfold download_one, attempt, after_mirror, mirror_events, bind, log, lift,
    create, bind, get_files, set_files, ret.
  cbn [files events clock_reads].
  destruct (requests_get url) as [content|e]; cbn [bindR].
  - destruct (has_name (tile_name row col) (files w));
      cbn [files events clock_reads];
      rewrite <- app_assoc; reflexivity.
  - reflexivity.
Qed.

Lemma try_base_urls_run (time_str : string) (row col : Z) (bases : list string)
    (last : option exn) (w : World) :
  let urls := map (fun base_url => tile_url base_url time_str col row) bases in
  exists tile last_exception,
    try_base_urls time_str row col bases last w =
    (Ok (tile, last_exception), fold_left (after_mirror row col) (tried urls) w) /\
    match tile with
    | Some img => first_tile urls last = inl img
    | None => first_tile urls last = inr last_exception
    end.
Proof.
  revert last w. induction bases as [|b bases IH]; intros last w; cbn zeta.
  - exists None, last. split; reflexivity.
  - cbn [try_base_urls map tried first_tile]. rewrite download_one_run.
    destruct (attempt (tile_url b time_str col row)) as [img|e] eqn:Ea;
      cbn [is_ok fold_left].
    + exists (Some img), last. split; reflexivity.
    + destruct (IH (Some e) (after_mirror row col w (tile_url b time_str col row)))
        as (tile & le & Erun & Hfirst).
      exists tile, le. split; assumption.
Qed.

Lemma download_cell_run (time_str : string) (row col : Z) (w : World) :
  download_cell time_str row col w =
  (cell_outcome time_str row col, after_cell time_str w (row, col)).
Proof.
  unfold download_cell, cell_outcome, after_cell, cell_urls, bind.
  destruct (try_base_urls_run time_str row col BASE_URL None w)
    as (tile & le & -> & Hfirst).
  destruct tile as [img|]; rewrite Hfirst; reflexivity.
Qed.

Lemma events_fold_after_mirror (row col : Z) (urls : list string) (w : World) :
  events (fold_left (after_mirror row col) urls w)
  = events w ++ flat_map (mirror_events row col) urls.
Proof.
  revert w. induction urls as [|u urls IH]; intro w; simpl.
  - now rewrite app_nil_r.
  - rewrite IH. simpl. now rewrite <- app_assoc.
Qed.

Lemma events_after_cell (time_str : string) (w : World) (cell : Z * Z) :
  events (after_cell time_str w cell) = events w ++ cell_events time_str cell.
Proof. destruct cell as [row col]. apply events_fold_after_mirror. Qed.

Lemma clock_after_cell (time_str : string) (w : World) (cell : Z * Z) :
  clock_reads (after_cell time_str w cell) = clock_reads w.
Proof.
  destruct cell as [row col]. unfold after_cell.
  generalize (tried (cell_urls time_str row col)) as urls.
  intro urls. revert w. induction urls as [|u urls IH]; intro w; simpl;
    [reflexivity | now rewrite IH].
Qed.

Lemma gets_app (l l' : list event) : gets (l ++ l') = gets l ++ gets l'.
Proof. apply flat_map_app. Qed.

Lemma gets_mirror_events (row col : Z) (urls : list string) :
  gets (flat_map (mirror_events row col) urls) = urls.
Proof.
  induction urls as [|u urls IH]; cbn [flat_map]; [reflexivity|].
  rewrite gets_app, IH. unfold mirror_events.
  now destruct (requests_get u).
Qed.

(** While the mirrors fail, all of them are tried. *)
Lemma tried_prefix (pre : list string) (rest : list string) :
  Forall (fun u => is_ok (attempt u) = false) pre ->
  tried (pre ++ rest) = pre ++ tried rest.
Proof.
  induction 1 as [|u pre Hu _ IH]; simpl; [reflexivity|].
  now rewrite Hu, IH.
Qed.

Lemma first_tile_prefix (pre rest : list string) (last : option exn) :
  Forall (fun u => is_ok (attempt u) = false) pre ->
  first_tile (pre ++ rest) last
  = first_tile rest match last_of pre with
                    | Some u => match attempt u with
                                | Raise e => Some e
                                | Ok _ => last
                                end
                    | None => last
                    end.
Proof.
  intro H. revert last. induction H as [|u pre Hu Hpre IH]; intro last;
    [reflexivity|].
  cbn [app first_tile].
  destruct (attempt u) as [img|e] eqn:Ea; [discriminate|].
  rewrite IH. f_equal. unfold last_of. cbn [rev].
  destruct (rev pre) as [|v l] eqn:Er; cbn [app].
  - now rewrite Ea.
  - assert (Hv : In v pre) by (apply in_rev; rewrite Er; now left).
    rewrite Forall_forall in Hpre. specialize (Hpre v Hv). cbv beta in Hpre.
    destruct (attempt v); [discriminate | reflexivity].
Qed.

(* ------------------------------------------------------------------ *)
(** ** The grid and the run *)
(* ------------------------------------------------------------------ *)

Lemma mapR_is_ok {A B} (f : A -> result B) (l : list A) :
  is_ok (mapR f l) = forallb (fun a => is_ok (f a)) l.
Proof.
  induction l as [|a l IH]; cbn [mapR forallb]; [reflexivity|].
  destruct (f a); cbn [bindR is_ok andb]; [|reflexivity].
  rewrite <- IH. now destruct (mapR f l).
Qed.

Lemma forallb_map {A B} (p : B -> bool) (g : A -> B) (l : list A) :
  forallb p (map g l) = forallb (fun a => p (g a)) l.
Proof. induction l as [|a l IH]; simpl; [reflexivity | now rewrite IH]. Qed.

Lemma mapR_app {A B} (f : A -> result B) (l l' : list A) :
  mapR f (l ++ l') =
  (let? bs := mapR f l in let? cs := mapR f l' in Ok (bs ++ cs)).
Proof.
  induction l as [|a l IH]; cbn [app mapR bindR].
  - now destruct (mapR f l').
  - destruct (f a); cbn [bindR]; [|reflexivity]. rewrite IH.
    destruct (mapR f l); cbn [bindR]; [|reflexivity].
    now destruct (mapR f l').
Qed.

Lemma mapR_map {A B C} (f : A -> result B) (g : C -> A) (l : list C) :
  mapR f (map g l) = mapR (fun c => f (g c)) l.
Proof.
  induction l as [|c l IH]; cbn [map mapR]; [reflexivity | now rewrite IH].
Qed.

(** A failure of the pass over the pairs is the failure of the nested
    passes. *)
Lemma mapR_nested_raise {B} (f : Z -> Z -> result B) (rows cols : list Z) (e : exn) :
  mapR (fun c => f (fst c) (snd c)) (list_prod rows cols) = Raise e ->
  mapR (fun row => mapR (f row) cols) rows = Raise e.
Proof.
  induction rows as [|r rows IH]; cbn [list_prod mapR]; [discriminate|].
  rewrite mapR_app, mapR_map. cbn [fst snd].
  change (fun c => f r c) with (f r).
  destruct (mapR (f r) cols) as [bs|e']; cbn [bindR]; [|congruence].
  destruct (mapR _ (list_prod rows cols)) as [cs|e'']; cbn [bindR]; [discriminate|].
  intro E. now rewrite (IH E).
Qed.

Lemma after_cells_app (time_str : string) (cs cs' : list (Z * Z)) (w : World) :
  after_cells time_str (cs ++ cs') w =
  if forallb (cell_ok time_str) cs
  then after_cells time_str cs' (after_cells time_str cs w)
  else after_cells time_str cs w.
Proof.
  revert w. induction cs as [|c cs IH]; intro w; cbn [app after_cells forallb];
    [reflexivity|].
  destruct (cell_ok time_str c); cbn [andb]; [apply IH | reflexivity].
Qed.

(** One turn of the outer loop: a row. *)
Lemma download_row_run (time_str : string) (row : Z) (cols : list Z) (w : World) :
  forM cols (fun col => download_cell time_str row col) w =
  (mapR (fun col => cell_outcome time_str row col) cols,
   after_cells time_str (map (fun col => (row, col)) cols) w).
Proof.
  revert w. induction cols as [|col cols IH]; intro w;
    cbn [forM mapR map after_cells]; [reflexivity|].
  unfold bind at 1. rewrite download_cell_run.
  unfold cell_ok. cbn [fst snd].
  destruct (cell_outcome time_str row col) as [img|e]; cbn [bindR is_ok];
    [|reflexivity].
  unfold bind at 1. rewrite IH.
  now destruct (mapR _ cols).
Qed.

Lemma download_rows_run (time_str : string) (rows cols : list Z) (w : World) :
  forM rows (fun row => forM cols (fun col => download_cell time_str row col)) w =
  (mapR (fun row => mapR (fun col => cell_outcome time_str row col) cols) rows,
   after_cells time_str (list_prod rows cols) w).
Proof.
  revert w. induction rows as [|row rows IH]; intro w;
    cbn [forM mapR list_prod]; [reflexivity|].
  unfold bind at 1. rewrite download_row_run, after_cells_app.
  assert (E : forallb (cell_ok time_str) (map (fun col => (row, col)) cols)
              = is_ok (mapR (fun col => cell_outcome time_str row col) cols)).
  { rewrite mapR_is_ok, forallb_map. reflexivity. }
  rewrite E.
  destruct (mapR _ cols) as [tiles_row|e]; cbn [bindR is_ok]; [|reflexivity].
  unfold bind at 1. rewrite IH.
  now destruct (mapR _ rows).
Qed.

Lemma download_tiles_run (time_str : string) (w : World) :
  download_tiles time_str w
  = (grid_outcome time_str, after_cells time_str (cells ND) w).
Proof. apply download_rows_run. Qed.

(** The exception of a failed pass is the exception of its first failing
    element. *)
Lemma mapR_first_failure {A B} (f : A -> result B) (before after : list A)
    (a : A) (e : exn) :
  Forall (fun x => is_ok (f x) = true) before ->
  f a = Raise e ->
  mapR f (before ++ a :: after) = Raise e.
Proof.
  intros H Ha. induction H as [|x before Hx _ IH]; cbn [app mapR].
  - now rewrite Ha.
  - destruct (f x); [|discriminate]. cbn [bindR]. now rewrite IH.
Qed.

Lemma after_cells_first_failure (time_str : string) (before after : list (Z * Z))
    (c : Z * Z) (w : World) :
  Forall (fun x => cell_ok time_str x = true) before ->
  cell_ok time_str c = false ->
  after_cells time_str (before ++ c :: after) w
  = after_cell time_str (fold_left (after_cell time_str) before w) c.
Proof.
  intros H Hc. revert w. induction H as [|x before Hx _ IH]; intro w;
    cbn [app after_cells fold_left].
  - now rewrite Hc.
  - rewrite Hx. apply IH.
Qed.

(** A list with an element failing a test splits at the first such
    element. *)
Lemma first_failing {A} (p : A -> bool) (l : list A) (a : A) :
  In a l -> p a = false ->
  exists before b after,
    l = before ++ b :: after /\
    Forall (fun x => p x = true) before /\ p b = false.
Proof.
  induction l as [|x l IH]; [contradiction|].
  intros Hin Ha. destruct (p x) eqn:Ex.
  - destruct Hin as [->|Hin]; [congruence|].
    destruct (IH Hin Ha) as (before & b & after & -> & Hb & Hpb).
    exists (x :: before), b, after. repeat split; [|assumption].
    now constructor.
  - exists [], x, l. repeat split; [constructor | assumption].
Qed.

(** The grid fails with the exception of the first failing cell in
    row-major order. *)
Lemma grid_outcome_first_failure (time_str : string) (before after : list (Z * Z))
    (row col : Z) (e : exn) :
  cells ND = before ++ (row, col) :: after ->
  Forall (fun c => cell_ok time_str c = true) before ->
  cell_outcome time_str row col = Raise e ->
  grid_outcome time_str = Raise e.
Proof.
  intros Ecells Hbefore He. unfold grid_outcome.
  apply (mapR_nested_raise (cell_outcome time_str)).
  fold (cells ND). rewrite Ecells.
  now apply mapR_first_failure.
Qed.

Lemma mapR_Ok_nth {A B} (f : A -> result B) (l : list A) (bs : list B) :
  mapR f l = Ok bs ->
  List.length bs = List.length l /\
  forall i a, nth_error l i = Some a ->
    exists b, nth_error bs i = Some b /\ f a = Ok b.
Proof.
  revert bs. induction l as [|x l IH]; intros bs; cbn [mapR].
  - intro E. injection E as <-. split; [reflexivity|].
    intros [|i] a; discriminate.
  - destruct (f x) as [b|e] eqn:Ex; cbn [bindR]; [|discriminate].
    destruct (mapR f l) as [bs'|e]; cbn [bindR]; [|discriminate].
    intro E. injection E as <-. destruct (IH bs' eq_refl) as [Hlen Hnth].
    split; [simpl; now rewrite Hlen|].
    intros [|i] a; cbn [nth_error].
    + intro Ea. injection Ea as <-. now exists b.
    + apply Hnth.
Qed.

Lemma mapR_Ok {A B} (f : A -> result B) (l : list A) :
  (forall a, In a l -> is_ok (f a) = true) -> exists bs, mapR f l = Ok bs.
Proof.
  intro H. destruct (mapR f l) as [bs|e] eqn:E; [now exists bs|].
  assert (Hok : is_ok (mapR f l) = true).
  { rewrite mapR_is_ok. apply forallb_forall. exact H. }
  rewrite E in Hok. discriminate.
Qed.

(** When every cell has a working mirror, [download_tiles] returns the
    [ND] by [ND] matrix whose entry [[row][col]] is the tile fetched for the
    cell [(row, col)]. *)
Lemma download_tiles_all_ok (time_str : string) (w : World) :
  0 <= ND ->
  (forall row col, 0 <= row < ND -> 0 <= col < ND ->
     is_ok (cell_outcome time_str row col) = true) ->
  exists tiles,
    download_tiles time_str w = (Ok tiles, after_cells time_str (cells ND) w) /\
    grid ND tiles /\
    forall row col, 0 <= row < ND -> 0 <= col < ND ->
      tile_at tiles row col = cell_outcome time_str row col.
Proof.
  intros Hnd Hall. rewrite download_tiles_run. unfold grid_outcome.
  destruct (mapR_Ok (fun row => mapR (fun col => cell_outcome time_str row col)
                                     (range ND)) (range ND)) as (tiles & Etiles).
  { intros row Hrow. apply In_range in Hrow. rewrite mapR_is_ok.
    apply forallb_forall. intros col Hcol. apply In_range in Hcol.
    now apply Hall. }
  rewrite Etiles. exists tiles. split; [reflexivity|].
  destruct (mapR_Ok_nth _ _ _ Etiles) as [Hlen Hrows].
  rewrite length_range in Hlen.
  assert (Hrow_of : forall row, 0 <= row < ND ->
            exists tiles_row,
              nth_error tiles (Z.to_nat row) = Some tiles_row /\
              mapR (fun col => cell_outcome time_str row col) (range ND)
              = Ok tiles_row).
  { intros row Hrow.
    destruct (Hrows (Z.to_nat row) row) as (r & Er & Emap).
    - rewrite nth_error_range by lia. f_equal. lia.
    - now exists r. }
  split; [split|].
  - lia.
  - apply Forall_forall. intros r Hr.
    apply In_nth_error in Hr as (i & Hi).
    assert (Hlt : (i < List.length tiles)%nat)
      by (apply nth_error_Some; congruence).
    destruct (Hrow_of (Z.of_nat i) ltac:(lia)) as (r' & Er' & Emap).
    rewrite Nat2Z.id, Hi in Er'. injection Er' as <-.
    apply mapR_Ok_nth in Emap as [Hl _]. rewrite length_range in Hl. lia.
  - intros row col Hrow Hcol.
    destruct (Hrow_of row Hrow) as (r & Er & Emap).
    destruct (mapR_Ok_nth _ _ _ Emap) as [Hl Hcols].
    rewrite length_range in Hl.
    destruct (Hcols (Z.to_nat col) col) as (tile & Etile & Eout).
    { rewrite nth_error_range by lia. f_equal. lia. }
    rewrite Eout. unfold tile_at.
    destruct (getitem_Ok tiles row ltac:(lia)) as (r0 & -> & Er0).
    rewrite Er in Er0. injection Er0 as <-. cbn [bindR].
    destruct (getitem_Ok r col ltac:(lia)) as (t0 & -> & Et0).
    congruence.
Qed.

Lemma get_aligned_time_keeps (w : World) :
  files (snd (get_aligned_time w)) = files w /\
  events (snd (get_aligned_time w)) = events w.
Proof.
  unfold get_aligned_time, bind, datetime_utcnow, lift.
  destruct (Datetime.sub_minutes _ _); cbn [snd files events]; [|now split].
  destruct (floordiv _ _); cbn [snd files events]; now split.
Qed.

Lemma files_fold_after_mirror (row col : Z) (urls : list string) (w : World) :
  exists extra,
    files (fold_left (after_mirror row col) urls w) = files w ++ extra /\
    Forall is_tile_name extra.
Proof.
  revert w. induction urls as [|u urls IH]; intro w; cbn [fold_left].
  - exists []. split; [now rewrite app_nil_r | constructor].
  - destruct (IH (after_mirror row col w u)) as (extra & -> & Hextra).
    unfold after_mirror. cbn [files].
    destruct (requests_get u); [|now exists extra].
    destruct (has_name (tile_name row col) (files w)); [now exists extra|].
    exists (tile_name row col :: extra). split.
    + now rewrite <- app_assoc.
    + constructor; [now exists row, col | assumption].
Qed.

Lemma files_after_cell (time_str : string) (w : World) (c : Z * Z) :
  exists extra,
    files (after_cell time_str w c) = files w ++ extra /\
    Forall is_tile_name extra.
Proof. destruct c as [row col]. apply files_fold_after_mirror. Qed.

Lemma fold_after_cell (time_str : string) (cs : list (Z * Z)) (w : World) :
  events (fold_left (after_cell time_str) cs w)
  = events w ++ flat_map (cell_events time_str) cs /\
  exists extra,
    files (fold_left (after_cell time_str) cs w) = files w ++ extra /\
    Forall is_tile_name extra.
Proof.
  revert w. induction cs as [|c cs IH]; intro w; cbn [fold_left flat_map].
  - split; [now rewrite app_nil_r|].
    exists []. split; [now rewrite app_nil_r | constructor].
  - destruct (IH (after_cell time_str w c)) as (Eev & extra & Efs & Hextra).
    rewrite Eev, Efs, events_after_cell.
    destruct (files_after_cell time_str w c) as (extra0 & -> & Hextra0).
    split; [now rewrite <- app_assoc|].
    exists (extra0 ++ extra). split; [now rewrite <- app_assoc|].
    apply Forall_app. now split.
Qed.

Lemma cell_outcome_raises (time_str : string) (row col : Z) (e : exn) :
  cell_outcome time_str row col = Raise e ->
  exists cause, e = RuntimeError (failed_message col row) cause.
Proof.
  unfold cell_outcome. destruct (first_tile _ _) as [img|cause]; [discriminate|].
  intro E. injection E as <-. now exists cause.
Qed.

Lemma cell_outcome_all_fail (time_str : string) (row col : Z) :
  Forall (fun b => is_ok (attempt (tile_url b time_str col row)) = false) BASE_URL ->
  is_ok (cell_outcome time_str row col) = false.
Proof.
  intro H. unfold cell_outcome, cell_urls.
  rewrite <- (app_nil_r (map _ BASE_URL)).
  rewrite first_tile_prefix; [reflexivity|].
  apply Forall_map. exact H.
Qed.

(** The events of a cell are GETs and writes of tile files. *)
Lemma cell_events_kind (time_str : string) (c : Z * Z) (e : event) :
  In e (cell_events time_str c) ->
  (exists url, e = Get url) \/ (exists path, e = WriteBytes path).
Proof.
  destruct c as [row col]. unfold cell_events. rewrite in_flat_map.
  intros (u & _ & Hin). unfold mirror_events in Hin.
  destruct Hin as [<-|Hin]; [left; now exists u|].
  destruct (requests_get u); [|contradiction].
  destruct Hin as [<-|[]]. right. eexists. reflexivity.
Qed.

(** C2.  The run has pruned ([w1]) and aligned the time ([t], [w2]); some
    cell [(row, col)] of the grid fails on every mirror.  Then
    [download_tiles] raises the [RuntimeError] of the first cell
    [(row', col')], in row-major order, whose mirrors all fail, and [main]
    ends with that exception in the world [download_tiles] left: the trace
    is the unlinks of prune followed by the requests of the cells up to
    [(row', col')] and nothing more (no [Save], no [SetWallpaper]), and the
    directory is the pruned one plus tile files. *)
Theorem main_aborts_on_failed_cell (w w2 : World) (t : datetime) (row col : Z) :
  let w1 := snd (clean_old_images SAVE_DIR MAX_PIC w) in
  let time_str := Datetime.strftime t in
  get_aligned_time w1 = (Ok t, w2) ->
  0 <= row < ND -> 0 <= col < ND ->
  Forall (fun b => is_ok (attempt (tile_url b time_str col row)) = false)
         BASE_URL ->
  exists before row' col' after cause w3 extra,
    cells ND = before ++ (row', col') :: after /\
    Forall (fun c => cell_ok time_str c = true) before /\
    cell_ok time_str (row', col') = false /\
    download_tiles time_str w2
    = (Raise (RuntimeError (failed_message col' row') cause), w3) /\
    main w = (Raise (RuntimeError (failed_message col' row') cause), w3) /\
    events w3
    = events w
      ++ map (fun v => Unlink (join SAVE_DIR v)) (victims MAX_PIC (files w))
      ++ flat_map (cell_events time_str) (before ++ [(row', col')]) /\
    (forall path, In (Save path) (events w3) -> In (Save path) (events w)) /\
    (forall path, In (SetWallpaper path) (events w3) ->
                  In (SetWallpaper path) (events w)) /\
    files w1
    = filter (fun n => negb (has_name n (victims MAX_PIC (files w)))) (files w) /\
    files w3 = files w1 ++ extra /\
    Forall is_tile_name extra.
Proof.
  intros w1 time_str Htime Hrow Hcol Hfail.
  assert (Hin : In (row, col) (cells ND)) by (apply In_cells; now split).
  pose proof (cell_outcome_all_fail time_str row col Hfail) as Hbad.
  destruct (first_failing (cell_ok time_str) (cells ND) (row, col) Hin Hbad)
    as (before & [row' col'] & after & Ecells & Hbefore & Hfirst).
  destruct (cell_outcome time_str row' col') as [img|e] eqn:Eout;
    [unfold cell_ok in Hfirst; cbn [fst snd] in Hfirst; rewrite Eout in Hfirst;
     discriminate|].
  destruct (cell_outcome_raises _ _ _ _ Eout) as (cause & ->).
  pose proof (grid_outcome_first_failure time_str before after row' col' _
                Ecells Hbefore Eout) as Egrid.
  assert (Edl : download_tiles time_str w2
                = (Raise (RuntimeError (failed_message col' row') cause),
                   after_cell time_str (fold_left (after_cell time_str) before w2)
                              (row', col'))).
  { rewrite download_tiles_run, Egrid, Ecells.
    now rewrite (after_cells_first_failure _ _ _ _ _ Hbefore Hfirst). }
  assert (Ew1 : clean_old_images SAVE_DIR MAX_PIC w = (Ok tt, w1)).
  { subst w1. now rewrite clean_old_images_run. }
  assert (Efiles1 : files w1
            = filter (fun n => negb (has_name n (victims MAX_PIC (files w)))) (files w)).
  { subst w1. now rewrite clean_old_images_run. }
  assert (Eev1 : events w1
            = events w ++ map (fun v => Unlink (join SAVE_DIR v))
                              (victims MAX_PIC (files w))).
  { subst w1. now rewrite clean_old_images_run. }
  destruct (get_aligned_time_keeps w1) as [Efiles2 Eev2].
  rewrite Htime in Efiles2, Eev2. cbn [snd] in Efiles2, Eev2.
  destruct (fold_after_cell time_str before w2) as (Eevb & extra & Efsb & Hextra).
  destruct (files_after_cell time_str (fold_left (after_cell time_str) before w2)
              (row', col')) as (extra' & Efs3 & Hextra').
  assert (Eev3 : events (after_cell time_str
                           (fold_left (after_cell time_str) before w2) (row', col'))
                 = events w
                   ++ map (fun v => Unlink (join SAVE_DIR v))
                          (victims MAX_PIC (files w))
                   ++ flat_map (cell_events time_str) (before ++ [(row', col')])).
  { rewrite events_after_cell, Eevb, Eev2, Eev1, flat_map_app.
    cbn [flat_map]. rewrite app_nil_r, <- !app_assoc. reflexivity. }
  exists before, row', col', after, cause.
  eexists. exists (extra ++ extra').
  split; [exact Ecells|]. split; [exact Hbefore|]. split; [exact Hfirst|].
  split; [exact Edl|]. split.
  { unfold main. unfold bind at 1. rewrite Ew1.
    unfold bind at 1. rewrite Htime. fold time_str.
    unfold bind at 1. rewrite Edl. reflexivity. }
  split; [exact Eev3|].
  assert (Hkind : forall e,
            In e (events (after_cell time_str
                            (fold_left (after_cell time_str) before w2) (row', col'))) ->
            In e (events w) \/ (exists p, e = Unlink p) \/ (exists u, e = Get u)
            \/ (exists p, e = WriteBytes p)).
  { intros e He. rewrite Eev3 in He.
    apply in_app_or in He as [He|He]; [now left|].
    apply in_app_or in He as [He|He].
    - apply in_map_iff in He as (v & <- & _). right. left. eexists. reflexivity.
    - apply in_flat_map in He as (c & _ & He).
      apply cell_events_kind in He. tauto. }
  split.
  { intros path Hp. destruct (Hkind _ Hp) as [H|[(p & H)|[(u & H)|(p & H)]]];
      [assumption | discriminate..]. }
  split.
  { intros path Hp. destruct (Hkind _ Hp) as [H|[(p & H)|[(u & H)|(p & H)]]];
      [assumption | discriminate..]. }
  split; [exact Efiles1|]. split.
  - rewrite Efs3, Efsb, Efiles2, <- app_assoc. reflexivity.
  - apply Forall_app. now split.
Qed.

(* ------------------------------------------------------------------ *)
(** ** File names *)
(* ------------------------------------------------------------------ *)

Lemma occurs_append (c : ascii) (s t : string) :
  occurs c (s ++ t) = occurs c s || occurs c t.
Proof.
  induction s as [|d s IH]; simpl; [reflexivity|].
  now rewrite IH, orb_assoc.
Qed.

Lemma append_nil_r (s : string) : (s ++ "")%string = s.
Proof. induction s as [|c s IH]; simpl; [reflexivity | now rewrite IH]. Qed.

(** Decimal numerals hold digits only. *)
Lemma occurs_uint (c : ascii) (d : Decimal.uint) :
  (c <? "0")%char = true \/ ("9" <? c)%char = true ->
  occurs c (NilEmpty.string_of_uint d) = false.
Proof.
  intro Hc. assert (Hd : forall k : ascii,
    (("0" <=? k)%char && (k <=? "9")%char = true) -> Ascii.eqb k c = false).
  { intros k Hk. apply Ascii.eqb_neq. intros ->.
    apply andb_true_iff in Hk as [H0 H9].
    unfold Ascii.ltb, Ascii.leb in *.
    destruct Hc as [Hc|Hc];
      [rewrite Ascii.compare_antisym in Hc; destruct (Ascii.compare "0" c)
      |rewrite Ascii.compare_antisym in Hc; destruct (Ascii.compare c "9")];
      discriminate. }
  induction d; cbn [NilEmpty.string_of_uint occurs];
    [reflexivity | rewrite IHd, Hd by reflexivity; reflexivity..].
Qed.

Lemma occurs_str (c : ascii) (n : Z) :
  (c <? "0")%char = true \/ ("9" <? c)%char = true ->
  c <> "-"%char ->
  occurs c (str n) = false.
Proof.
  intros Hc Hm.
  assert (Hu : forall d, occurs c (NilZero.string_of_uint d) = false).
  { intro d. unfold NilZero.string_of_uint.
    destruct d; try apply (occurs_uint c _ Hc).
    apply (occurs_uint c (Decimal.D0 Decimal.Nil) Hc). }
  unfold str, NilZero.string_of_int.
  destruct (Z.to_int n); [apply Hu|].
  cbn [occurs]. rewrite Hu, orb_false_r.
  apply Ascii.eqb_neq. congruence.
Qed.

Lemma occurs_pad2 (c : ascii) (n : Z) :
  (c <? "0")%char = true \/ ("9" <? c)%char = true ->
  c <> "-"%char ->
  occurs c (Datetime.pad2 n) = false.
Proof.
  intros Hc Hm. unfold Datetime.pad2. destruct (n <? 10).
  - rewrite occurs_append, (occurs_str c n Hc Hm), orb_false_r.
    apply (occurs_str c 0 Hc Hm).
  - now apply occurs_str.
Qed.

Lemma replace_append (old : ascii) (new s t : string) :
  Py.replace old new (s ++ t) = (Py.replace old new s ++ Py.replace old new t)%string.
Proof.
  induction s as [|c s IH]; simpl; [reflexivity|].
  destruct (Ascii.eqb c old); rewrite IH; [|reflexivity].
  now rewrite append_assoc.
Qed.

Lemma replace_absent (old : ascii) (new s : string) :
  occurs old s = false -> Py.replace old new s = s.
Proof.
  induction s as [|c s IH]; simpl; [reflexivity|].
  intro H. apply orb_false_iff in H as [Hc Hs].
  now rewrite Hc, IH.
Qed.

(** Splitting cuts at the first separator. *)
Lemma split_append (sep : ascii) (s t : string) :
  occurs sep s = false ->
  split sep (s ++ String sep t) = s :: split sep t.
Proof.
  induction s as [|c s IH]; simpl; intro H.
  - now rewrite Ascii.eqb_refl.
  - apply orb_false_iff in H as [Hc Hs]. now rewrite Hc, IH.
Qed.

Lemma rfind_append (c : ascii) (s t : string) (i : nat) :
  rfind c t = Some i -> rfind c (s ++ t) = Some (String.length s + i)%nat.
Proof.
  intro H. induction s as [|d s IH]; simpl; [exact H | now rewrite IH].
Qed.

Lemma substring_append_l (s t : string) :
  substring 0 (String.length s) (s ++ t) = s.
Proof.
  induction s as [|c s IH]; simpl; [now destruct t | now rewrite IH].
Qed.

(** The stem of a [.png] name is the name without the extension. *)
Lemma stem_png (s : string) : s <> "" -> stem (s ++ ".png") = s.
Proof.
  intro Hs. unfold stem.
  rewrite (rfind_append "." s ".png" 0 eq_refl), Nat.add_0_r, length_append.
  assert (H1 : (0 <? String.length s)%nat = true).
  { apply Nat.ltb_lt. destruct s; [contradiction | simpl; lia]. }
  assert (H2 : (String.length s <? String.length s + String.length ".png" - 1)%nat
               = true).
  { apply Nat.ltb_lt. simpl. lia. }
  rewrite H1, H2. apply substring_append_l.
Qed.

Lemma convert_time_strftime (t : datetime) :
  convert_time (Datetime.strftime t) =
  (str (Datetime.year t) ++ "__" ++ Datetime.pad2 (Datetime.month t) ++ "__"
   ++ Datetime.pad2 (Datetime.day t) ++ "__" ++ Datetime.pad2 (Datetime.hour t)
   ++ Datetime.pad2 (Datetime.minute t) ++ Datetime.pad2 (Datetime.second t))%string.
Proof.
  assert (Hc : ("/" <? "0")%char = true \/ ("9" <? "/")%char = true)
    by (left; reflexivity).
  assert (Hm : "/"%char <> "-"%char) by discriminate.
  unfold convert_time, Datetime.strftime.
  repeat rewrite replace_append.
  rewrite (replace_absent "/" "__" (str _)) by now apply occurs_str.
  rewrite !(replace_absent "/" "__" (Datetime.pad2 _)) by now apply occurs_pad2.
  reflexivity.
Qed.

(** The sort key of an artifact the script saves is the year of its
    timestamp, and nothing else of it. *)
Lemma get_timestamp_artifact_name (t : datetime) :
  get_timestamp (artifact_name t) = str (Datetime.year t).
Proof.
  assert (Hc : ("9" <? "_")%char = true) by reflexivity.
  assert (Hm : "_"%char <> "-"%char) by discriminate.
  unfold get_timestamp, artifact_name. rewrite convert_time_strftime.
  set (rest := (Datetime.pad2 (Datetime.month t) ++ "__"
                ++ Datetime.pad2 (Datetime.day t) ++ "__"
                ++ Datetime.pad2 (Datetime.hour t)
                ++ Datetime.pad2 (Datetime.minute t)
                ++ Datetime.pad2 (Datetime.second t))%string).
  set (X := ((str ND ++ "d") ++ String "_" (str TILE_SIZE
               ++ String "_" (str (Datetime.year t) ++ String "_" (String "_" rest))))%string).
  assert (E : (str ND ++ "d_" ++ str TILE_SIZE ++ "_"
               ++ (str (Datetime.year t) ++ "__" ++ rest) ++ ".png")%string
              = (X ++ ".png")%string).
  { subst X. repeat first [rewrite append_assoc | progress cbn [append]]. reflexivity. }
  rewrite E, stem_png.
  2:{ subst X. destruct (str ND); discriminate. }
  subst X.
  rewrite split_append.
  2:{ rewrite occurs_append, occurs_str by (auto; now right). reflexivity. }
  rewrite split_append by (apply occurs_str; auto).
  rewrite split_append by (apply occurs_str; auto).
  reflexivity.
Qed.

Lemma year_positive (t : datetime) :
  1 <= Datetime.ordinal t -> 1 <= Datetime.year t.
Proof.
  intro H. unfold Datetime.year, Datetime.ord2ymd. cbv zeta.
  set (n := Datetime.ordinal t - 1).
  assert (Hn : 0 <= n) by (subst n; lia).
  assert (H400 : 0 <= n / 146097) by (apply Z.div_pos; lia).
  pose proof (Z.mod_pos_bound n 146097 ltac:(lia)) as Hm1.
  assert (H100 : 0 <= n mod 146097 / 36524) by (apply Z.div_pos; lia).
  pose proof (Z.mod_pos_bound (n mod 146097) 36524 ltac:(lia)) as Hm2.
  assert (H4 : 0 <= (n mod 146097) mod 36524 / 1461) by (apply Z.div_pos; lia).
  pose proof (Z.mod_pos_bound ((n mod 146097) mod 36524) 1461 ltac:(lia)) as Hm3.
  assert (H1 : 0 <= ((n mod 146097) mod 36524) mod 1461 / 365)
    by (apply Z.div_pos; lia).
  destruct ((_ =? 4) || (_ =? 4)) eqn:E.
  - cbn [fst]. apply orb_true_iff in E as [E|E]; apply Z.eqb_eq in E; lia.
  - destruct (_ <? _); cbn [fst]; lia.
Qed.

(** The decimal numeral of a positive int sorts after ["0"]. *)
Lemma ltb_0_str (y : Z) : 1 <= y -> String.ltb "0" (str y) = true.
Proof.
  intro H. destruct y as [|p|p]; try lia.
  unfold str. change (Z.to_int (Z.pos p)) with (Decimal.Pos (Pos.to_uint p)).
  cbn [NilZero.string_of_int]. unfold NilZero.string_of_uint.
  pose proof (DecimalPos.Unsigned.to_uint_nonzero p) as Hz.
  pose proof (DecimalPos.Unsigned.to_uint_nonnil p) as Hn.
  destruct (Pos.to_uint p) as [|d|d|d|d|d|d|d|d|d|d]; try reflexivity.
  - now exfalso.
  - cbn [NilEmpty.string_of_uint]. unfold String.ltb. cbn [String.compare].
    change (Ascii.compare "0" "0") with Eq. cbv iota.
    destruct d; [exfalso; now apply Hz | reflexivity..].
Qed.

Lemma clean_old_images_total (dir : string) (max_images : Z) (w : World) :
  fst (clean_old_images dir max_images w) = Ok tt.
Proof. now rewrite clean_old_images_run. Qed.

(** C8, as the code has it.  A name whose stem has fewer than three parts
    between underscores gets the key ["0"], which sorts strictly before the
    key of every artifact the script saves; a name with three parts or more
    gets its third part, whatever it is.  [get_timestamp] is total and
    prune never raises. *)
Theorem get_timestamp_fallback :
  (forall name,
     (List.length (split "_" (stem name)) < 3)%nat ->
     get_timestamp name = "0") /\
  (forall name,
     (3 <= List.length (split "_" (stem name)))%nat ->
     get_timestamp name = nth 2 (split "_" (stem name)) "") /\
  (forall t,
     1 <= Datetime.ordinal t ->
     get_timestamp (artifact_name t) = str (Datetime.year t) /\
     String.ltb "0" (get_timestamp (artifact_name t)) = true) /\
  (forall dir max_images w,
     fst (clean_old_images dir max_images w) = Ok tt).
Proof.
  repeat split.
  - intros name H. unfold get_timestamp.
    apply Nat.leb_gt in H. now rewrite H.
  - intros name H. unfold get_timestamp.
    apply Nat.leb_le in H. now rewrite H.
  - apply get_timestamp_artifact_name.
  - rewrite get_timestamp_artifact_name. now apply ltb_0_str, year_positive.
  - apply clean_old_images_total.
Qed.

Lemma artifact_name_png (t : datetime) :
  endswith (artifact_name t) ".png" = true.
Proof.
  unfold artifact_name. repeat rewrite <- append_assoc. apply endswith_app.
Qed.

Lemma leb_refl (s : string) : String.leb s s = true.
Proof.
  unfold String.leb.
  replace (String.compare s s) with Eq; [reflexivity|].
  induction s as [|c s IH]; cbn [String.compare]; [reflexivity|].
  unfold Ascii.compare. now rewrite N.compare_refl.
Qed.

(** Within one year the timestamps play no part: of two artifacts of the
    same year, with a cap of one, prune deletes the one the directory scan
    yields first, older or newer. *)
Lemma prune_within_a_year (dir : string) (t_first t_second : datetime)
    (reads : nat) (evs : list event) :
  Datetime.year t_first = Datetime.year t_second ->
  artifact_name t_first <> artifact_name t_second ->
  clean_old_images dir 1
    {| files := [artifact_name t_first; artifact_name t_second];
       clock_reads := reads; events := evs |}
  = (Ok tt, {| files := [artifact_name t_second];
               clock_reads := reads;
               events := evs ++ [Unlink (join dir (artifact_name t_first))] |}).
Proof.
  intros Hyear Hneq. rewrite clean_old_images_run. cbn [files clock_reads events].
  assert (Ev : victims 1 [artifact_name t_first; artifact_name t_second]
               = [artifact_name t_first]).
  { unfold victims, png_files. cbn [filter].
    rewrite !artifact_name_png. cbn [List.length].
    cbn [sort_by fold_right insert_by].
    rewrite !get_timestamp_artifact_name, Hyear, leb_refl. reflexivity. }
  rewrite Ev. cbn [filter has_name existsb map].
  rewrite String.eqb_refl.
  replace (String.eqb (artifact_name t_second) (artifact_name t_first)) with false
    by (symmetry; apply String.eqb_neq; congruence).
  reflexivity.
Qed.

(* ------------------------------------------------------------------ *)
(** ** The order of the sort keys *)
(* ------------------------------------------------------------------ *)

Lemma string_leb_trans (s t u : string) :
  String.leb s t = true -> String.leb t u = true -> String.leb s u = true.
Proof.
  unfold String.leb. revert t u.
  induction s as [|a s IH]; intros [|b t] [|c u]; cbn [String.compare];
    try (intros; reflexivity); try (intros; discriminate).
  unfold Ascii.compare.
  destruct (N.compare_spec (N_of_ascii a) (N_of_ascii b)) as [Eab|Lab|Gab];
    destruct (N.compare_spec (N_of_ascii b) (N_of_ascii c)) as [Ebc|Lbc|Gbc];
    destruct (N.compare_spec (N_of_ascii a) (N_of_ascii c)) as [Eac|Lac|Gac];
    try (intros; reflexivity); try (intros; discriminate); try lia.
  apply IH.
Qed.

Lemma string_ltb_trans (s t u : string) :
  String.ltb s t = true -> String.ltb t u = true -> String.ltb s u = true.
Proof.
  unfold String.ltb. revert t u.
  induction s as [|a s IH]; intros [|b t] [|c u]; cbn [String.compare];
    try (intros; reflexivity); try (intros; discriminate).
  unfold Ascii.compare.
  destruct (N.compare_spec (N_of_ascii a) (N_of_ascii b)) as [Eab|Lab|Gab];
    destruct (N.compare_spec (N_of_ascii b) (N_of_ascii c)) as [Ebc|Lbc|Gbc];
    destruct (N.compare_spec (N_of_ascii a) (N_of_ascii c)) as [Eac|Lac|Gac];
    try (intros; reflexivity); try (intros; discriminate); try lia.
  apply IH.
Qed.

Lemma string_ltb_leb (s t : string) :
  String.ltb s t = true -> String.leb s t = true.
Proof.
  unfold String.ltb, String.leb. now destruct (String.compare s t).
Qed.

Lemma string_ltb_not_leb (s t : string) :
  String.ltb s t = true -> String.leb t s = false.
Proof.
  unfold String.ltb, String.leb. rewrite (String.compare_antisym s t).
  now destruct (String.compare t s).
Qed.

Section SortedFacts.
Context {A : Type} (key : A -> string).

Lemma insert_by_sorted (x : A) (l : list A) :
  StronglySorted (key_le key) l -> StronglySorted (key_le key) (insert_by key x l).
Proof.
  induction 1 as [|y l Hl IH Hy]; cbn [insert_by].
  - repeat constructor.
  - destruct (String.leb (key x) (key y)) eqn:E.
    + constructor; [now constructor|].
      constructor; [exact E|].
      eapply Forall_impl; [|exact Hy].
      intros z Hz. unfold key_le in *. now apply (string_leb_trans _ (key y)).
    + constructor; [exact IH|].
      assert (Hyx : (key_le key) y x).
      { unfold key_le. destruct (String.leb_total (key x) (key y)); congruence. }
      apply Forall_forall. intros z Hz.
      apply (Permutation_in _ (insert_by_perm key x l)) in Hz.
      destruct Hz as [<-|Hz]; [exact Hyx|].
      rewrite Forall_forall in Hy. now apply Hy.
Qed.

Lemma sort_by_sorted (l : list A) : StronglySorted (key_le key) (sort_by key l).
Proof.
  induction l as [|x l IH]; cbn [sort_by fold_right]; [constructor|].
  now apply insert_by_sorted.
Qed.

(** In a sorted list nothing of a prefix sorts after anything of the
    rest. *)
Lemma sorted_firstn_skipn (k : nat) (l : list A) (x y : A) :
  StronglySorted (key_le key) l ->
  In x (firstn k l) -> In y (skipn k l) -> (key_le key) x y.
Proof.
  intro H. revert k. induction H as [|z l Hl IH Hz]; intros [|k]; cbn [firstn skipn];
    try contradiction.
  intros [<-|Hx] Hy.
  - rewrite Forall_forall in Hz. apply Hz.
    rewrite <- (firstn_skipn k l). apply in_or_app. now right.
  - now apply (IH k).
Qed.

End SortedFacts.

(* ------------------------------------------------------------------ *)
(** ** More on retention *)
(* ------------------------------------------------------------------ *)

Lemma victims_firstn (max_images : Z) (fs : list string) :
  victims max_images fs
  = firstn (List.length (victims max_images fs))
           (sort_by get_timestamp (png_files fs)).
Proof.
  unfold victims. destruct (_ <=? _); [reflexivity|].
  rewrite length_firstn.
  match goal with
  | |- firstn ?k ?l = _ =>
      destruct (Nat.min_spec k (List.length l)) as [[_ ->]|[Hle ->]];
      [reflexivity | now rewrite firstn_all, firstn_all2]
  end.
Qed.

(** X1.  Prune deletes by key: in a directory of distinct names, no file
    it deletes has a key that sorts after the key of a [.png] file it
    keeps. *)
Theorem prune_deletes_smallest_keys (dir : string) (max_images : Z) (w : World)
    (deleted kept : string) :
  NoDup (files w) ->
  In deleted (victims max_images (files w)) ->
  In kept (png_files (files (snd (clean_old_images dir max_images w)))) ->
  In (Unlink (join dir deleted)) (events (snd (clean_old_images dir max_images w))) /\
  ~ In deleted (files (snd (clean_old_images dir max_images w))) /\
  String.leb (get_timestamp deleted) (get_timestamp kept) = true.
Proof.
  intros Hnd Hdel Hkept. rewrite clean_old_images_run in Hkept |- *.
  cbn [snd files events] in Hkept |- *.
  split; [|split].
  - apply in_or_app. right. apply in_map_iff. now exists deleted.
  - intro Hin. apply filter_In in Hin as [_ Hneg].
    apply negb_true_iff in Hneg. apply has_name_In in Hdel. congruence.
  - apply (Permutation_in _ (png_files_after_prune max_images _ Hnd)) in Hkept.
    rewrite victims_firstn in Hdel.
    exact (sorted_firstn_skipn get_timestamp _ _ _ _
             (sort_by_sorted get_timestamp _) Hdel Hkept).
Qed.

Lemma victims_after_prune (max_images : Z) (fs : list string) :
  NoDup fs ->
  victims max_images
    (filter (fun n => negb (has_name n (victims max_images fs))) fs) = [].
Proof.
  intro Hnd.
  pose proof (Permutation_length (png_files_after_prune max_images fs Hnd)) as Hlen.
  rewrite length_skipn, sort_by_length in Hlen.
  set (fs' := filter (fun n => negb (has_name n (victims max_images fs))) fs) in *.
  unfold victims at 1.
  destruct (Z.leb_spec (Z.of_nat (List.length (png_files fs'))) max_images)
    as [Hle|Hgt]; [reflexivity|].
  assert (Hzero : List.length (png_files fs') = 0%nat).
  { revert Hlen Hgt. unfold victims.
    destruct (Z.leb_spec (Z.of_nat (List.length (png_files fs))) max_images) as [H1|H1].
    - cbn [List.length]. lia.
    - rewrite length_firstn, sort_by_length. lia. }
  apply length_zero_iff_nil in Hzero. rewrite Hzero. cbn [sort_by fold_right].
  apply firstn_nil.
Qed.

(** X2.  Prune is idempotent: on a directory of distinct names a second
    prune with the same cap right after the first deletes nothing and
    leaves the world as it is, whatever the cap. *)
Theorem prune_idempotent (dir : string) (max_images : Z) (w : World) :
  NoDup (files w) ->
  clean_old_images dir max_images (snd (clean_old_images dir max_images w))
  = (Ok tt, snd (clean_old_images dir max_images w)).
Proof.
  intro Hnd. rewrite (clean_old_images_run dir max_images w). cbn [snd].
  rewrite clean_old_images_run. cbn [files clock_reads events].
  rewrite (victims_after_prune max_images (files w) Hnd).
  cbn [has_name existsb negb map]. now rewrite filter_true, app_nil_r.
Qed.

(** X3.  Prune only ever removes [.png] files: every other name of the
    directory is still there afterwards, nothing is added, each removed
    file has its [Unlink] in the trace, and when the directory holds no
    more than [max_images] names ending in [.png] the world is unchanged. *)
Theorem prune_spares_other_files (dir : string) (max_images : Z) (w : World) :
  (forall name, In name (files (snd (clean_old_images dir max_images w))) ->
                In name (files w)) /\
  (forall name, In name (files w) -> endswith name ".png" = false ->
                In name (files (snd (clean_old_images dir max_images w)))) /\
  (forall name, In name (files w) ->
                ~ In name (files (snd (clean_old_images dir max_images w))) ->
                In (Unlink (join dir name))
                   (events (snd (clean_old_images dir max_images w)))) /\
  (Z.of_nat (List.length (png_files (files w))) <= max_images ->
   snd (clean_old_images dir max_images w) = w).
Proof.
  rewrite clean_old_images_run. cbn [snd files events].
  split; [|split; [|split]].
  - intros name Hin. now apply filter_In in Hin.
  - intros name Hin Hpng. apply filter_In. split; [exact Hin|].
    apply negb_true_iff, not_true_is_false. intro Hv.
    apply has_name_In, victims_In in Hv. apply filter_In in Hv as [_ Hv].
    rewrite Hpng in Hv. discriminate.
  - intros name Hin Hgone. apply in_or_app. right.
    apply in_map_iff. exists name. split; [reflexivity|].
    apply has_name_In.
    destruct (has_name name (victims max_images (files w))) eqn:E; [reflexivity|].
    exfalso. apply Hgone. apply filter_In. split; [exact Hin|]. now rewrite E.
  - intro Hle. unfold victims.
    apply Z.leb_le in Hle. rewrite Hle. cbn [has_name existsb negb map].
    rewrite filter_true, app_nil_r. destruct w. reflexivity.
Qed.

Lemma str_successor_order :
  forallb (fun y => String.ltb (str y) (str (y + 1)))
          (map (Z.add 1000) (range 8999)) = true.
Proof. vm_compute. reflexivity. Qed.

(** From 1000 to 9999 the decimal numerals sort as the numbers do. *)
Lemma str_four_digit_order (y1 y2 : Z) :
  1000 <= y1 -> y1 < y2 -> y2 <= 9999 ->
  String.ltb (str y1) (str y2) = true.
Proof.
  intros Hlo Hlt Hhi.
  assert (Hstep : forall y, 1000 <= y < 9999 ->
                    String.ltb (str y) (str (y + 1)) = true).
  { intros y Hy. pose proof str_successor_order as H.
    rewrite forallb_forall in H. apply H.
    apply in_map_iff. exists (y - 1000). split; [lia|].
    apply In_range. lia. }
  replace y2 with (y1 + 1 + Z.of_nat (Z.to_nat (y2 - y1 - 1))) in * by lia.
  induction (Z.to_nat (y2 - y1 - 1)) as [|n IH].
  - rewrite Z.add_0_r. apply Hstep. lia.
  - apply (string_ltb_trans _ (str (y1 + 1 + Z.of_nat n))).
    + apply IH; lia.
    + replace (y1 + 1 + Z.of_nat (S n)) with (y1 + 1 + Z.of_nat n + 1) by lia.
      apply Hstep. lia.
Qed.

(** X4.  Across years prune does follow the timestamps: of two artifacts
    saved in different years (1000 to 9999), with a cap of one, the one of
    the earlier year is deleted and the one of the later year kept, in
    whichever order the directory scan yields them. *)
Theorem prune_across_years (dir : string) (t_old t_new : datetime)
    (reads : nat) (evs : list event) :
  1000 <= Datetime.year t_old ->
  Datetime.year t_old < Datetime.year t_new ->
  Datetime.year t_new <= 9999 ->
  String.ltb (get_timestamp (artifact_name t_old))
             (get_timestamp (artifact_name t_new)) = true /\
  clean_old_images dir 1
    {| files := [artifact_name t_old; artifact_name t_new];
       clock_reads := reads; events := evs |}
  = (Ok tt, {| files := [artifact_name t_new];
               clock_reads := reads;
               events := evs ++ [Unlink (join dir (artifact_name t_old))] |}) /\
  clean_old_images dir 1
    {| files := [artifact_name t_new; artifact_name t_old];
       clock_reads := reads; events := evs |}
  = (Ok tt, {| files := [artifact_name t_new];
               clock_reads := reads;
               events := evs ++ [Unlink (join dir (artifact_name t_old))] |}).
Proof.
  intros Hlo Hlt Hhi.
  pose proof (str_four_digit_order _ _ Hlo Hlt Hhi) as Hkey.
  rewrite <- !get_timestamp_artifact_name in Hkey.
  assert (Hneq : String.eqb (artifact_name t_new) (artifact_name t_old) = false).
  { apply String.eqb_neq. intro E. rewrite E in Hkey.
    pose proof (string_ltb_not_leb _ _ Hkey) as Hn.
    rewrite leb_refl in Hn. discriminate. }
  split; [exact Hkey|]. split.
  - rewrite clean_old_images_run. cbn [files clock_reads events].
    assert (Ev : victims 1 [artifact_name t_old; artifact_name t_new]
                 = [artifact_name t_old]).
    { unfold victims, png_files. cbn [filter].
      rewrite !artifact_name_png. cbn [List.length].
      cbn [sort_by fold_right insert_by].
      rewrite (string_ltb_leb _ _ Hkey). reflexivity. }
    rewrite Ev. cbn [filter has_name existsb map].
    rewrite String.eqb_refl, Hneq. reflexivity.
  - rewrite clean_old_images_run. cbn [files clock_reads events].
    assert (Ev : victims 1 [artifact_name t_new; artifact_name t_old]
                 = [artifact_name t_old]).
    { unfold victims, png_files. cbn [filter].
      rewrite !artifact_name_png. cbn [List.length].
      cbn [sort_by fold_right insert_by].
      rewrite (string_ltb_not_leb _ _ Hkey). reflexivity. }
    rewrite Ev. cbn [filter has_name existsb map].
    rewrite String.eqb_refl, Hneq. reflexivity.
Qed.

(* ------------------------------------------------------------------ *)
(** ** More on file names *)
(* ------------------------------------------------------------------ *)

Lemma str_inj (a b : Z) : str a = str b -> a = b.
Proof.
  intro E. apply DecimalZ.to_int_inj.
  assert (Hparse : forall z, NilZero.int_of_string (str z) = Some (Z.to_int z)).
  { intro z. unfold str. apply NilZero.isi.
    - destruct z as [|p|p]; try discriminate.
      cbn. intro H. injection H as H.
      now apply (DecimalPos.Unsigned.to_uint_nonnil p).
    - destruct z as [|p|p]; try discriminate.
      cbn. intro H. injection H as H.
      now apply (DecimalPos.Unsigned.to_uint_nonnil p). }
  pose proof (Hparse a) as Ha. rewrite E, Hparse in Ha. now injection Ha.
Qed.

Lemma split_absent (sep : ascii) (s : string) :
  occurs sep s = false -> split sep s = [s].
Proof.
  induction s as [|c s IH]; cbn [split occurs]; [reflexivity|].
  intro H. apply orb_false_iff in H as [Hc Hs]. now rewrite Hc, IH.
Qed.

Lemma occurs_replace (old : ascii) (new s : string) :
  occurs old new = false -> occurs old (Py.replace old new s) = false.
Proof.
  intro Hnew. induction s as [|c s IH]; cbn [Py.replace occurs]; [reflexivity|].
  destruct (Ascii.eqb c old) eqn:E.
  - now rewrite occurs_append, Hnew, IH.
  - cbn [occurs]. now rewrite E, IH.
Qed.

(** X5.  The name stays flat: [convert_time] leaves no slash in any
    string, and the name of an artifact, the f-string
    [{ND}d_{TILE_SIZE}_{convert_time(time_str)}.png] of [save_wallpaper],
    holds none. *)
Theorem artifact_name_flat :
  (forall time_str, occurs "/" (convert_time time_str) = false) /\
  (forall t, occurs "/" (artifact_name t) = false).
Proof.
  assert (Hconv : forall time_str, occurs "/" (convert_time time_str) = false).
  { intro time_str. unfold convert_time. now apply occurs_replace. }
  split; [exact Hconv|].
  intro t. unfold artifact_name.
  assert (Hc : ("/" <? "0")%char = true \/ ("9" <? "/")%char = true)
    by (left; reflexivity).
  assert (Hm : "/"%char <> "-"%char) by discriminate.
  rewrite !occurs_append, Hconv, !(occurs_str "/" _ Hc Hm). reflexivity.
Qed.

(** X6.  Tile files never collide: two cells with the same tile file name
    are the same cell, and no tile file has the name of an artifact. *)
Theorem tile_name_distinct :
  (forall row col row' col',
     tile_name row col = tile_name row' col' -> row = row' /\ col = col') /\
  (forall row col t, tile_name row col <> artifact_name t).
Proof.
  assert (Hu : ("9" <? "_")%char = true) by reflexivity.
  assert (Hum : "_"%char <> "-"%char) by discriminate.
  assert (Hd : ("." <? "0")%char = true) by reflexivity.
  assert (Hdm : "."%char <> "-"%char) by discriminate.
  split.
  - intros row col row' col' E. unfold tile_name in E.
    cbn [append] in E. injection E as E.
    apply (f_equal (split "_")) in E.
    change ("_" ++ ?x)%string with (String "_" x) in E.
    rewrite !split_append in E by (apply occurs_str; auto).
    injection E as Erow Ecol. split; [now apply str_inj|].
    rewrite !split_absent in Ecol
      by (rewrite occurs_append, occurs_str by auto; reflexivity).
    injection Ecol as Ecol.
    apply (f_equal (split ".")) in Ecol.
    change ".png" with (String "." "png") in Ecol.
    rewrite !split_append in Ecol by (apply occurs_str; auto).
    injection Ecol as Ecol. now apply str_inj.
  - intros row col t E. unfold tile_name, artifact_name in E.
    assert (Ht : occurs "t" (str ND) = false).
    { apply occurs_str; [right; reflexivity | discriminate]. }
    destruct (str ND) as [|c s] eqn:Es.
    + cbn [append] in E. discriminate.
    + cbn [append] in E. injection E as Ec _. subst c.
      cbn [occurs] in Ht. rewrite Ascii.eqb_refl in Ht. discriminate.
Qed.

(* ------------------------------------------------------------------ *)
(** ** The error of a cell no mirror serves *)
(* ------------------------------------------------------------------ *)

(** The message of the error spells the coordinate out. *)
Lemma failed_message_literal (col row : Z) :
  failed_message col row
  = ("Failed to download tile (" ++ str col ++ "," ++ str row
     ++ ") from all URLs")%string.
Proof. reflexivity. Qed.

(** Two cells never share the message. *)
Lemma failed_message_inj (col row col' row' : Z) :
  failed_message col row = failed_message col' row' ->
  col = col' /\ row = row'.
Proof.
  assert (Hc : ("," <? "0")%char = true) by reflexivity.
  assert (Hcm : ","%char <> "-"%char) by discriminate.
  assert (Hp : (")" <? "0")%char = true) by reflexivity.
  assert (Hpm : ")"%char <> "-"%char) by discriminate.
  unfold failed_message. intro E.
  cbn [append] in E. repeat (injection E as E).
  apply (f_equal (split ",")) in E.
  change ("," ++ ?x)%string with (String "," x) in E.
  rewrite !split_append in E by (apply occurs_str; auto).
  injection E as Ecol Erow. split; [now apply str_inj|].
  rewrite !split_absent in Erow
    by (rewrite occurs_append, occurs_str by auto; reflexivity).
  injection Erow as Erow.
  apply (f_equal (split ")")) in Erow.
  change (") from all URLs") with (String ")" " from all URLs") in Erow.
  rewrite !split_append in Erow by (apply occurs_str; auto).
  injection Erow as Erow. now apply str_inj.
Qed.

(** C4.  For the cell [(row, col)] the mirrors are asked in the order of
    [BASE_URL].  If the mirrors before [b] fail and [b] gives a tile, the
    cell returns that tile and the GETs of the cell are exactly those of the
    mirrors up to [b]: none after it.  If every mirror fails, all are
    asked in order and the cell raises [RuntimeError] with the message
    [Failed to download tile (col,row) from all URLs], the coordinate in
    decimal, and with, as its cause, the exception of the last mirror
    ([None] without mirrors).  The message tells the cell: no other cell
    ever raises with it. *)
Theorem download_cell_failover (time_str : string) (row col : Z) (w : World) :
  let url := fun base_url => tile_url base_url time_str col row in
  (forall pre b post img,
     BASE_URL = pre ++ b :: post ->
     Forall (fun b' => is_ok (attempt (url b')) = false) pre ->
     attempt (url b) = Ok img ->
     exists w',
       download_cell time_str row col w = (Ok img, w') /\
       events w' = events w ++ flat_map (mirror_events row col) (map url (pre ++ [b])) /\
       gets (events w') = gets (events w) ++ map url (pre ++ [b])) /\
  (Forall (fun b' => is_ok (attempt (url b')) = false) BASE_URL ->
   exists cause w',
     download_cell time_str row col w
     = (Raise (RuntimeError ("Failed to download tile (" ++ str col ++ ","
                             ++ str row ++ ") from all URLs") cause), w') /\
     events w' = events w ++ flat_map (mirror_events row col) (map url BASE_URL) /\
     gets (events w') = gets (events w) ++ map url BASE_URL /\
     match last_of BASE_URL with
     | Some b => exists e, cause = Some e /\ attempt (url b) = Raise e
     | None => cause = None
     end) /\
  (forall time_str' row' col' w1 cause1 w1',
     download_cell time_str' row' col' w1
     = (Raise (RuntimeError ("Failed to download tile (" ++ str col ++ ","
                             ++ str row ++ ") from all URLs") cause1), w1') ->
     row' = row /\ col' = col).
Proof.
  intro url. split; [|split].
  - rewrite download_cell_run.
    intros pre b post img Ebase Hpre Hb.
    assert (Hpre' : Forall (fun u => is_ok (attempt u) = false) (map url pre)).
    { apply Forall_map. exact Hpre. }
    assert (Etried : tried (cell_urls time_str row col) = map url (pre ++ [b])).
    { unfold cell_urls. fold url. rewrite Ebase, !map_app.
      rewrite (tried_prefix _ _ Hpre'). cbn [map tried]. now rewrite Hb. }
    eexists. split; [|split].
    + unfold cell_outcome, cell_urls. fold url. rewrite Ebase, map_app.
      rewrite (first_tile_prefix _ _ _ Hpre'). cbn [map first_tile].
      rewrite Hb. reflexivity.
    + rewrite events_after_cell. unfold cell_events. now rewrite Etried.
    + rewrite events_after_cell, gets_app. unfold cell_events.
      now rewrite Etried, gets_mirror_events.
  - rewrite download_cell_run, <- failed_message_literal.
    intro Hall.
    assert (Hall' : Forall (fun u => is_ok (attempt u) = false) (map url BASE_URL)).
    { apply Forall_map. exact Hall. }
    assert (Etried : tried (cell_urls time_str row col) = map url BASE_URL).
    { unfold cell_urls. fold url.
      rewrite <- (app_nil_r (map url BASE_URL)) at 1.
      rewrite (tried_prefix _ _ Hall'). cbn [tried]. apply app_nil_r. }
    eexists. eexists. split; [|split; [|split]].
    + unfold cell_outcome, cell_urls. fold url.
      rewrite <- (app_nil_r (map url BASE_URL)).
      rewrite (first_tile_prefix _ _ _ Hall'). cbn [first_tile]. reflexivity.
    + rewrite events_after_cell. unfold cell_events. now rewrite Etried.
    + rewrite events_after_cell, gets_app. unfold cell_events.
      now rewrite Etried, gets_mirror_events.
    + unfold last_of. rewrite <- map_rev.
      destruct (rev BASE_URL) as [|b l] eqn:Er; cbn [map]; [reflexivity|].
      assert (Hb : In b BASE_URL) by (apply in_rev; rewrite Er; now left).
      rewrite Forall_forall in Hall. specialize (Hall b Hb). cbv beta in Hall.
      fold (url b). destruct (attempt (url b)) as [img|e]; [discriminate|].
      exists e. split; reflexivity.
  - intros time_str' row' col' w1 cause1 w1' E.
    rewrite download_cell_run in E. injection E as E _.
    apply cell_outcome_raises in E as (cause & E).
    apply (f_equal (fun e => match e with RuntimeError msg _ => msg | _ => "" end))
      in E.
    cbv beta iota in E.
    change (failed_message col row = failed_message col' row') in E.
    apply failed_message_inj in E as [-> ->]. now split.
Qed.

(* ------------------------------------------------------------------ *)
(** ** Paths *)
(* ------------------------------------------------------------------ *)

Lemma endswith_char_inv (s : string) (c : ascii) :
  endswith s (String c "") = true ->
  exists q, s = (q ++ String c "")%string.
Proof.
  unfold endswith. cbn [String.length].
  induction s as [|d s IH]; [discriminate|].
  destruct s as [|d' s'].
  - cbn. destruct (Ascii.eqb_spec d c) as [->|]; [|discriminate].
    intros _. now exists "".
  - intro H. destruct IH as (q & Eq).
    + cbn [String.length] in *.
      replace (S (S (String.length s')) - 1)%nat
        with (S (S (String.length s') - 1)) in H by lia.
      cbn [substring] in H. exact H.
    + exists (String d q). cbn [append]. now rewrite <- Eq.
Qed.

(** A relative name is put behind the directory: behind nothing, or behind
    a prefix that ends with a slash. *)
Lemma join_relative (a b : string) :
  startswith b "/" = false ->
  exists pre,
    join a b = (pre ++ b)%string /\
    (pre = "" \/ exists q, pre = (q ++ "/")%string).
Proof.
  intro Hb. unfold join. rewrite Hb.
  destruct (String.eqb_spec a "") as [->|Ha]; cbn [orb].
  - exists "". split; [reflexivity | now left].
  - destruct (endswith a "/") eqn:Ee.
    + exists a. split; [reflexivity|]. right. now apply endswith_char_inv.
    + exists (a ++ "/")%string. split; [now rewrite append_assoc|].
      right. now exists a.
Qed.

Lemma startswith_absent (c : ascii) (s : string) :
  occurs c s = false -> startswith s (String c "") = false.
Proof.
  destruct s as [|d s]; [reflexivity|]. cbn [occurs startswith prefix].
  intro H. apply orb_false_iff in H as [H _].
  destruct (ascii_dec c d) as [->|]; [|reflexivity].
  now rewrite Ascii.eqb_refl in H.
Qed.

Lemma rfind_append_absent (c : ascii) (s t : string) :
  occurs c t = false -> rfind c (s ++ t) = rfind c s.
Proof.
  intro Ht. induction s as [|d s IH]; cbn [append rfind].
  - induction t as [|d t IHt]; [reflexivity|]. cbn [occurs rfind] in *.
    apply orb_false_iff in Ht as [Hd Ht]. now rewrite (IHt Ht), Hd.
  - now rewrite IH.
Qed.

Lemma substring_skip (a s : string) (n : nat) :
  substring (String.length a) n (a ++ s) = substring 0 n s.
Proof. induction a as [|c a IH]; [reflexivity | exact IH]. Qed.

Lemma all_dots_occurs (c : ascii) (s : string) :
  occurs c s = true -> c <> "."%char -> all_dots s = false.
Proof.
  intros Ho Hc. induction s as [|d s IH]; [discriminate|].
  cbn [occurs all_dots] in *.
  destruct (Ascii.eqb_spec d c) as [->|_].
  - destruct (Ascii.eqb_spec c "."); [contradiction | reflexivity].
  - cbn [orb] in Ho. rewrite (IH Ho). apply andb_false_r.
Qed.

(** The extension of a [.png] file: a last component [body.png] whose
    body is more than dots has the extension [.png], whatever the
    directory. *)
Lemma splitext_ext_png (pre body : string) :
  pre = "" \/ (exists q, pre = (q ++ "/")%string) ->
  occurs "/" body = false ->
  all_dots body = false ->
  splitext_ext (pre ++ body ++ ".png") = ".png".
Proof.
  intros Hpre Hslash Hdots. unfold splitext_ext.
  assert (Edot : rfind "." (pre ++ body ++ ".png")
                 = Some (String.length pre + String.length body)%nat).
  { rewrite (rfind_append "." pre (body ++ ".png") (String.length body)).
    - reflexivity.
    - rewrite (rfind_append "." body ".png" 0 eq_refl). f_equal. lia. }
  assert (Esep : (match rfind "/" (pre ++ body ++ ".png") with
                  | Some i => Z.of_nat i
                  | None => -1
                  end) + 1 = Z.of_nat (String.length pre)).
  { rewrite rfind_append_absent
      by (rewrite occurs_append, Hslash; reflexivity).
    destruct Hpre as [->|(q & ->)]; [reflexivity|].
    rewrite (rfind_append "/" q "/" 0 eq_refl), length_append. cbn. lia. }
  rewrite Edot.
  set (sepIndex := match rfind "/" (pre ++ body ++ ".png") with
                   | Some i => Z.of_nat i
                   | None => -1
                   end) in *.
  replace (sepIndex <? Z.of_nat (String.length pre + String.length body))
    with true by (symmetry; apply Z.ltb_lt; lia).
  replace (Z.to_nat (sepIndex + 1)) with (String.length pre) by lia.
  replace (Z.to_nat (Z.of_nat (String.length pre + String.length body)
                     - (sepIndex + 1)))
    with (String.length body) by lia.
  rewrite substring_skip, substring_append_l, Hdots.
  rewrite Nat2Z.id, <- append_assoc, !length_append.
  replace (String.length pre + String.length body + String.length ".png"
           - (String.length pre + String.length body))%nat
    with (String.length ".png") by lia.
  rewrite <- length_append. apply substring_append_r.
Qed.

(** The name of an artifact, cut before its extension. *)
Lemma artifact_name_body (t : datetime) :
  exists body,
    artifact_name t = (body ++ ".png")%string /\
    occurs "/" body = false /\
    all_dots body = false /\
    startswith (artifact_name t) "/" = false.
Proof.
  assert (Hc : ("/" <? "0")%char = true \/ ("9" <? "/")%char = true)
    by (left; reflexivity).
  assert (Hm : "/"%char <> "-"%char) by discriminate.
  assert (Hconv : occurs "/" (convert_time (Datetime.strftime t)) = false).
  { unfold convert_time. now apply occurs_replace. }
  exists (str ND ++ "d_" ++ str TILE_SIZE ++ "_"
          ++ convert_time (Datetime.strftime t))%string.
  assert (Hbody : occurs "/" (str ND ++ "d_" ++ str TILE_SIZE ++ "_"
                              ++ convert_time (Datetime.strftime t)) = false).
  { rewrite !occurs_append, Hconv, !(occurs_str "/" _ Hc Hm). reflexivity. }
  split; [|split; [|split]].
  - unfold artifact_name. now rewrite !append_assoc.
  - exact Hbody.
  - apply (all_dots_occurs "d"); [|discriminate].
    rewrite occurs_append. apply orb_true_iff. right. reflexivity.
  - apply startswith_absent. unfold artifact_name.
    rewrite !occurs_append, Hconv, !(occurs_str "/" _ Hc Hm). reflexivity.
Qed.

(** The path of an artifact has the extension [.png], whatever
    [SAVE_DIR]. *)
Lemma artifact_path_png (t : datetime) :
  splitext_ext (join SAVE_DIR (artifact_name t)) = ".png".
Proof.
  destruct (artifact_name_body t) as (body & Ename & Hslash & Hdots & Hrel).
  destruct (join_relative SAVE_DIR (artifact_name t) Hrel) as (pre & -> & Hpre).
  rewrite Ename. now apply splitext_ext_png.
Qed.

Lemma artifact_name_no_slash (t : datetime) : occurs "/" (artifact_name t) = false.
Proof.
  destruct (artifact_name_body t) as (body & -> & Hslash & _).
  now rewrite occurs_append, Hslash.
Qed.

(* ------------------------------------------------------------------ *)
(** ** More on time alignment *)
(* ------------------------------------------------------------------ *)

Lemma get_aligned_time_eval (w : World) (target : datetime) :
  Datetime.sub_minutes (utcnow (clock_reads w)) DELAY_MINUTES = Ok target ->
  get_aligned_time w =
  (if UPDATE_INTERVAL_MINUTES =? 0 then Raise ZeroDivisionError
   else Datetime.replace target
          (Datetime.minute target / UPDATE_INTERVAL_MINUTES
           * UPDATE_INTERVAL_MINUTES) 0 0,
   tick w).
Proof.
  intro E. unfold get_aligned_time, bind, datetime_utcnow, lift, floordiv, tick.
  rewrite E. now destruct (UPDATE_INTERVAL_MINUTES =? 0).
Qed.

(** X7.  The aligned time never lies after [now] minus the lag and lies
    less than one interval before it: with a positive interval [g], the
    aligned time is a valid [datetime] within [g] minutes below the
    target. *)
Theorem aligned_time_window (w : World) :
  Datetime.valid (utcnow (clock_reads w)) ->
  0 < UPDATE_INTERVAL_MINUTES ->
  representable (Datetime.to_micros (utcnow (clock_reads w))
                 - DELAY_MINUTES * 60000000) ->
  exists t,
    get_aligned_time w = (Ok t, tick w) /\
    Datetime.valid t /\
    Datetime.to_micros t
    <= Datetime.to_micros (utcnow (clock_reads w)) - DELAY_MINUTES * 60000000
    < Datetime.to_micros t + UPDATE_INTERVAL_MINUTES * 60000000.
Proof.
  intros Hv Hg Hr.
  destruct (sub_minutes_ok _ _ Hv Hr) as (target & Esub & Hvt & Emic).
  rewrite (get_aligned_time_eval w target Esub). rewrite <- Emic.
  set (g := UPDATE_INTERVAL_MINUTES) in *.
  replace (g =? 0) with false by (symmetry; apply Z.eqb_neq; lia).
  destruct Hvt as (Ho & Hh & Hmin & Hs & Hus).
  pose proof (Z.div_mod (Datetime.minute target) g ltac:(lia)) as Edm.
  pose proof (Z.mod_pos_bound (Datetime.minute target) g Hg) as Hm.
  assert (Hq : 0 <= Datetime.minute target / g) by (apply Z.div_pos; lia).
  assert (Hlo : 0 <= Datetime.minute target / g * g <= Datetime.minute target)
    by nia.
  unfold Datetime.replace.
  replace (0 <=? Datetime.minute target / g * g) with true
    by (symmetry; apply Z.leb_le; lia).
  replace (Datetime.minute target / g * g <=? 59) with true
    by (symmetry; apply Z.leb_le; lia).
  cbn [andb Z.leb Z.compare]. eexists. split; [reflexivity|].
  unfold Datetime.valid, Datetime.to_micros. cbn.
  repeat split; try lia; nia.
Qed.

(** X8.  An interval of 60 minutes or more aligns to the hour: the minute
    of the aligned time is 0 and its hour is the hour of [now] minus the
    lag; the hour is never rounded, so an interval of 120 still gives every
    full hour. *)
Theorem aligned_time_long_interval (w : World) :
  Datetime.valid (utcnow (clock_reads w)) ->
  60 <= UPDATE_INTERVAL_MINUTES ->
  representable (Datetime.to_micros (utcnow (clock_reads w))
                 - DELAY_MINUTES * 60000000) ->
  exists target,
    Datetime.sub_minutes (utcnow (clock_reads w)) DELAY_MINUTES = Ok target /\
    get_aligned_time w
    = (Ok {| Datetime.ordinal := Datetime.ordinal target;
             Datetime.hour := Datetime.hour target;
             Datetime.minute := 0;
             Datetime.second := 0;
             Datetime.microsecond := 0 |}, tick w).
Proof.
  intros Hv Hg Hr.
  destruct (sub_minutes_ok _ _ Hv Hr) as (target & Esub & Hvt & _).
  exists target. split; [exact Esub|].
  rewrite (get_aligned_time_eval w target Esub).
  replace (UPDATE_INTERVAL_MINUTES =? 0) with false
    by (symmetry; apply Z.eqb_neq; lia).
  destruct Hvt as (_ & _ & Hmin & _).
  rewrite Z.div_small by lia. reflexivity.
Qed.

(** X9.  With an interval of 0 a run prunes, reads the clock once and dies
    with [ZeroDivisionError]: no request is made and nothing is saved. *)
Theorem main_zero_interval (w : World) :
  UPDATE_INTERVAL_MINUTES = 0 ->
  Datetime.valid (utcnow (clock_reads w)) ->
  representable (Datetime.to_micros (utcnow (clock_reads w))
                 - DELAY_MINUTES * 60000000) ->
  main w =
  (Raise ZeroDivisionError,
   {| files := filter (fun n => negb (has_name n (victims MAX_PIC (files w))))
                      (files w);
      clock_reads := S (clock_reads w);
      events := events w
                ++ map (fun v => Unlink (join SAVE_DIR v))
                       (victims MAX_PIC (files w)) |}).
Proof.
  intros Hg Hv Hr. unfold main. unfold bind at 1.
  rewrite clean_old_images_run. unfold bind at 1.
  destruct (sub_minutes_ok _ _ Hv Hr) as (target & Esub & _).
  erewrite get_aligned_time_eval by exact Esub.
  rewrite Hg. reflexivity.
Qed.

(* ------------------------------------------------------------------ *)
(** ** More on the mirrors and the grid *)
(* ------------------------------------------------------------------ *)

Lemma tried_first_tile (urls : list string) (last : option exn) :
  exists rest,
    urls = tried urls ++ rest /\
    match first_tile urls last with
    | inl img =>
        exists init u,
          tried urls = init ++ [u] /\
          attempt u = Ok img /\
          Forall (fun v => is_ok (attempt v) = false) init
    | inr _ =>
        rest = [] /\ Forall (fun v => is_ok (attempt v) = false) urls
    end.
Proof.
  revert last. induction urls as [|u urls IH]; intro last; cbn [tried first_tile].
  - exists []. repeat split. constructor.
  - destruct (attempt u) as [img|e] eqn:Eu; cbn [is_ok].
    + exists urls. split; [reflexivity|].
      exists [], u. repeat split; [exact Eu | constructor].
    + destruct (IH (Some e)) as (rest & Eurls & Hcase).
      exists rest. split; [cbn [app]; now f_equal|].
      destruct (first_tile urls (Some e)) as [img|e'].
      * destruct Hcase as (init & v & Etried & Hv & Hinit).
        exists (u :: init), v. split; [cbn [app]; now f_equal|].
        split; [exact Hv|]. constructor; [now rewrite Eu | exact Hinit].
      * destruct Hcase as [-> Hall]. split; [reflexivity|].
        constructor; [now rewrite Eu | exact Hall].
Qed.

(** X10.  Whatever the mirrors answer, the GETs of a cell are a prefix of
    its URLs in the order of [BASE_URL]: no mirror is asked twice or out of
    turn.  The cell returns the tile of the last mirror asked when that one
    works and all before it failed; otherwise every mirror was asked,
    every one failed, and the cell raises its [RuntimeError]. *)
Theorem download_cell_asks_prefix (time_str : string) (row col : Z) (w : World) :
  exists asked rest w',
    cell_urls time_str row col = asked ++ rest /\
    gets (events w') = gets (events w) ++ asked /\
    match fst (download_cell time_str row col w) with
    | Ok img =>
        snd (download_cell time_str row col w) = w' /\
        exists init url,
          asked = init ++ [url] /\
          attempt url = Ok img /\
          Forall (fun v => is_ok (attempt v) = false) init
    | Raise e =>
        snd (download_cell time_str row col w) = w' /\
        rest = [] /\
        Forall (fun v => is_ok (attempt v) = false) asked /\
        exists cause, e = RuntimeError (failed_message col row) cause
    end.
Proof.
  rewrite download_cell_run. cbn [fst snd].
  destruct (tried_first_tile (cell_urls time_str row col) None)
    as (rest & Eurls & Hcase).
  exists (tried (cell_urls time_str row col)), rest.
  exists (after_cell time_str w (row, col)).
  split; [exact Eurls|]. split.
  { rewrite events_after_cell, gets_app. unfold cell_events.
    now rewrite gets_mirror_events. }
  unfold cell_outcome.
  destruct (first_tile (cell_urls time_str row col) None) as [img|cause].
  - split; [reflexivity | exact Hcase].
  - destruct Hcase as [-> Hall]. split; [reflexivity|]. split; [reflexivity|].
    rewrite app_nil_r in Eurls. rewrite <- Eurls.
    split; [exact Hall | now exists cause].
Qed.

Lemma first_tile_some_ok (urls : list string) (last : option exn) (u : string) :
  In u urls -> is_ok (attempt u) = true ->
  exists img, first_tile urls last = inl img.
Proof.
  revert last. induction urls as [|v urls IH]; intros last Hin Hu; [contradiction|].
  cbn [first_tile]. destruct (attempt v) as [img|e] eqn:Ev; [now exists img|].
  destruct Hin as [->|Hin]; [rewrite Ev in Hu; discriminate|].
  now apply IH.
Qed.

Lemma cell_ok_some_mirror (time_str : string) (row col : Z) (b : string) :
  In b BASE_URL ->
  is_ok (attempt (tile_url b time_str col row)) = true ->
  cell_ok time_str (row, col) = true.
Proof.
  intros Hin Hb. unfold cell_ok, cell_outcome. cbn [fst snd].
  destruct (first_tile_some_ok (cell_urls time_str row col) None
              (tile_url b time_str col row)) as (img & ->).
  - unfold cell_urls. apply in_map_iff. now exists b.
  - exact Hb.
  - reflexivity.
Qed.

Lemma after_cells_all_ok (time_str : string) (cs : list (Z * Z)) (w : World) :
  Forall (fun c => cell_ok time_str c = true) cs ->
  after_cells time_str cs w = fold_left (after_cell time_str) cs w.
Proof.
  intro H. revert w. induction H as [|c cs Hc _ IH]; intro w;
    cbn [after_cells fold_left]; [reflexivity|].
  rewrite Hc. apply IH.
Qed.

Lemma attempt_ok_get (url : string) :
  is_ok (attempt url) = true -> exists content, requests_get url = Ok content.
Proof.
  unfold attempt. destruct (requests_get url) as [content|e]; [now exists content|].
  discriminate.
Qed.

Lemma files_after_mirror_get (row col : Z) (w : World) (url content : string) :
  requests_get url = Ok content ->
  In (tile_name row col) (files (after_mirror row col w url)).
Proof.
  intro E. unfold after_mirror. cbn [files]. rewrite E.
  destruct (has_name (tile_name row col) (files w)) eqn:Eh.
  - now apply has_name_In.
  - apply in_or_app. right. now left.
Qed.

Lemma files_grow_mirrors (row col : Z) (urls : list string) (w : World) (n : string) :
  In n (files w) -> In n (files (fold_left (after_mirror row col) urls w)).
Proof.
  intro Hin. destruct (files_fold_after_mirror row col urls w) as (extra & -> & _).
  apply in_or_app. now left.
Qed.

(** Once a GET of the cell has succeeded the tile file is there. *)
Lemma tile_file_after_get (row col : Z) (urls : list string) (w : World)
    (url content : string) :
  In url urls -> requests_get url = Ok content ->
  In (tile_name row col) (files (fold_left (after_mirror row col) urls w)).
Proof.
  revert w. induction urls as [|v urls IH]; intros w Hin E; [contradiction|].
  cbn [fold_left]. destruct Hin as [->|Hin].
  - apply files_grow_mirrors. now apply (files_after_mirror_get _ _ _ _ content).
  - now apply IH.
Qed.

Lemma tile_file_after_cell (time_str : string) (w : World) (row col : Z) :
  cell_ok time_str (row, col) = true ->
  In (tile_name row col) (files (after_cell time_str w (row, col))).
Proof.
  unfold cell_ok, cell_outcome, after_cell. cbn [fst snd].
  destruct (tried_first_tile (cell_urls time_str row col) None) as (rest & _ & Hcase).
  destruct (first_tile (cell_urls time_str row col) None) as [img|e];
    [|discriminate].
  intros _. destruct Hcase as (init & u & Etried & Hu & _).
  destruct (attempt_ok_get u) as (content & Ec); [now rewrite Hu|].
  apply (tile_file_after_get _ _ _ _ u content); [|exact Ec].
  rewrite Etried. apply in_or_app. right. now left.
Qed.

Lemma files_grow_cells (time_str : string) (cs : list (Z * Z)) (w : World)
    (n : string) :
  In n (files w) -> In n (files (fold_left (after_cell time_str) cs w)).
Proof.
  intro Hin. destruct (fold_after_cell time_str cs w) as (_ & extra & -> & _).
  apply in_or_app. now left.
Qed.

Lemma tile_files_after_cells (time_str : string) (cs : list (Z * Z)) (w : World)
    (row col : Z) :
  Forall (fun c => cell_ok time_str c = true) cs ->
  In (row, col) cs ->
  In (tile_name row col) (files (fold_left (after_cell time_str) cs w)).
Proof.
  intro H. revert w. induction H as [|c cs Hc _ IH]; intros w Hin; [contradiction|].
  cbn [fold_left]. destruct Hin as [->|Hin].
  - apply files_grow_cells. now apply tile_file_after_cell.
  - now apply IH.
Qed.

(** X11.  When every cell of the grid has a mirror that works,
    [download_tiles] returns the [ND] by [ND] matrix whose entry
    [[row][col]] is the tile of the cell [(row, col)], has asked for the
    cells in row-major order and for nothing else, and leaves one tile file
    per cell beside the files that were there. *)
Theorem download_tiles_fetches_every_cell (time_str : string) (w : World) :
  0 <= ND ->
  (forall row col, 0 <= row < ND -> 0 <= col < ND ->
     exists b, In b BASE_URL /\
               is_ok (attempt (tile_url b time_str col row)) = true) ->
  exists tiles w',
    download_tiles time_str w = (Ok tiles, w') /\
    grid ND tiles /\
    (forall row col, 0 <= row < ND -> 0 <= col < ND ->
       exists init url img,
         tile_at tiles row col = Ok img /\
         attempt url = Ok img /\
         tried (cell_urls time_str row col) = init ++ [url] /\
         Forall (fun v => is_ok (attempt v) = false) init) /\
    events w' = events w ++ flat_map (cell_events time_str) (cells ND) /\
    (forall row col, 0 <= row < ND -> 0 <= col < ND ->
       In (tile_name row col) (files w')) /\
    (forall name, In name (files w) -> In name (files w')).
Proof.
  intros Hnd Hall.
  assert (Hok : forall row col, 0 <= row < ND -> 0 <= col < ND ->
                  is_ok (cell_outcome time_str row col) = true).
  { intros row col Hr Hc. destruct (Hall row col Hr Hc) as (b & Hb & Hbok).
    exact (cell_ok_some_mirror time_str row col b Hb Hbok). }
  assert (Hcells : Forall (fun c => cell_ok time_str c = true) (cells ND)).
  { apply Forall_forall. intros [row col] Hin. apply In_cells in Hin as [Hr Hc].
    now apply Hok. }
  destruct (download_tiles_all_ok time_str w Hnd Hok) as (tiles & Erun & Hgrid & Hat).
  rewrite (after_cells_all_ok _ _ _ Hcells) in Erun.
  exists tiles. eexists. split; [exact Erun|]. split; [exact Hgrid|].
  split; [|split; [|split]].
  - intros row col Hr Hc. rewrite (Hat row col Hr Hc). unfold cell_outcome.
    specialize (Hok row col Hr Hc). unfold cell_outcome in Hok.
    destruct (tried_first_tile (cell_urls time_str row col) None)
      as (rest & _ & Hcase).
    destruct (first_tile (cell_urls time_str row col) None) as [img|e];
      [|discriminate].
    destruct Hcase as (init & u & Etried & Hu & Hinit).
    exists init, u, img. repeat split; assumption.
  - apply fold_after_cell.
  - intros row col Hr Hc. apply tile_files_after_cells; [exact Hcells|].
    apply In_cells. now split.
  - intros name Hin. now apply files_grow_cells.
Qed.

(** X12.  A body that does not open as an image still lands in the tile
    file: when every mirror fails but one of them answered the GET, the
    cell raises and the tile file is in the directory all the same, with the
    write in the trace. *)
Theorem download_cell_keeps_unreadable_tile (time_str : string) (row col : Z)
    (w : World) (b content : string) :
  Forall (fun b' => is_ok (attempt (tile_url b' time_str col row)) = false)
         BASE_URL ->
  In b BASE_URL ->
  requests_get (tile_url b time_str col row) = Ok content ->
  exists cause w',
    download_cell time_str row col w
    = (Raise (RuntimeError (failed_message col row) cause), w') /\
    In (tile_name row col) (files w') /\
    In (WriteBytes (join SAVE_DIR (tile_name row col))) (events w').
Proof.
  intros Hall Hb Hget. rewrite download_cell_run.
  pose proof (cell_outcome_all_fail time_str row col Hall) as Hbad.
  destruct (cell_outcome time_str row col) as [img|e] eqn:Eout; [discriminate|].
  destruct (cell_outcome_raises _ _ _ _ Eout) as (cause & ->).
  assert (Etried : tried (cell_urls time_str row col) = cell_urls time_str row col).
  { unfold cell_urls. rewrite <- (app_nil_r (map _ BASE_URL)) at 1.
    rewrite tried_prefix by (apply Forall_map; exact Hall).
    cbn [tried]. apply app_nil_r. }
  assert (Hu : In (tile_url b time_str col row) (cell_urls time_str row col)).
  { unfold cell_urls. apply in_map_iff. now exists b. }
  exists cause. eexists. split; [reflexivity|]. split.
  - unfold after_cell. rewrite Etried.
    now apply (tile_file_after_get _ _ _ _ _ content Hu).
  - rewrite events_after_cell. apply in_or_app. right.
    unfold cell_events. rewrite Etried. apply in_flat_map.
    exists (tile_url b time_str col row). split; [exact Hu|].
    unfold mirror_events. rewrite Hget. right. now left.
Qed.

(* ------------------------------------------------------------------ *)
(** ** The whole run *)
(* ------------------------------------------------------------------ *)

(** Reading the time depends on the world through the count of clock
    readings only, and changes nothing else. *)
Lemma get_aligned_time_same_clock (w w' : World) :
  clock_reads w' = clock_reads w ->
  get_aligned_time w' = (fst (get_aligned_time w), tick w').
Proof.
  intro E. unfold get_aligned_time, bind, datetime_utcnow, lift, tick. rewrite E.
  destruct (Datetime.sub_minutes _ _); cbn [fst]; [|reflexivity].
  destruct (floordiv _ _); cbn [fst]; reflexivity.
Qed.

Lemma clock_fold_after_cell (time_str : string) (cs : list (Z * Z)) (w : World) :
  clock_reads (fold_left (after_cell time_str) cs w) = clock_reads w.
Proof.
  revert w. induction cs as [|c cs IH]; intro w; cbn [fold_left]; [reflexivity|].
  now rewrite IH, clock_after_cell.
Qed.

(** Saving under the default name: the clock is read once more, the
    artifact of the aligned time is written into [SAVE_DIR]. *)
Lemma save_wallpaper_default (img : image) (w : World) (t : datetime) :
  fst (get_aligned_time w) = Ok t ->
  save_wallpaper img None w
  = (Ok (join SAVE_DIR (artifact_name t)),
     {| files := if has_name (artifact_name t) (files w) then files w
                 else files w ++ [artifact_name t];
        clock_reads := S (clock_reads w);
        events := events w ++ [Save (join SAVE_DIR (artifact_name t))] |}).
Proof.
  intro Ht. unfold save_wallpaper.
  unfold bind at 1. unfold bind at 1.
  rewrite (get_aligned_time_same_clock w w eq_refl), Ht. cbn [fst].
  unfold ret at 1.
  rewrite artifact_name_no_slash.
  unfold Image_save. rewrite artifact_path_png.
  change (lower ".png") with ".png". cbn [String.eqb Ascii.eqb Bool.eqb orb].
  unfold bind, create, bind, get_files. cbn [tick files].
  destruct (has_name (artifact_name t) (files w));
    unfold ret, set_files, log; cbn [files events clock_reads tick]; reflexivity.
Qed.

(** X13.  A run goes through when both clock readings align, every cell
    of the grid ([ND >= 1]) gets a tile, from its first mirror that works,
    whose pixel data decodes and whose size is not negative, the canvas size
    is not negative and the target size is at least 1.  Its trace is then:
    the unlinks of prune, the requests of the cells in row-major order for
    the first aligned time, one [Save] and one [SetWallpaper] of the same
    path.  That path names the aligned time of the second clock reading,
    taken when saving, and the artifact is in the directory. *)
Theorem main_succeeds (w : World) (t t' : datetime) (product : number)
    (target : Z) :
  fst (get_aligned_time w) = Ok t ->
  fst (get_aligned_time (tick w)) = Ok t' ->
  1 <= ND ->
  (forall row col, 0 <= row < ND -> 0 <= col < ND ->
     exists tile,
       cell_outcome (Datetime.strftime t) row col = Ok tile /\
       is_ok (Image.load tile) = true /\
       0 <= Image.file_width tile /\ 0 <= Image.file_height tile) ->
  0 <= fst PIC_SIZE -> 0 <= snd PIC_SIZE ->
  Py.mul (PyInt (Z.min (fst PIC_SIZE) (snd PIC_SIZE))) COVER_RATIO = Ok product ->
  Py.int product = Ok target ->
  1 <= target ->
  exists w',
    main w = (Ok tt, w') /\
    events w'
    = events w
      ++ map (fun v => Unlink (join SAVE_DIR v)) (victims MAX_PIC (files w))
      ++ flat_map (cell_events (Datetime.strftime t)) (cells ND)
      ++ [Save (join SAVE_DIR (artifact_name t'));
          SetWallpaper (join SAVE_DIR (artifact_name t'))] /\
    In (artifact_name t') (files w') /\
    clock_reads w' = S (S (clock_reads w)).
Proof.
  intros Ht Ht' Hnd Hall HW HH Emul Eint Htarget.
  set (time_str := Datetime.strftime t) in *.
  set (w1 := {| files := filter (fun n => negb (has_name n (victims MAX_PIC (files w))))
                                (files w);
                clock_reads := clock_reads w;
                events := events w
                          ++ map (fun v => Unlink (join SAVE_DIR v))
                                 (victims MAX_PIC (files w)) |}).
  assert (E1 : clean_old_images SAVE_DIR MAX_PIC w = (Ok tt, w1))
    by apply clean_old_images_run.
  assert (E2 : get_aligned_time w1 = (Ok t, tick w1)).
  { rewrite (get_aligned_time_same_clock w w1 eq_refl). now rewrite Ht. }
  assert (Hok : forall row col, 0 <= row < ND -> 0 <= col < ND ->
                  is_ok (cell_outcome time_str row col) = true).
  { intros row col Hr Hc. destruct (Hall row col Hr Hc) as (tile & -> & _).
    reflexivity. }
  assert (Hcells : Forall (fun c => cell_ok time_str c = true) (cells ND)).
  { apply Forall_forall. intros [row col] Hin. apply In_cells in Hin as [Hr Hc].
    now apply Hok. }
  destruct (download_tiles_all_ok time_str (tick w1) ltac:(lia) Hok)
    as (tiles & E3 & Hgrid & Hat).
  rewrite (after_cells_all_ok _ _ _ Hcells) in E3.
  set (w3 := fold_left (after_cell time_str) (cells ND) (tick w1)) in *.
  destruct (Hall 0 0 ltac:(lia) ltac:(lia)) as (tile0 & E0 & _ & Hw0 & Hh0).
  assert (H0 : tile_at tiles 0 0 = Ok tile0).
  { now rewrite (Hat 0 0 ltac:(lia) ltac:(lia)). }
  assert (Hloaded : forall row col, 0 <= row < ND -> 0 <= col < ND ->
                      exists im, loaded_at tiles row col = Ok im).
  { intros row col Hr Hc. unfold loaded_at. rewrite (Hat row col Hr Hc).
    destruct (Hall row col Hr Hc) as (tile & -> & Hl & _). cbn [bindR].
    destruct (Image.load tile) as [im|]; [now exists im | discriminate]. }
  destruct (stitch_tiles_cellwise tiles tile0 Hnd Hloaded H0 Hw0 Hh0)
    as (blank & big & _ & _ & E4 & _).
  destruct (resize_Ok big target LANCZOS Htarget) as (resized & Er & _).
  assert (E5 : exists final, resize_and_center big PIC_SIZE COVER_RATIO = Ok final).
  { destruct PIC_SIZE as [W H]. cbn [fst snd] in *.
    rewrite (resize_and_center_target _ _ _ _ _ _ Emul Eint).
    unfold Image.new.
    replace ((W <? 0) || (H <? 0)) with false
      by (symmetry; apply orb_false_iff; split; apply Z.ltb_ge; lia).
    cbn [bindR]. rewrite Er. cbn [bindR]. eexists. reflexivity. }
  destruct E5 as (final & E5).
  assert (Hclock3 : clock_reads w3 = clock_reads (tick w)).
  { subst w3. now rewrite clock_fold_after_cell. }
  assert (E6 : fst (get_aligned_time w3) = Ok t').
  { rewrite (get_aligned_time_same_clock (tick w) w3 Hclock3). now rewrite Ht'. }
  assert (Hev3 : events w3
                 = events w
                   ++ map (fun v => Unlink (join SAVE_DIR v)) (victims MAX_PIC (files w))
                   ++ flat_map (cell_events time_str) (cells ND)).
  { subst w3. rewrite (proj1 (fold_after_cell time_str (cells ND) (tick w1))).
    cbn [tick events w1]. now rewrite <- app_assoc. }
  exists {| files := if has_name (artifact_name t') (files w3) then files w3
                     else files w3 ++ [artifact_name t'];
            clock_reads := S (clock_reads w3);
            events := (events w3 ++ [Save (join SAVE_DIR (artifact_name t'))])
                      ++ [SetWallpaper (join SAVE_DIR (artifact_name t'))] |}.
  split.
  { unfold main. unfold bind at 1. rewrite E1.
    unfold bind at 1. rewrite E2. fold time_str.
    unfold bind at 1. rewrite E3.
    unfold bind at 1. unfold lift at 1. rewrite E4.
    unfold bind at 1. unfold lift at 1. rewrite E5.
    unfold bind at 1. rewrite (save_wallpaper_default final w3 t' E6).
    unfold set_wallpaper, log. cbn [files events clock_reads]. reflexivity. }
  cbn [files events clock_reads].
  split; [now rewrite Hev3, <- !app_assoc|].
  split; [|now rewrite Hclock3].
  destruct (has_name (artifact_name t') (files w3)) eqn:Eh.
  - now apply has_name_In.
  - apply in_or_app. right. now left.
Qed.

(** X26.  A tile that opens but does not decode is taken as it is: the
    mirror that served it counts as working, so no later mirror is asked
    for the cell.  When every cell of the grid ([ND >= 1]) gets a tile and
    the first cell, in row-major order, whose tile does not decode raises
    [e] on loading, the run fetches the whole grid and then stops in
    [stitch_tiles] with [e]: the clock is read once, and the trace holds the
    unlinks of prune and the requests of all the cells, no [Save] and no
    [SetWallpaper]. *)
Theorem main_stops_at_undecodable_tile (w : World) (t : datetime)
    (pre post : list (Z * Z)) (row col : Z) (tile0 tile : image_file) (e : exn) :
  fst (get_aligned_time w) = Ok t ->
  1 <= ND ->
  (forall r c, 0 <= r < ND -> 0 <= c < ND ->
     is_ok (cell_outcome (Datetime.strftime t) r c) = true) ->
  cell_outcome (Datetime.strftime t) 0 0 = Ok tile0 ->
  0 <= Image.file_width tile0 -> 0 <= Image.file_height tile0 ->
  cells ND = pre ++ (row, col) :: post ->
  (forall r c tl, In (r, c) pre ->
     cell_outcome (Datetime.strftime t) r c = Ok tl ->
     is_ok (Image.load tl) = true) ->
  cell_outcome (Datetime.strftime t) row col = Ok tile ->
  Image.load tile = Raise e ->
  exists w',
    main w = (Raise e, w') /\
    events w'
    = events w
      ++ map (fun v => Unlink (join SAVE_DIR v)) (victims MAX_PIC (files w))
      ++ flat_map (cell_events (Datetime.strftime t)) (cells ND) /\
    clock_reads w' = S (clock_reads w).
Proof.
  intros Ht Hnd Hok E0 Hw0 Hh0 Ecells Hpre Etile He.
  set (time_str := Datetime.strftime t) in *.
  set (w1 := {| files := filter (fun n => negb (has_name n (victims MAX_PIC (files w))))
                                (files w);
                clock_reads := clock_reads w;
                events := events w
                          ++ map (fun v => Unlink (join SAVE_DIR v))
                                 (victims MAX_PIC (files w)) |}).
  assert (E1 : clean_old_images SAVE_DIR MAX_PIC w = (Ok tt, w1))
    by apply clean_old_images_run.
  assert (E2 : get_aligned_time w1 = (Ok t, tick w1)).
  { rewrite (get_aligned_time_same_clock w w1 eq_refl). now rewrite Ht. }
  assert (Hcells : Forall (fun c => cell_ok time_str c = true) (cells ND)).
  { apply Forall_forall. intros [r c] Hin. apply In_cells in Hin as [Hr Hc].
    now apply Hok. }
  destruct (download_tiles_all_ok time_str (tick w1) ltac:(lia) Hok)
    as (tiles & E3 & Hgrid & Hat).
  rewrite (after_cells_all_ok _ _ _ Hcells) in E3.
  set (w3 := fold_left (after_cell time_str) (cells ND) (tick w1)) in *.
  assert (Hin : forall r c, In (r, c) (cells ND) -> 0 <= r < ND /\ 0 <= c < ND).
  { intros r c H. now apply In_cells. }
  assert (E4 : stitch_tiles tiles = Raise e).
  { apply (stitch_tiles_first_raise tiles tile0 pre post row col e);
      try assumption.
    - now rewrite (Hat 0 0 ltac:(lia) ltac:(lia)).
    - intros r c Hrc.
      destruct (Hin r c) as [Hr Hc];
        [rewrite Ecells; apply in_or_app; now left|].
      unfold loaded_at. rewrite (Hat r c Hr Hc).
      pose proof (Hok r c Hr Hc) as Hrc_ok.
      destruct (cell_outcome time_str r c) as [tl|] eqn:Etl; [|discriminate].
      cbn [bindR]. exact (Hpre r c tl Hrc Etl).
    - destruct (Hin row col) as [Hr Hc];
        [rewrite Ecells; apply in_or_app; right; now left|].
      unfold loaded_at. rewrite (Hat row col Hr Hc), Etile. exact He. }
  exists w3. split; [|split].
  - unfold main. unfold bind at 1. rewrite E1.
    unfold bind at 1. rewrite E2. fold time_str.
    unfold bind at 1. rewrite E3.
    unfold bind at 1. unfold lift at 1. rewrite E4. reflexivity.
  - subst w3. rewrite (proj1 (fold_after_cell time_str (cells ND) (tick w1))).
    cbn [tick events w1]. now rewrite <- app_assoc.
  - subst w3. now rewrite clock_fold_after_cell.
Qed.

(* ------------------------------------------------------------------ *)
(** ** Empty mirror list, empty grid, incomplete matrix *)
(* ------------------------------------------------------------------ *)

Lemma cells_head (n : Z) : 1 <= n -> exists rest, cells n = (0, 0) :: rest.
Proof.
  intro Hn. pose proof (cells_row_major n 0 ltac:(lia) ltac:(nia)) as H.
  rewrite Z.div_0_l, Z.mod_0_l in H by lia.
  destruct (cells n) as [|c rest]; [discriminate|].
  cbn in H. injection H as ->. now exists rest.
Qed.

Lemma main_until_download (w : World) (t : datetime) :
  fst (get_aligned_time w) = Ok t ->
  main w =
  (let* tiles := download_tiles (Datetime.strftime t) in
   let* big_img := lift (stitch_tiles tiles) in
   let* final_img := lift (resize_and_center big_img PIC_SIZE COVER_RATIO) in
   let* out_path := save_wallpaper final_img None in
   set_wallpaper out_path)
    (tick {| files := filter (fun n => negb (has_name n (victims MAX_PIC (files w))))
                             (files w);
             clock_reads := clock_reads w;
             events := events w
                       ++ map (fun v => Unlink (join SAVE_DIR v))
                              (victims MAX_PIC (files w)) |}).
Proof.
  intro Ht. unfold main. unfold bind at 1. rewrite clean_old_images_run.
  unfold bind at 1.
  match goal with
  | |- context [get_aligned_time ?w1] =>
      rewrite (get_aligned_time_same_clock w w1 eq_refl)
  end.
  rewrite Ht. reflexivity.
Qed.

(** X14.  Without mirrors nothing is ever asked: with an empty [BASE_URL]
    and a grid of at least one cell, a run that has pruned and aligned the
    time raises the [RuntimeError] of the cell (0, 0), with no cause, and
    its trace holds the unlinks of prune only. *)
Theorem main_without_mirrors (w : World) (t : datetime) :
  BASE_URL = [] ->
  1 <= ND ->
  fst (get_aligned_time w) = Ok t ->
  main w =
  (Raise (RuntimeError (failed_message 0 0) None),
   {| files := filter (fun n => negb (has_name n (victims MAX_PIC (files w))))
                      (files w);
      clock_reads := S (clock_reads w);
      events := events w
                ++ map (fun v => Unlink (join SAVE_DIR v))
                       (victims MAX_PIC (files w)) |}).
Proof.
  intros Hbase Hnd Ht. rewrite (main_until_download w t Ht).
  set (time_str := Datetime.strftime t).
  destruct (cells_head ND Hnd) as (rest & Ecells).
  assert (Eout : cell_outcome time_str 0 0
                 = Raise (RuntimeError (failed_message 0 0) None)).
  { unfold cell_outcome, cell_urls. now rewrite Hbase. }
  assert (Hbad : cell_ok time_str (0, 0) = false).
  { unfold cell_ok. cbn [fst snd]. now rewrite Eout. }
  unfold bind at 1. rewrite download_tiles_run.
  rewrite (grid_outcome_first_failure time_str [] rest 0 0 _ Ecells
             (Forall_nil _) Eout).
  rewrite Ecells. cbn [after_cells]. rewrite Hbad.
  unfold after_cell, cell_urls. rewrite Hbase. reflexivity.
Qed.

(** X15.  With a grid density of 0 or less there is no cell: a run that
    has pruned and aligned the time asks for nothing, gets the empty
    matrix, and [stitch_tiles] raises [IndexError] on [tiles[0]]; nothing is
    saved. *)
Theorem main_empty_grid (w : World) (t : datetime) :
  ND <= 0 ->
  fst (get_aligned_time w) = Ok t ->
  stitch_tiles [] = Raise IndexError /\
  main w =
  (Raise IndexError,
   {| files := filter (fun n => negb (has_name n (victims MAX_PIC (files w))))
                      (files w);
      clock_reads := S (clock_reads w);
      events := events w
                ++ map (fun v => Unlink (join SAVE_DIR v))
                       (victims MAX_PIC (files w)) |}).
Proof.
  intros Hnd Ht. split; [reflexivity|].
  rewrite (main_until_download w t Ht).
  unfold bind at 1, download_tiles.
  assert (Erange : range ND = []).
  { unfold range. replace (Z.to_nat ND) with 0%nat by lia. reflexivity. }
  rewrite Erange. reflexivity.
Qed.

Lemma getitem_raises {A} (l : list A) (i : Z) (e : exn) :
  getitem l i = Raise e -> e = IndexError.
Proof.
  unfold getitem. destruct (_ && _); [|intro E; now injection E].
  destruct (nth_error l _); [discriminate | intro E; now injection E].
Qed.

Lemma tile_at_raises (tiles : list (list image_file)) (row col : Z) (e : exn) :
  tile_at tiles row col = Raise e -> e = IndexError.
Proof.
  unfold tile_at. destruct (getitem tiles row) as [r|e'] eqn:Er; cbn [bindR].
  - apply getitem_raises.
  - intro E. injection E as <-. now apply getitem_raises in Er.
Qed.

(** In a matrix of tiles that decode, the only cell without a raster is a
    cell without a tile. *)
Lemma loaded_at_raises (tiles : list (list image_file)) (row col : Z) (e : exn) :
  decoded tiles -> loaded_at tiles row col = Raise e -> e = IndexError.
Proof.
  intros Hdec. unfold loaded_at.
  destruct (tile_at tiles row col) as [tile|e'] eqn:Et; cbn [bindR].
  - pose proof (tile_at_Forall _ _ _ _ _ Hdec Et) as Hl. cbv beta in Hl.
    destruct (Image.load tile); discriminate.
  - intro E. injection E as <-. now apply tile_at_raises in Et.
Qed.

(** X16.  [stitch_tiles] returns no partial composite: on a matrix that
    lacks the tile of some cell of the [ND] by [ND] grid (a missing row or a
    short row) it raises, and when the tiles that are there decode, what it
    raises is [IndexError]. *)
Theorem stitch_tiles_incomplete (tiles : list (list image_file)) (row col : Z) :
  0 <= row < ND -> 0 <= col < ND ->
  is_ok (tile_at tiles row col) = false ->
  (forall tile0, tile_at tiles 0 0 = Ok tile0 ->
     0 <= Image.file_width tile0 /\ 0 <= Image.file_height tile0) ->
  is_ok (stitch_tiles tiles) = false /\
  (decoded tiles -> stitch_tiles tiles = Raise IndexError).
Proof.
  intros Hr Hc Hbad Hsize. rewrite stitch_tiles_cells.
  destruct (tile_at tiles 0 0) as [tile0|e] eqn:E0; cbn [bindR].
  - destruct (Hsize tile0 eq_refl) as [Hw Hh].
    unfold Image.new.
    replace ((Image.file_width tile0 * ND <? 0)
             || (Image.file_height tile0 * ND <? 0))
      with false
      by (symmetry; apply orb_false_iff; split; apply Z.ltb_ge; nia).
    cbn [bindR].
    destruct (first_failing (fun c => is_ok (loaded_at tiles (fst c) (snd c)))
                (cells ND) (row, col)) as (before & [r c] & after & -> & Hb & Hcbad).
    + apply In_cells. now split.
    + cbn [fst snd]. unfold loaded_at.
      destruct (tile_at tiles row col); [discriminate | reflexivity].
    + cbn [fst snd] in Hcbad.
      destruct (loaded_at tiles r c) as [im|e] eqn:El; [discriminate|].
      rewrite (foldR_paste_first_raise tiles _ _ before after r c e).
      * split; [reflexivity|]. intro Hdec.
        now rewrite (loaded_at_raises tiles r c e Hdec El).
      * intros r' c' Hin. rewrite Forall_forall in Hb. exact (Hb (r', c') Hin).
      * exact El.
  - split; [reflexivity|]. intros _. apply tile_at_raises in E0. now subst e.
Qed.

(* ------------------------------------------------------------------ *)
(** ** More on the canvas and on saving *)
(* ------------------------------------------------------------------ *)

(** X17.  No border on a square canvas covered in full: when the target
    size comes out as the edge [W] of a [W] by [W] canvas, every pixel of
    the canvas is the pixel of the resized composite at the same place. *)
Theorem resize_and_center_fills (big_img : image) (W : Z) (ratio product : number) :
  1 <= W ->
  Py.mul (PyInt (Z.min W W)) ratio = Ok product ->
  Py.int product = Ok W ->
  exists big_resized canvas,
    Image.resize big_img (W, W) LANCZOS = Ok big_resized /\
    resize_and_center big_img (W, W) ratio = Ok canvas /\
    Image.size canvas = (W, W) /\
    forall x y, 0 <= x < W -> 0 <= y < W ->
      Image.getpixel canvas x y = Image.getpixel big_resized x y.
Proof.
  intros HW Emul Eint.
  destruct (resize_Ok big_img W LANCZOS HW) as (resized & Er & Es).
  exists resized. eexists. split; [exact Er|].
  rewrite (resize_and_center_target _ _ _ _ _ _ Emul Eint).
  unfold Image.new.
  replace ((W <? 0) || (W <? 0)) with false
    by (symmetry; apply orb_false_iff; split; apply Z.ltb_ge; lia).
  cbn [bindR]. rewrite Er. cbn [bindR].
  split; [reflexivity|]. split; [reflexivity|].
  intros x y Hx Hy. unfold Image.size in Es. injection Es as Ew Eh.
  rewrite Z.sub_diag. change (0 / 2) with 0.
  unfold Image.paste, Image.inside. cbn [Image.getpixel Image.width Image.height].
  rewrite Ew, Eh, !Z.sub_0_r.
  replace (0 <=? x) with true by (symmetry; apply Z.leb_le; lia).
  replace (x <? W) with true by (symmetry; apply Z.ltb_lt; lia).
  replace (0 <=? y) with true by (symmetry; apply Z.leb_le; lia).
  replace (y <? W) with true by (symmetry; apply Z.ltb_lt; lia).
  reflexivity.
Qed.

(** X18.  What [resize_and_center] refuses.  A canvas with a negative
    width or height raises [ValueError] when the background is allocated,
    before any resizing; a ratio that is not a number raises [ValueError]
    when the product is turned into an int, before anything is allocated. *)
Theorem resize_and_center_rejects (big_img : image) (W H : Z) :
  (forall ratio product target,
     W < 0 \/ H < 0 ->
     Py.mul (PyInt (Z.min W H)) ratio = Ok product ->
     Py.int product = Ok target ->
     resize_and_center big_img (W, H) ratio = Raise ValueError) /\
  (forall f,
     float_of_int (Z.min W H) = Ok f ->
     resize_and_center big_img (W, H) (PyFloat S754_nan) = Raise ValueError).
Proof.
  split.
  - intros ratio product target Hneg Emul Eint.
    rewrite (resize_and_center_target _ _ _ _ _ _ Emul Eint).
    unfold Image.new.
    replace ((W <? 0) || (H <? 0)) with true; [reflexivity|].
    symmetry. apply orb_true_iff.
    destruct Hneg; [left | right]; now apply Z.ltb_lt.
  - intros f Ef. unfold resize_and_center, Py.mul. rewrite Ef. cbn [bindR].
    replace (SFmul prec emax f S754_nan) with S754_nan
      by (now destruct f as [| | |[] ? ?]).
    reflexivity.
Qed.





End Script.

(* ================================================================== *)
(** * Concrete runs *)
(* ================================================================== *)

Lemma prune_counts_every_png_witness :
  exists w',
    clean_old_images "out" 1 dir_with_tile = (Ok tt, w') /\
    files w' = filter (fun n => negb (has_name n (victims 1 (files dir_with_tile))))
                      (files dir_with_tile) /\
    Z.of_nat (List.length (png_files (files w'))) = 1 /\
    forall row col,
      In (tile_name row col) (files dir_with_tile) ->
      In (tile_name row col) (png_files (files dir_with_tile)) /\
      (In (tile_name row col) (victims 1 (files dir_with_tile)) ->
       ~ In (tile_name row col) (files w')).
Proof.
  apply (prune_counts_every_png "out" 1 dir_with_tile).
  - simpl. repeat constructor; simpl; intuition discriminate.
  - lia.
  - vm_compute. reflexivity.
Defined.

(** A tile file is deleted like any other [.png]. *)
Example prune_deletes_tile_file :
  clean_old_images "out" 1 dir_with_tile =
  (Ok tt, {| files := ["4d_550_2024__01__01__000000.png"; "notes.txt"];
             clock_reads := 0;
             events := [Unlink "out/tile_0_0.png"] |}).
Proof. reflexivity. Qed.

(** C1.  In [newer_listed_first] both names get the sort key ["2024"]: the
    third part of the stem split at every underscore is the year alone.  The
    stable sort keeps the scan order and prune, with a cap of one, deletes
    the artifact of 2 January and keeps the one of 1 January. *)
Theorem prune_deletes_newer_artifact :
  map get_timestamp (files newer_listed_first) = ["2024"; "2024"] /\
  clean_old_images "out" 1 newer_listed_first =
  (Ok tt, {| files := ["4d_550_2024__01__01__000000.png"];
             clock_reads := 0;
             events := [Unlink "out/4d_550_2024__01__02__000000.png"] |}).
Proof. split; reflexivity. Qed.

Example sample_clock_date :
  Datetime.ord2ymd (Datetime.ordinal (sample_clock 0)) = (2024, 3, 1).
Proof. reflexivity. Qed.

(** Thirty minutes before 00:07:42 on 1 March is 23:37:42 on 29 February,
    aligned to 23:30:00. *)
Example get_aligned_time_sample :
  get_aligned_time sample_cfg sample_clock empty_dir =
  (Ok (Datetime.mk 738945 23 30 0 0),
   {| files := []; clock_reads := 1; events := [] |}).
Proof. reflexivity. Qed.

Lemma get_aligned_time_spec_witness :
  exists t w',
    get_aligned_time sample_cfg sample_clock empty_dir = (Ok t, w') /\
    Datetime.minute t mod 10 = 0 /\
    Datetime.second t = 0 /\
    Datetime.microsecond t = 0.
Proof.
  destruct (get_aligned_time_spec sample_cfg sample_clock empty_dir)
    as (target & t & w' & _ & _ & Hrun & _ & _ & _ & Hmod & _ & Hs & Hus & _).
  - unfold Datetime.valid, Datetime.MAXORDINAL. simpl. lia.
  - simpl. lia.
  - unfold representable, Datetime.MAXORDINAL. simpl. lia.
  - exists t, w'. repeat split; assumption.
Defined.

Lemma stitch_tiles_uniform_witness :
  exists big_img,
    stitch_tiles sample_cfg even_tiles = Ok big_img /\
    Image.size big_img = (4, 4) /\
    Image.getpixel big_img 3 0 = green /\
    Image.getpixel big_img 0 3 = blue.
Proof.
  destruct (stitch_tiles_uniform sample_cfg even_tiles 2 2)
    as (blank & big & _ & _ & E & Hsize & Hpix & _).
  - simpl. lia.
  - lia.
  - lia.
  - split; [reflexivity | repeat constructor].
  - repeat constructor.
  - repeat constructor.
  - exists big. split; [exact E|]. split; [exact Hsize|]. split.
    + destruct (Hpix 0 1 1 0) as (tile & Ht & Hp); simpl; try lia.
      injection Ht as <-. exact Hp.
    + destruct (Hpix 1 0 0 1) as (tile & Ht & Hp); simpl; try lia.
      injection Ht as <-. exact Hp.
Defined.

Lemma stitch_tiles_never_rejects_witness :
  (exists big_img,
     stitch_tiles sample_cfg mixed_tiles = Ok big_img /\
     Image.size big_img = (4, 4)) /\
  stitch_tiles sample_cfg cut_tiles = Raise (OSError "image file is truncated").
Proof.
  split.
  - destruct (stitch_tiles_never_rejects sample_cfg mixed_tiles
                (solid_file 2 2 red)) as [Hsome _].
    + simpl. lia.
    + split; [reflexivity | repeat constructor].
    + reflexivity.
    + simpl. lia.
    + simpl. lia.
    + destruct Hsome as (blank & big & _ & _ & E & Hsize & _).
      * repeat constructor.
      * exists big. split; [exact E | exact Hsize].
  - destruct (stitch_tiles_never_rejects sample_cfg cut_tiles
                (solid_file 2 2 red)) as [_ Hcut].
    + simpl. lia.
    + split; [reflexivity | repeat constructor].
    + reflexivity.
    + simpl. lia.
    + simpl. lia.
    + apply (Hcut [(0, 0)] 0 1 [(1, 0); (1, 1)] (truncated 2 2)).
      * reflexivity.
      * intros r c [E|[]]. injection E as <- <-. reflexivity.
      * reflexivity.
      * reflexivity.
Defined.

(** C7 fails on the code: the tiles of [mixed_tiles] have three different
    sizes, and [stitch_tiles] returns a 4 by 4 composite all the same.
    The 1 by 1 tile leaves the rest of its block black and the 3 by 3 tile
    is cut to the 2 by 2 that fit. *)
Lemma stitch_tiles_mixed_sizes :
  (forall w h, ~ uniform w h mixed_tiles) /\
  exists big_img,
    stitch_tiles sample_cfg mixed_tiles = Ok big_img /\
    Image.size big_img = (4, 4) /\
    Image.getpixel big_img 2 0 = green /\
    Image.getpixel big_img 3 0 = Image.black /\
    Image.getpixel big_img 3 3 = white.
Proof.
  split.
  - intros w h Hu. inversion Hu as [|r rs Hr _]; subst.
    inversion Hr as [|t ts Ht Hts]; subst.
    inversion Hts as [|t' ts' Ht' _]; subst.
    unfold Image.file_size in Ht, Ht'. simpl in Ht, Ht'. congruence.
  - eexists. split; [reflexivity|]. repeat split.
Qed.

Example ratio_0_9_nearest :
  SFdiv Py.prec Py.emax (binary_normalize Py.prec Py.emax 9 0 false)
        (binary_normalize Py.prec Py.emax 10 0 false) = ratio_0_9.
Proof. reflexivity. Qed.

Lemma resize_and_center_spec_witness :
  exists canvas,
    resize_and_center nearest (solid 4 4 red) (1920, 1080) (PyFloat ratio_0_9)
    = Ok canvas /\
    Image.size canvas = (1920, 1080) /\
    Image.getpixel canvas 474 54 = red /\
    Image.getpixel canvas 473 54 = Image.black /\
    Image.getpixel canvas 474 53 = Image.black /\
    Image.getpixel canvas 1445 1025 = red /\
    Image.getpixel canvas 1446 1025 = Image.black.
Proof.
  destruct (proj1 (resize_and_center_spec nearest) (solid 4 4 red) 1920 1080
              (PyFloat ratio_0_9)
              (PyFloat (S754_finite false 8549802417586176 (-43))) 972)
    as (resized & canvas & _ & Er & _ & Ec & Hs & Hpix).
  - lia.
  - lia.
  - reflexivity.
  - reflexivity.
  - lia.
  - injection Er as <-. exists canvas. split; [exact Ec|]. split; [exact Hs|].
    repeat split.
    + rewrite (Hpix 474 54) by lia. reflexivity.
    + rewrite (Hpix 473 54) by lia. reflexivity.
    + rewrite (Hpix 474 53) by lia. reflexivity.
    + rewrite (Hpix 1445 1025) by lia. reflexivity.
    + rewrite (Hpix 1446 1025) by lia. reflexivity.
Defined.

Lemma resize_and_center_any_ratio_witness :
  exists canvas,
    resize_and_center nearest (solid 4 4 red) (1920, 1080) (PyFloat ratio_1_5)
    = Ok canvas /\
    Image.size canvas = (1920, 1080).
Proof.
  apply (proj1 (resize_and_center_any_ratio nearest (solid 4 4 red) 1920 1080
                  (PyFloat ratio_1_5)
                  (PyFloat (S754_finite false 7124835347988480 (-42))) 1620
                  ltac:(lia) ltac:(lia) eq_refl eq_refl)).
  lia.
Defined.

(** C9 fails on the code: 1.5 lies outside (0, 1] and the canvas is made,
    with a 1620 by 1620 square pasted at (150, -270) and cut at the top and
    bottom. *)
Lemma resize_and_center_accepts_1_5 :
  exists canvas,
    resize_and_center nearest (solid 4 4 red) (1920, 1080) (PyFloat ratio_1_5)
    = Ok canvas /\
    Image.size canvas = (1920, 1080) /\
    Image.getpixel canvas 150 0 = red /\
    Image.getpixel canvas 149 0 = Image.black.
Proof. eexists. split; [reflexivity|]. repeat split. Qed.

Lemma download_cell_failover_witness :
  (exists w',
     download_cell sample_cfg mirror_a_down open_white "2024/02/29/233000" 0 1
                   empty_dir
     = (Ok (solid_file 2 2 white), w') /\
     gets (events w')
     = ["https://a.example/img/D531106/2d/550/2024/02/29/233000_1_0.png";
        "https://b.example/img/D531106/2d/550/2024/02/29/233000_1_0.png"]) /\
  (exists w',
     download_cell sample_cfg tile_1_0_missing open_white "2024/02/29/233000" 0 1
                   empty_dir
     = (Raise (RuntimeError "Failed to download tile (1,0) from all URLs"
                            (Some (RequestException "404"))), w') /\
     gets (events w')
     = ["https://a.example/img/D531106/2d/550/2024/02/29/233000_1_0.png";
        "https://b.example/img/D531106/2d/550/2024/02/29/233000_1_0.png"]) /\
  (forall row col w cause w',
     download_cell sample_cfg tile_1_0_missing open_white "2024/02/29/233000"
                   row col w
     = (Raise (RuntimeError "Failed to download tile (1,0) from all URLs" cause),
        w') ->
     row = 0 /\ col = 1).
Proof.
  split; [|split].
  - destruct (proj1 (download_cell_failover sample_cfg mirror_a_down open_white
                       "2024/02/29/233000" 0 1 empty_dir)
                ["https://a.example/img/D531106"] "https://b.example/img/D531106"
                [] (solid_file 2 2 white))
      as (w' & Erun & _ & Egets).
    + reflexivity.
    + repeat constructor.
    + reflexivity.
    + exists w'. split; [exact Erun | exact Egets].
  - destruct (proj1 (proj2 (download_cell_failover sample_cfg tile_1_0_missing
                              open_white "2024/02/29/233000" 0 1 empty_dir)))
      as (cause & w' & Erun & _ & Egets & e & Ecause & Elast).
    + repeat constructor.
    + exists w'. split; [|exact Egets].
      rewrite Erun, Ecause. injection Elast as <-. reflexivity.
  - intros row col w cause w' E.
    exact (proj2 (proj2 (download_cell_failover sample_cfg tile_1_0_missing
                           open_white "2024/02/29/233000" 0 1 empty_dir))
             "2024/02/29/233000" row col w cause w' E).
Defined.

(** With mirror A down the whole run succeeds on mirror B: prune unlinks
    the old tile file, each cell asks A then B, the artifact is saved and
    handed to the desktop. *)
Example main_on_second_mirror :
  main sample_cfg mirror_a_down open_white nearest sample_clock png_only
       elsewhere small_dir =
  (Ok tt,
   {| files := ["2d_550_2024__02__29__232000.png";
                "2d_550_2024__02__29__231000.png";
                "tile_0_0.png"; "tile_0_1.png"; "tile_1_0.png"; "tile_1_1.png";
                "2d_550_2024__02__29__233000.png"];
      clock_reads := 2;
      events :=
        [Unlink "/home/u/himawari/tile_0_0.png";
         Get "https://a.example/img/D531106/2d/550/2024/02/29/233000_0_0.png";
         Get "https://b.example/img/D531106/2d/550/2024/02/29/233000_0_0.png";
         WriteBytes "/home/u/himawari/tile_0_0.png";
         Get "https://a.example/img/D531106/2d/550/2024/02/29/233000_1_0.png";
         Get "https://b.example/img/D531106/2d/550/2024/02/29/233000_1_0.png";
         WriteBytes "/home/u/himawari/tile_0_1.png";
         Get "https://a.example/img/D531106/2d/550/2024/02/29/233000_0_1.png";
         Get "https://b.example/img/D531106/2d/550/2024/02/29/233000_0_1.png";
         WriteBytes "/home/u/himawari/tile_1_0.png";
         Get "https://a.example/img/D531106/2d/550/2024/02/29/233000_1_1.png";
         Get "https://b.example/img/D531106/2d/550/2024/02/29/233000_1_1.png";
         WriteBytes "/home/u/himawari/tile_1_1.png";
         Save "/home/u/himawari/2d_550_2024__02__29__233000.png";
         SetWallpaper "/home/u/himawari/2d_550_2024__02__29__233000.png"] |}).
Proof. reflexivity. Qed.

(** With the tile of column 1, row 0 missing everywhere the run stops at
    that cell: the second cell in row-major order. *)
Example main_tile_missing :
  main sample_cfg tile_1_0_missing open_white nearest sample_clock png_only
       elsewhere small_dir =
  (Raise (RuntimeError "Failed to download tile (1,0) from all URLs"
                       (Some (RequestException "404"))),
   {| files := ["2d_550_2024__02__29__232000.png";
                "2d_550_2024__02__29__231000.png"; "tile_0_0.png"];
      clock_reads := 1;
      events :=
        [Unlink "/home/u/himawari/tile_0_0.png";
         Get "https://a.example/img/D531106/2d/550/2024/02/29/233000_0_0.png";
         WriteBytes "/home/u/himawari/tile_0_0.png";
         Get "https://a.example/img/D531106/2d/550/2024/02/29/233000_1_0.png";
         Get "https://b.example/img/D531106/2d/550/2024/02/29/233000_1_0.png"] |}).
Proof. reflexivity. Qed.

(** With mirror A serving bodies that are cut short, every cell takes the
    tile of mirror A, since the file opens, and mirror B is never asked;
    the run then stops in [stitch_tiles], at the first paste, with the
    exception of the decoder.  Nothing is saved. *)
Example main_truncated_tiles :
  main sample_cfg mirror_a_cut open_lazily nearest sample_clock png_only
       elsewhere small_dir =
  (Raise (OSError "image file is truncated"),
   {| files := ["2d_550_2024__02__29__232000.png";
                "2d_550_2024__02__29__231000.png";
                "tile_0_0.png"; "tile_0_1.png"; "tile_1_0.png"; "tile_1_1.png"];
      clock_reads := 1;
      events :=
        [Unlink "/home/u/himawari/tile_0_0.png";
         Get "https://a.example/img/D531106/2d/550/2024/02/29/233000_0_0.png";
         WriteBytes "/home/u/himawari/tile_0_0.png";
         Get "https://a.example/img/D531106/2d/550/2024/02/29/233000_1_0.png";
         WriteBytes "/home/u/himawari/tile_0_1.png";
         Get "https://a.example/img/D531106/2d/550/2024/02/29/233000_0_1.png";
         WriteBytes "/home/u/himawari/tile_1_0.png";
         Get "https://a.example/img/D531106/2d/550/2024/02/29/233000_1_1.png";
         WriteBytes "/home/u/himawari/tile_1_1.png"] |}).
Proof. reflexivity. Qed.

Lemma main_aborts_on_failed_cell_witness :
  exists row' col' cause w3,
    main sample_cfg tile_1_0_missing open_white nearest sample_clock png_only
         elsewhere small_dir
    = (Raise (RuntimeError (failed_message col' row') cause), w3) /\
    (forall path, ~ In (Save path) (events w3)) /\
    (forall path, ~ In (SetWallpaper path) (events w3)).
Proof.
  destruct (main_aborts_on_failed_cell sample_cfg tile_1_0_missing open_white
              nearest sample_clock png_only elsewhere small_dir
              {| files := ["2d_550_2024__02__29__232000.png";
                           "2d_550_2024__02__29__231000.png"];
                 clock_reads := 1;
                 events := [Unlink "/home/u/himawari/tile_0_0.png"] |}
              (Datetime.mk 738945 23 30 0 0) 0 1)
    as (before & row' & col' & after & cause & w3 & extra & _ & _ & _ & _
        & Emain & _ & Hsave & Hset & _).
  - reflexivity.
  - simpl. lia.
  - simpl. lia.
  - repeat constructor.
  - exists row', col', cause, w3. split; [exact Emain|]. split.
    + intros path Hp. apply Hsave in Hp. exact Hp.
    + intros path Hp. apply Hset in Hp. exact Hp.
Defined.

Lemma get_timestamp_fallback_witness :
  get_timestamp "wallpaper.png" = "0" /\
  get_timestamp "tile_0_3.png" = "3" /\
  get_timestamp (artifact_name sample_cfg (Datetime.mk 738945 23 30 0 0)) = "2024" /\
  String.ltb "0" (get_timestamp (artifact_name sample_cfg (Datetime.mk 738945 23 30 0 0)))
  = true.
Proof.
  destruct (get_timestamp_fallback sample_cfg) as (Hshort & Hlong & Hart & _).
  split; [|split; [|split]].
  - apply (Hshort "wallpaper.png"). simpl. lia.
  - apply (Hlong "tile_0_3.png"). simpl. lia.
  - rewrite (proj1 (Hart (Datetime.mk 738945 23 30 0 0) ltac:(simpl; lia))).
    reflexivity.
  - apply (proj2 (Hart (Datetime.mk 738945 23 30 0 0) ltac:(simpl; lia))).
Defined.

(** C8 fails on the code: the tile file of column 3 does not name a
    timestamp, yet its key ["3"] sorts after the key ["2024"] of an
    artifact, and with a cap of one prune deletes the artifact and keeps
    the tile file. *)
Lemma tile_sorts_after_artifact :
  get_timestamp "tile_0_3.png" = "3" /\
  get_timestamp "4d_550_2024__01__01__000000.png" = "2024" /\
  String.leb "3" "2024" = false /\
  sort_by get_timestamp ["tile_0_3.png"; "4d_550_2024__01__01__000000.png"]
  = ["4d_550_2024__01__01__000000.png"; "tile_0_3.png"] /\
  clean_old_images "out" 1
    {| files := ["tile_0_3.png"; "4d_550_2024__01__01__000000.png"];
       clock_reads := 0; events := [] |}
  = (Ok tt, {| files := ["tile_0_3.png"];
               clock_reads := 0;
               events := [Unlink "out/4d_550_2024__01__01__000000.png"] |}).
Proof. repeat split. Qed.

(** The product is the binary64 one: 100 * 0.29 is 28.999999999999996 and
    the target size 28. *)
Example target_size_100_0_29 :
  bindR (Py.mul (PyInt 100) (PyFloat ratio_0_29)) Py.int = Ok 28 /\
  bindR (Py.mul (PyInt 100) (PyFloat ratio_0_29)) Py.floor = Ok 28.
Proof. split; reflexivity. Qed.

Lemma prune_deletes_smallest_keys_witness :
  String.leb (get_timestamp "tile_0_0.png")
             (get_timestamp "4d_550_2024__01__01__000000.png") = true.
Proof.
  apply (prune_deletes_smallest_keys "out" 1 dir_with_tile
           "tile_0_0.png" "4d_550_2024__01__01__000000.png").
  - simpl. repeat constructor; simpl; intuition discriminate.
  - vm_compute. now left.
  - vm_compute. now left.
Defined.

Lemma prune_idempotent_witness :
  clean_old_images "out" 1 (snd (clean_old_images "out" 1 dir_with_tile))
  = (Ok tt, snd (clean_old_images "out" 1 dir_with_tile)).
Proof.
  apply (prune_idempotent "out" 1 dir_with_tile).
  simpl. repeat constructor; simpl; intuition discriminate.
Defined.

Lemma prune_spares_other_files_witness :
  In "notes.txt" (files (snd (clean_old_images "out" 1 dir_with_tile))).
Proof.
  apply (proj1 (proj2 (prune_spares_other_files "out" 1 dir_with_tile))).
  - simpl. tauto.
  - reflexivity.
Defined.

Lemma prune_across_years_witness :
  clean_old_images "out" 1
    {| files := [artifact_name sample_cfg (Datetime.mk 738945 23 30 0 0);
                 artifact_name sample_cfg (Datetime.mk 738000 12 0 0 0)];
       clock_reads := 0; events := [] |}
  = (Ok tt,
     {| files := [artifact_name sample_cfg (Datetime.mk 738945 23 30 0 0)];
        clock_reads := 0;
        events := [Unlink (join "out"
                     (artifact_name sample_cfg (Datetime.mk 738000 12 0 0 0)))] |}).
Proof.
  apply (proj2 (proj2 (prune_across_years sample_cfg "out"
                         (Datetime.mk 738000 12 0 0 0)
                         (Datetime.mk 738945 23 30 0 0) 0 []
                         ltac:(vm_compute; discriminate)
                         ltac:(vm_compute; reflexivity)
                         ltac:(vm_compute; discriminate)))).
Defined.

Lemma tile_name_distinct_witness :
  (0 = 0 /\ 1 = 1) /\
  tile_name 0 1 <> artifact_name sample_cfg (Datetime.mk 738945 23 30 0 0).
Proof.
  split.
  - apply (proj1 (tile_name_distinct sample_cfg) 0 1 0 1). reflexivity.
  - apply (proj2 (tile_name_distinct sample_cfg)).
Defined.

Lemma aligned_time_window_witness :
  exists t,
    get_aligned_time sample_cfg sample_clock empty_dir = (Ok t, tick empty_dir) /\
    Datetime.to_micros t
    <= Datetime.to_micros (sample_clock 0) - 30 * 60000000
    < Datetime.to_micros t + 10 * 60000000.
Proof.
  destruct (aligned_time_window sample_cfg sample_clock empty_dir)
    as (t & Erun & _ & Hwin).
  - unfold Datetime.valid, Datetime.MAXORDINAL. simpl. lia.
  - simpl. lia.
  - unfold representable, Datetime.MAXORDINAL. simpl. lia.
  - exists t. split; [exact Erun | exact Hwin].
Defined.

Lemma aligned_time_long_interval_witness :
  get_aligned_time two_hourly_cfg sample_clock empty_dir
  = (Ok (Datetime.mk 738945 23 0 0 0), tick empty_dir).
Proof.
  destruct (aligned_time_long_interval two_hourly_cfg sample_clock empty_dir)
    as (target & Esub & Erun).
  - unfold Datetime.valid, Datetime.MAXORDINAL. simpl. lia.
  - simpl. lia.
  - unfold representable, Datetime.MAXORDINAL. simpl. lia.
  - injection Esub as <-. exact Erun.
Defined.

Lemma main_zero_interval_witness :
  fst (main zero_interval_cfg mirror_a_down open_white nearest sample_clock
            png_only elsewhere small_dir) = Raise ZeroDivisionError.
Proof.
  rewrite (main_zero_interval zero_interval_cfg mirror_a_down open_white nearest
             sample_clock png_only elsewhere small_dir).
  - reflexivity.
  - reflexivity.
  - unfold Datetime.valid, Datetime.MAXORDINAL. simpl. lia.
  - unfold representable, Datetime.MAXORDINAL. simpl. lia.
Defined.

Lemma main_succeeds_witness :
  exists w',
    main sample_cfg mirror_a_down open_white nearest sample_clock png_only
         elsewhere small_dir
    = (Ok tt, w') /\
    In "2d_550_2024__02__29__233000.png" (files w') /\
    clock_reads w' = 2%nat.
Proof.
  destruct (main_succeeds sample_cfg mirror_a_down open_white nearest sample_clock
              png_only elsewhere small_dir (Datetime.mk 738945 23 30 0 0)
              (Datetime.mk 738945 23 30 0 0)
              (PyFloat (S754_finite false 8549802417586176 (-43))) 972)
    as (w' & Erun & _ & Hin & Hclock).
  - reflexivity.
  - reflexivity.
  - simpl. lia.
  - intros row col Hr Hc. exists (solid_file 2 2 white).
    change (ND sample_cfg) with 2 in Hr, Hc.
    assert (Hrow : row = 0 \/ row = 1) by lia.
    assert (Hcol : col = 0 \/ col = 1) by lia.
    destruct Hrow as [-> | ->], Hcol as [-> | ->];
      (split; [reflexivity|]); (split; [reflexivity|]); simpl; lia.
  - simpl. lia.
  - simpl. lia.
  - reflexivity.
  - reflexivity.
  - lia.
  - exists w'. split; [exact Erun|]. split; [exact Hin | exact Hclock].
Defined.

Lemma main_stops_at_undecodable_tile_witness :
  exists w',
    main sample_cfg mirror_a_cut open_lazily nearest sample_clock png_only
         elsewhere small_dir
    = (Raise (OSError "image file is truncated"), w') /\
    gets (events w')
    = ["https://a.example/img/D531106/2d/550/2024/02/29/233000_0_0.png";
       "https://a.example/img/D531106/2d/550/2024/02/29/233000_1_0.png";
       "https://a.example/img/D531106/2d/550/2024/02/29/233000_0_1.png";
       "https://a.example/img/D531106/2d/550/2024/02/29/233000_1_1.png"] /\
    clock_reads w' = 1%nat.
Proof.
  destruct (main_stops_at_undecodable_tile sample_cfg mirror_a_cut open_lazily
              nearest sample_clock png_only elsewhere small_dir
              (Datetime.mk 738945 23 30 0 0) [] [(0, 1); (1, 0); (1, 1)] 0 0
              (truncated 2 2) (truncated 2 2) (OSError "image file is truncated"))
    as (w' & Erun & Hev & Hclock).
  - reflexivity.
  - simpl. lia.
  - intros r c Hr Hc.
    change (ND sample_cfg) with 2 in Hr, Hc.
    assert (Hrow : r = 0 \/ r = 1) by lia.
    assert (Hcol : c = 0 \/ c = 1) by lia.
    destruct Hrow as [-> | ->], Hcol as [-> | ->]; reflexivity.
  - reflexivity.
  - simpl. lia.
  - simpl. lia.
  - reflexivity.
  - intros r c tl [].
  - reflexivity.
  - reflexivity.
  - exists w'. split; [exact Erun|]. split; [|exact Hclock].
    rewrite Hev. reflexivity.
Defined.

Lemma main_without_mirrors_witness :
  fst (main no_mirror_cfg mirror_a_down open_white nearest sample_clock png_only
            elsewhere small_dir)
  = Raise (RuntimeError "Failed to download tile (0,0) from all URLs" None).
Proof.
  rewrite (main_without_mirrors no_mirror_cfg mirror_a_down open_white nearest
             sample_clock png_only elsewhere small_dir
             (Datetime.mk 738945 23 30 0 0)).
  - reflexivity.
  - reflexivity.
  - simpl. lia.
  - reflexivity.
Defined.

Lemma main_empty_grid_witness :
  fst (main no_grid_cfg mirror_a_down open_white nearest sample_clock png_only
            elsewhere small_dir)
  = Raise IndexError.
Proof.
  rewrite (proj2 (main_empty_grid no_grid_cfg mirror_a_down open_white nearest
                    sample_clock png_only elsewhere small_dir
                    (Datetime.mk 738945 23 30 0 0)
                    ltac:(simpl; lia) eq_refl)).
  reflexivity.
Defined.

Lemma stitch_tiles_incomplete_witness :
  stitch_tiles sample_cfg
    [[solid_file 2 2 red; solid_file 2 2 green]; [solid_file 2 2 blue]]
  = Raise IndexError.
Proof.
  apply (stitch_tiles_incomplete sample_cfg _ 1 1).
  - simpl. lia.
  - simpl. lia.
  - reflexivity.
  - intros tile0 E. injection E as <-. simpl. lia.
  - repeat constructor.
Defined.

Lemma download_tiles_fetches_every_cell_witness :
  exists tiles w',
    download_tiles sample_cfg mirror_a_down open_white "2024/02/29/233000"
                   empty_dir = (Ok tiles, w') /\
    grid 2 tiles /\
    In "tile_1_1.png" (files w').
Proof.
  destruct (download_tiles_fetches_every_cell sample_cfg mirror_a_down open_white
              "2024/02/29/233000" empty_dir)
    as (tiles & w' & Erun & Hgrid & _ & _ & Hfiles & _).
  - simpl. lia.
  - intros row col Hr Hc. exists "https://b.example/img/D531106".
    split; [simpl; tauto|].
    change (ND sample_cfg) with 2 in Hr, Hc.
    assert (Hrow : row = 0 \/ row = 1) by lia.
    assert (Hcol : col = 0 \/ col = 1) by lia.
    destruct Hrow as [-> | ->], Hcol as [-> | ->]; reflexivity.
  - exists tiles, w'. split; [exact Erun|]. split; [exact Hgrid|].
    apply (Hfiles 1 1); simpl; lia.
Defined.

Lemma download_cell_keeps_unreadable_tile_witness :
  exists cause w',
    download_cell sample_cfg empty_bodies open_white "2024/02/29/233000" 0 1
                  empty_dir
    = (Raise (RuntimeError (failed_message 1 0) cause), w') /\
    In "tile_0_1.png" (files w').
Proof.
  destruct (download_cell_keeps_unreadable_tile sample_cfg empty_bodies open_white
              "2024/02/29/233000" 0 1 empty_dir
              "https://b.example/img/D531106" "")
    as (cause & w' & Erun & Hin & _).
  - repeat constructor.
  - simpl. tauto.
  - reflexivity.
  - exists cause, w'. split; [exact Erun | exact Hin].
Defined.

Lemma resize_and_center_fills_witness :
  exists canvas,
    resize_and_center nearest (solid 4 4 red) (1080, 1080) (PyFloat ratio_1_0)
    = Ok canvas /\
    Image.getpixel canvas 0 0 = red /\
    Image.getpixel canvas 1079 1079 = red.
Proof.
  destruct (resize_and_center_fills nearest (solid 4 4 red) 1080
              (PyFloat ratio_1_0)
              (PyFloat (S754_finite false 4749890231992320 (-42))))
    as (resized & canvas & Er & Ec & _ & Hpix).
  - lia.
  - reflexivity.
  - reflexivity.
  - injection Er as <-. exists canvas. split; [exact Ec|]. split.
    + rewrite (Hpix 0 0) by lia. reflexivity.
    + rewrite (Hpix 1079 1079) by lia. reflexivity.
Defined.

Lemma resize_and_center_rejects_witness :
  resize_and_center nearest (solid 4 4 red) (-1, 1080) (PyInt 1) = Raise ValueError /\
  resize_and_center nearest (solid 4 4 red) (1920, 1080) (PyFloat S754_nan)
  = Raise ValueError.
Proof.
  split.
  - apply (proj1 (resize_and_center_rejects nearest (solid 4 4 red) (-1) 1080)
             (PyInt 1) (PyInt (-1)) (-1)).
    + left. lia.
    + reflexivity.
    + reflexivity.
  - apply (proj2 (resize_and_center_rejects nearest (solid 4 4 red) 1920 1080)
             (S754_finite false 4749890231992320 (-42))).
    reflexivity.
Defined.


(* ================================================================== *)
(** * The command-line tool *)
(* ================================================================== *)

Section CliFacts.

Variables home here sys_executable username : string.
Variable returncode : list string -> Z.

Local Abbreviation venv_cmd := (Cli.venv_cmd here sys_executable).
Local Abbreviation pip_upgrade_cmd := (Cli.pip_upgrade_cmd here).
Local Abbreviation pip_requirements_cmd := (Cli.pip_requirements_cmd here).
Local Abbreviation load_cmd := (Cli.load_cmd home).
Local Abbreviation unload_cmd := (Cli.unload_cmd home).
Local Abbreviation script_cmd := (Cli.script_cmd here).
Local Abbreviation plist_content := (Cli.plist_content here username).
Local Abbreviation subprocess_run := (Cli.subprocess_run here sys_executable returncode).
Local Abbreviation create_venv := (Cli.create_venv here sys_executable returncode).
Local Abbreviation install_agent :=
  (Cli.install_agent home here sys_executable username returncode).
Local Abbreviation uninstall_agent :=
  (Cli.uninstall_agent home here sys_executable returncode).
Local Abbreviation run_once := (Cli.run_once here sys_executable returncode).
Local Abbreviation main := (Cli.main home here sys_executable username returncode).

Lemma cmd_eqb_length (a b : list string) :
  List.length a <> List.length b -> Cli.cmd_eqb a b = false.
Proof.
  intros H. unfold Cli.cmd_eqb.
  destruct (list_eq_dec string_dec a b) as [->|]; [now elim H | reflexivity].
Qed.

Lemma cmd_eqb_refl (a : list string) : Cli.cmd_eqb a a = true.
Proof.
  unfold Cli.cmd_eqb. destruct (list_eq_dec string_dec a a); congruence.
Qed.

Lemma subprocess_run_other (cmd : list string) (check : bool) (w : Cli.world) :
  List.length cmd <> 4%nat ->
  subprocess_run cmd check w
  = (if check && negb (returncode cmd =? 0)
     then Cli.CalledProcessError (returncode cmd) cmd else Cli.Done,
     {| Cli.venv_exists := Cli.venv_exists w;
        Cli.plist := Cli.plist w;
        Cli.runs := Cli.runs w ++ [cmd] |}).
Proof.
  intros H. unfold Cli.subprocess_run.
  rewrite cmd_eqb_length by exact H.
  rewrite Bool.andb_false_l, Bool.orb_false_r.
  now destruct (check && negb (returncode cmd =? 0)).
Qed.

Lemma subprocess_run_venv (w : Cli.world) :
  subprocess_run venv_cmd true w
  = (if returncode venv_cmd =? 0
     then Cli.Done else Cli.CalledProcessError (returncode venv_cmd) venv_cmd,
     {| Cli.venv_exists := Cli.venv_exists w || (returncode venv_cmd =? 0);
        Cli.plist := Cli.plist w;
        Cli.runs := Cli.runs w ++ [venv_cmd] |}).
Proof.
  unfold Cli.subprocess_run. rewrite cmd_eqb_refl. cbn [andb negb].
  now destruct (returncode venv_cmd =? 0).
Qed.

Lemma install_agent_venv_present (w : Cli.world) :
  Cli.venv_exists w = true ->
  install_agent w
  = (if returncode load_cmd =? 0
     then Cli.Done else Cli.CalledProcessError (returncode load_cmd) load_cmd,
     {| Cli.venv_exists := true;
        Cli.plist := Some plist_content;
        Cli.runs := Cli.runs w ++ [load_cmd] |}).
Proof.
  intros Hv. unfold Cli.install_agent, Cli.andthen at 1, Cli.create_venv.
  rewrite Hv. cbn [negb].
  unfold Cli.andthen, Cli.write_plist.
  rewrite subprocess_run_other by (cbn; discriminate).
  cbn [Cli.venv_exists Cli.plist Cli.runs andb]. rewrite Hv.
  now destruct (returncode load_cmd =? 0).
Qed.

(** X20.  [stop] never fails, whatever [launchctl unload] returns: it
    leaves no LaunchAgent file, runs [launchctl unload] exactly when the
    file was there, keeps the virtual environment, and a second [stop]
    changes nothing. *)
Theorem uninstall_agent_removes_agent (w : Cli.world) :
  exists w',
    uninstall_agent w = (Cli.Done, w')
    /\ Cli.plist w' = None
    /\ Cli.venv_exists w' = Cli.venv_exists w
    /\ Cli.runs w'
       = Cli.runs w ++ match Cli.plist w with
                       | Some _ => [unload_cmd]
                       | None => []
                       end
    /\ uninstall_agent w' = (Cli.Done, w').
Proof.
  unfold Cli.uninstall_agent. destruct w as [v [text|] rs]; cbn [Cli.plist].
  - unfold Cli.andthen. rewrite subprocess_run_other by (cbn; discriminate).
    cbn [andb Cli.unlink_plist Cli.venv_exists Cli.plist Cli.runs].
    eexists. split; [reflexivity|]. cbn. repeat split.
  - exists {| Cli.venv_exists := v; Cli.plist := None; Cli.runs := rs |}.
    cbn. rewrite app_nil_r. repeat split.
Qed.

(** X21.  When the virtual environment is missing and one of the three
    set-up commands fails, [install] stops at the first one that fails with
    its [CalledProcessError]: later commands are not run, the LaunchAgent
    file is left as it was and [launchctl load] is not run. *)
Theorem install_agent_failed_setup (w : Cli.world) (pre post : list (list string))
    (c : list string) :
  Cli.venv_exists w = false ->
  [venv_cmd; pip_upgrade_cmd; pip_requirements_cmd] = pre ++ c :: post ->
  Forall (fun d => returncode d = 0) pre ->
  returncode c <> 0 ->
  exists w',
    install_agent w = (Cli.CalledProcessError (returncode c) c, w')
    /\ Cli.plist w' = Cli.plist w
    /\ Cli.runs w' = Cli.runs w ++ pre ++ [c].
Proof.
  intros Hv Hsplit Hpre Hc.
  unfold Cli.install_agent, Cli.andthen at 1, Cli.create_venv.
  rewrite Hv. cbn [negb]. unfold Cli.andthen.
  rewrite subprocess_run_venv.
  destruct pre as [|p0 pre].
  { injection Hsplit as <- _. apply Z.eqb_neq in Hc. rewrite Hc.
    eexists. split; [reflexivity|]. now cbn. }
  injection Hsplit as <- Hsplit.
  apply Forall_cons_iff in Hpre as [H0 Hpre]. rewrite H0. cbn [Z.eqb].
  rewrite subprocess_run_other by (cbn; discriminate). cbn [andb].
  destruct pre as [|p1 pre].
  { injection Hsplit as <- _. apply Z.eqb_neq in Hc. rewrite Hc. cbn [negb].
    eexists. split; [reflexivity|]. cbn. now rewrite <- app_assoc. }
  injection Hsplit as <- Hsplit.
  apply Forall_cons_iff in Hpre as [H1 Hpre]. rewrite H1. cbn [Z.eqb negb].
  rewrite subprocess_run_other by (cbn; discriminate). cbn [andb].
  destruct pre as [|p2 pre].
  { injection Hsplit as <- _. apply Z.eqb_neq in Hc. rewrite Hc. cbn [negb].
    eexists. split; [reflexivity|]. cbn. now rewrite <- !app_assoc. }
  injection Hsplit as _ Hsplit. now destruct pre.
Qed.

(** X22.  The dependencies are installed only together with the virtual
    environment: when [venv] succeeds and the first [pip] command fails,
    [install] fails, and a second [install] does not run [pip] again: it
    only writes the LaunchAgent file and runs [launchctl load]. *)
Theorem install_agent_never_retries_pip (w : Cli.world) :
  Cli.venv_exists w = false ->
  returncode venv_cmd = 0 ->
  returncode pip_upgrade_cmd <> 0 ->
  exists w1 o w2,
    install_agent w
    = (Cli.CalledProcessError (returncode pip_upgrade_cmd) pip_upgrade_cmd, w1)
    /\ install_agent w1 = (o, w2)
    /\ Cli.runs w2 = Cli.runs w ++ [venv_cmd; pip_upgrade_cmd; load_cmd]
    /\ Cli.plist w2 = Some plist_content
    /\ (returncode load_cmd = 0 -> o = Cli.Done).
Proof.
  intros Hv H0 Hc.
  unfold Cli.install_agent at 1, Cli.andthen at 1, Cli.create_venv.
  rewrite Hv. cbn [negb]. unfold Cli.andthen.
  rewrite subprocess_run_venv, H0. cbn [Z.eqb].
  rewrite subprocess_run_other by (cbn; discriminate). cbn [andb].
  apply Z.eqb_neq in Hc. rewrite Hc. cbn [negb].
  eexists. eexists. eexists. split; [reflexivity|].
  rewrite install_agent_venv_present
    by (cbn [Cli.venv_exists]; apply Bool.orb_true_r).
  split; [reflexivity|]. cbn [Cli.runs Cli.plist].
  rewrite <- !app_assoc. cbn [app]. repeat split.
  intros ->. reflexivity.
Qed.

(** X23.  A first [install] whose five commands all succeed runs, in this
    order, [venv], the two [pip] commands, [launchctl load] and the
    wallpaper script, and leaves the LaunchAgent file with the generated
    text. *)
Theorem main_install_fresh (w : Cli.world) (prog arg : string)
    (rest : list string) :
  Cli.lower arg = "install" ->
  Cli.venv_exists w = false ->
  Forall (fun d => returncode d = 0)
    [venv_cmd; pip_upgrade_cmd; pip_requirements_cmd; load_cmd; script_cmd] ->
  main (prog :: arg :: rest) w
  = (Cli.Done,
     {| Cli.venv_exists := true;
        Cli.plist := Some plist_content;
        Cli.runs := Cli.runs w
                    ++ [venv_cmd; pip_upgrade_cmd; pip_requirements_cmd;
                        load_cmd; script_cmd] |}).
Proof.
  intros Ha Hv Hall.
  repeat (apply Forall_cons_iff in Hall as [? Hall]).
  unfold Cli.main. rewrite Ha. cbn [String.eqb Ascii.eqb Bool.eqb andb].
  unfold Cli.andthen at 1, Cli.install_agent, Cli.andthen at 1, Cli.create_venv.
  rewrite Hv. cbn [negb]. unfold Cli.andthen, Cli.write_plist, Cli.run_once.
  rewrite subprocess_run_venv.
  repeat match goal with H : returncode _ = 0 |- _ => rewrite H; clear H end.
  cbn [Z.eqb].
  repeat (rewrite subprocess_run_other by (cbn; discriminate);
          repeat match goal with H : returncode _ = 0 |- _ => rewrite H end;
          cbn [Z.eqb andb negb Cli.venv_exists Cli.plist Cli.runs]).
  rewrite Bool.orb_true_r, <- !app_assoc. reflexivity.
Qed.

(** X24.  Without a command word, or with a word that is none of
    [install], [runonce], [stop] and [restore] once lowered, the tool exits
    with status 1 and has run no command and touched no file. *)
Theorem main_rejects (w : Cli.world) (argv : list string) :
  (forall arg, nth_error argv 1 = Some arg ->
     ~ In (Cli.lower arg) ["install"; "runonce"; "stop"; "restore"]) ->
  main argv w = (Cli.SystemExit 1, w).
Proof.
  intros H. destruct argv as [|prog [|arg rest]]; try reflexivity.
  specialize (H arg eq_refl). unfold Cli.main.
  destruct (String.eqb_spec (Cli.lower arg) "install") as [E|_];
    [elim H; rewrite E; cbn; auto|].
  destruct (String.eqb_spec (Cli.lower arg) "runonce") as [E|_];
    [elim H; rewrite E; cbn; auto|].
  destruct (String.eqb_spec (Cli.lower arg) "stop") as [E|_];
    [elim H; rewrite E; cbn; auto|].
  destruct (String.eqb_spec (Cli.lower arg) "restore") as [E|_];
    [elim H; rewrite E; cbn; auto 6|].
  reflexivity.
Qed.

Lemma lower_char_idem (c : ascii) :
  Cli.lower_char (Cli.lower_char c) = Cli.lower_char c.
Proof.
  destruct c as [[] [] [] [] [] [] [] []]; reflexivity.
Qed.

Lemma lower_idem (s : string) : Cli.lower (Cli.lower s) = Cli.lower s.
Proof.
  induction s as [|c s IH]; [reflexivity|].
  cbn [Cli.lower]. now rewrite lower_char_idem, IH.
Qed.

(** X25.  The tool reads the command word only: its letter case, the
    program name and any further argument make no difference. *)
Theorem main_reads_lowered_word (w : Cli.world) (prog prog' arg : string)
    (rest rest' : list string) :
  main (prog :: arg :: rest) w = main (prog' :: Cli.lower arg :: rest') w.
Proof.
  unfold Cli.main. now rewrite lower_idem.
Qed.

End CliFacts.


Lemma install_agent_failed_setup_witness :
  exists w',
    Cli.install_agent "/Users/u" "/opt/himawari" "/usr/bin/python3" "u"
      pip_fails fresh_mac
    = (Cli.CalledProcessError 1 (Cli.pip_upgrade_cmd "/opt/himawari"), w')
    /\ Cli.plist w' = None
    /\ Cli.runs w'
       = [Cli.venv_cmd "/opt/himawari" "/usr/bin/python3";
          Cli.pip_upgrade_cmd "/opt/himawari"].
Proof.
  apply (install_agent_failed_setup "/Users/u" "/opt/himawari"
           "/usr/bin/python3" "u" pip_fails fresh_mac
           [Cli.venv_cmd "/opt/himawari" "/usr/bin/python3"]
           [Cli.pip_requirements_cmd "/opt/himawari"]
           (Cli.pip_upgrade_cmd "/opt/himawari")).
  - reflexivity.
  - reflexivity.
  - repeat constructor.
  - vm_compute. discriminate.
Defined.

Lemma install_agent_never_retries_pip_witness :
  exists w1 o w2,
    Cli.install_agent "/Users/u" "/opt/himawari" "/usr/bin/python3" "u"
      pip_fails fresh_mac
    = (Cli.CalledProcessError 1 (Cli.pip_upgrade_cmd "/opt/himawari"), w1)
    /\ Cli.install_agent "/Users/u" "/opt/himawari" "/usr/bin/python3" "u"
         pip_fails w1 = (o, w2)
    /\ Cli.runs w2
       = [Cli.venv_cmd "/opt/himawari" "/usr/bin/python3";
          Cli.pip_upgrade_cmd "/opt/himawari";
          Cli.load_cmd "/Users/u"]
    /\ Cli.plist w2 = Some (Cli.plist_content "/opt/himawari" "u")
    /\ (pip_fails (Cli.load_cmd "/Users/u") = 0 -> o = Cli.Done).
Proof.
  apply (install_agent_never_retries_pip "/Users/u" "/opt/himawari"
           "/usr/bin/python3" "u" pip_fails fresh_mac).
  - reflexivity.
  - reflexivity.
  - vm_compute. discriminate.
Defined.

Lemma main_install_fresh_witness :
  Cli.main "/Users/u" "/opt/himawari" "/usr/bin/python3" "u" all_succeed
    ["cli.py"; "Install"] fresh_mac
  = (Cli.Done,
     {| Cli.venv_exists := true;
        Cli.plist := Some (Cli.plist_content "/opt/himawari" "u");
        Cli.runs := [Cli.venv_cmd "/opt/himawari" "/usr/bin/python3";
                     Cli.pip_upgrade_cmd "/opt/himawari";
                     Cli.pip_requirements_cmd "/opt/himawari";
                     Cli.load_cmd "/Users/u";
                     Cli.script_cmd "/opt/himawari"] |}).
Proof.
  apply (main_install_fresh "/Users/u" "/opt/himawari" "/usr/bin/python3" "u"
           all_succeed fresh_mac "cli.py" "Install" []).
  - reflexivity.
  - reflexivity.
  - repeat constructor.
Defined.

Lemma main_rejects_witness :
  Cli.main "/Users/u" "/opt/himawari" "/usr/bin/python3" "u" all_succeed
    ["cli.py"; "start"] fresh_mac
  = (Cli.SystemExit 1, fresh_mac).
Proof.
  apply (main_rejects "/Users/u" "/opt/himawari" "/usr/bin/python3" "u"
           all_succeed fresh_mac ["cli.py"; "start"]).
  intros arg H. injection H as <-. vm_compute.
  intros [H|[H|[H|[H|[]]]]]; discriminate H.
Defined.

(** The sizes of the two generated texts on a sample installation. *)
Example generated_text_sizes :
  String.length (Cli.plist_content "/opt/himawari" "u") = 769%nat
  /\ String.length Cli.restore_script = 327%nat.
Proof.
  split; vm_compute; reflexivity.
Qed.
